(** * phi.assistant.assistant: the Assistant orchestrator

    A shallow embedding of [src/phi/assistant/assistant.py] and the
    properties of its run-identity, persistence, task-chaining, structured
    output and naming code.

    Conventions.
    - Python [None]-able attributes are [option]s; a [Dict[str, Any]] is a
      [gmap string pyval]; Python objects that are mutated in place are
      threaded through explicitly, and an object reachable under two names
      (the row held in [db_row], the memory shared with the tasks) is written
      back under both.
    - Methods are computations [M A] over a [World]: the assistant object
      together with the ghost trace of the calls it made to its collaborators
      (storage, language model, tasks, monitoring, logger).  A computation
      returns [Ok v] or [Raise e]; state changes made before a raise persist.
    - A Python generator is a suspended computation ([Generator]): creating it
      runs nothing, advancing it runs its body.
    - A call to a collaborator (language model, storage, task, serialiser)
      is modelled as returning.  An exception raised inside a collaborator,
      which the orchestrator lets through, is not modelled: the properties
      speak of the executions in which the collaborators return, and the
      [Raise] outcomes are the exceptions the orchestrator raises itself.
    - [str] is modelled as a sequence of code points below 256. *)

From stdpp Require Import gmap strings list fin_maps pretty.
From Stdlib Require Import ZArith Ascii.

Set Warnings "-register-all".


(** ** Python values *)

(** The values flowing through messages, task outputs and metadata.
    [VModel cls fields] is an instance of a pydantic [BaseModel] subclass. *)
Inductive pyval :=
  | VNone
  | VBool (b : bool)
  | VInt (z : Z)
  | VStr (s : string)
  | VList (l : list pyval)
  | VDict (d : gmap string pyval)
  | VModel (cls : string) (fields : gmap string pyval).

Abbreviation dict := (gmap string pyval).

(** [bool(v)]: Python truthiness. *)
Definition truthy (v : pyval) : bool :=
  match v with
  | VNone => false
  | VBool b => b
  | VInt z => negb (z =? 0)%Z
  | VStr s => negb (String.eqb s "")
  | VList l => match l with [] => false | _ => true end
  | VDict d => match map_to_list d with [] => false | _ => true end
  | VModel _ _ => true
  end.

(** [issubclass(v.__class__, BaseModel)] *)
Definition is_base_model (v : pyval) : bool :=
  match v with VModel _ _ => true | _ => false end.

(** ** Python string operations used by the module *)

Module Py.

(** [c.isspace()] for a code point below 256. *)
Definition isspace (c : Ascii.ascii) : bool :=
  let n := Ascii.nat_of_ascii c in
  (((9 <=? n) && (n <=? 13)) || ((28 <=? n) && (n <=? 32))
   || (n =? 133) || (n =? 160))%nat.

Fixpoint split_go (cur : string) (s : string) : list string :=
  match s with
  | EmptyString => match cur with EmptyString => [] | _ => [cur] end
  | String c s' =>
      if isspace c
      then match cur with
           | EmptyString => split_go "" s'
           | _ => cur :: split_go "" s'
           end
      else split_go (cur +:+ String c "") s'
  end.

(** [s.split()]: the maximal runs of non-whitespace characters. *)
Definition split (s : string) : list string := split_go "" s.

Fixpoint lstrip (s : string) : string :=
  match s with
  | EmptyString => ""
  | String c s' => if isspace c then lstrip s' else s
  end.

(** [s.strip()] *)
Definition strip (s : string) : string :=
  String.rev (lstrip (String.rev (lstrip s))).

(** [s.startswith(p)] *)
Definition startswith (s p : string) : bool := String.prefix p s.

(** Scan for [old] left to right; [skip] counts the characters of a match
    that are still to be dropped. *)
Fixpoint replace_go (old new : string) (skip : nat) (s : string) : string :=
  match s with
  | EmptyString => ""
  | String c s' =>
      match skip with
      | S k => replace_go old new k s'
      | O =>
          if String.prefix old s
          then new +:+ replace_go old new (String.length old - 1) s'
          else String c (replace_go old new 0 s')
      end
  end.

(** [s.replace(old, new)] for a non-empty [old] (every call site passes a
    non-empty literal). *)
Definition replace (s old new : string) : string := replace_go old new 0 s.

Definition upper_char (c : Ascii.ascii) : Ascii.ascii :=
  let n := Ascii.nat_of_ascii c in
  if ((97 <=? n) && (n <=? 122))%nat then Ascii.ascii_of_nat (n - 32) else c.

(** [s.upper()] on the ASCII letters. *)
Fixpoint upper (s : string) : string :=
  match s with
  | EmptyString => ""
  | String c s' => String (upper_char c) (upper s')
  end.

(** [l[-n:]] *)
Definition last_n {A} (n : nat) (l : list A) : list A :=
  drop (length l - n) l.

(** [sep.join(l)] for the empty separator *)
Definition join (l : list string) : string := foldr String.append "" l.

(** The characters of a string. *)
Fixpoint chars (s : string) : list Ascii.ascii :=
  match s with
  | EmptyString => []
  | String c s' => c :: chars s'
  end.

(** The double-quote character and text built from it. *)
Definition dquote : string := String (Ascii.ascii_of_nat 34) "".
Definition quoted (s : string) : string := dquote +:+ s +:+ dquote.

(** The line feed character, as a string. *)
Definition newline : string := String (Ascii.ascii_of_nat 10) "".

End Py.

(** ** Data model *)

(** [phi.llm.message.Message]: the role and the text of one turn. *)
Module Message.
Record t := mk { role : string; content : option string }.

(** [str(m.content)] as an f-string renders it. *)
Definition content_str (m : t) : string := default "None" (content m).

(** [m.model_dump(exclude_none=True)] *)
Definition model_dump (m : t) : pyval :=
  VDict (match content m with
         | Some c => <["content" := VStr c]> {["role" := VStr (role m)]}
         | None => {["role" := VStr (role m)]}
         end).
End Message.

(** [phi.memory.assistant.AssistantMemory]: the visible chat history and the
    raw messages exchanged with the model. *)
Module AssistantMemory.
Record t := mk {
  chat_history : list Message.t;
  llm_messages : list Message.t
}.

Definition empty : t := mk [] [].

(** Modelled from the spec: [add_chat_message] of the absent
    [phi.memory.assistant]; the store is an append-only ordered log of
    conversation turns. *)
Definition add_chat_message (m : Message.t) (mem : t) : t :=
  mk (chat_history mem ++ [m]) (llm_messages mem).

(** Modelled from the spec: [add_llm_messages] of the absent
    [phi.memory.assistant]; every forwarded message is recorded, in order,
    in the raw message history. *)
Definition add_llm_messages (ms : list Message.t) (mem : t) : t :=
  mk (chat_history mem) (llm_messages mem ++ ms).
End AssistantMemory.

(** [phi.assistant.run.AssistantRun]: the persisted snapshot of a run. *)
Module AssistantRun.
Record t := mk {
  name : option string;
  run_id : option string;
  run_name : option string;
  user_id : option string;
  llm : option dict;
  memory : option dict;
  assistant_data : option dict;
  run_data : option dict;
  user_data : option dict;
  task_data : option dict
}.

Definition set_assistant_data (v : option dict) (r : t) : t :=
  mk (name r) (run_id r) (run_name r) (user_id r) (llm r) (memory r)
     v (run_data r) (user_data r) (task_data r).
Definition set_run_data (v : option dict) (r : t) : t :=
  mk (name r) (run_id r) (run_name r) (user_id r) (llm r) (memory r)
     (assistant_data r) v (user_data r) (task_data r).
Definition set_user_data (v : option dict) (r : t) : t :=
  mk (name r) (run_id r) (run_name r) (user_id r) (llm r) (memory r)
     (assistant_data r) (run_data r) v (task_data r).
Definition set_task_data (v : option dict) (r : t) : t :=
  mk (name r) (run_id r) (run_name r) (user_id r) (llm r) (memory r)
     (assistant_data r) (run_data r) (user_data r) v.
End AssistantRun.

(** [output_model: Optional[Union[str, List, Type[BaseModel]]]]; the code also
    tests for a [dict] instance.  [OMClass cls] is a [BaseModel] subclass. *)
Inductive OutputModel :=
  | OMStr (s : string)
  | OMDict (d : dict)
  | OMList (l : list pyval)
  | OMClass (cls : string).

(** A Python object that the assistant holds and passes on without looking
    inside (a callable, a tool, a knowledge base), known by its identity. *)
Inductive PyObject := PyRef (id : nat).

(** The attributes that no method of the assistant assigns or tests: the
    settings for the use of the memory, the knowledge base and the tools and
    for building the prompts.  [llm_task] hands them to the default task (all
    but [add_chat_history_to_prompt]).  [markdown], which the source lists
    with the prompt settings, is not among them: [print_response] assigns it,
    and it is an attribute of [Assistant] of its own below. *)
Record Settings := mkSettings {
  add_chat_history_to_messages : bool;
  add_chat_history_to_prompt : bool;
  num_history_messages : Z;
  add_references_to_prompt : bool;
  use_tools : bool;
  show_tool_calls : bool;
  tool_call_limit : option Z;
  update_knowledge_base : bool;
  read_tool_call_history : bool;
  format_messages : bool;
  system_prompt : option string;
  build_default_system_prompt : bool;
  description : option string;
  instructions : option (list string);
  extra_instructions : option (list string);
  add_to_system_prompt : option string;
  add_knowledge_base_instructions : bool;
  prevent_hallucinations : bool;
  prevent_prompt_injection : bool;
  limit_tool_access : bool;
  add_datetime_to_instructions : bool;
  user_prompt : option pyval;
  build_default_user_prompt : bool;
  references_format : string;
  knowledge_base : option PyObject;
  tools : option (list PyObject);
  tool_choice : option pyval;
  system_prompt_function : option PyObject;
  user_prompt_function : option PyObject;
  references_function : option PyObject;
  chat_history_function : option PyObject
}.

(** [phi.task.task.Task]: the attributes the orchestrator reads or writes.
    [config] stands for everything else the task object carries. *)
Module Task.
Record t {LLM : Type} := mk {
  config : pyval;
  is_llm_task : bool;
  llm : option LLM;
  show_output : bool;
  streamable : bool;
  output : option pyval;
  parse_output : bool;
  run_id : option string;
  assistant_name : option string;
  assistant_memory : option AssistantMemory.t;
  run_message : option pyval;
  run_task_data : option (list dict)
}.
Arguments t : clear implicits.
Arguments mk {LLM}.

Section Setters.
Context {LLM : Type}.
Implicit Type k : t LLM.

Definition set_llm (v : option LLM) k : t LLM :=
  mk (config k) (is_llm_task k) v (show_output k) (streamable k) (output k)
     (parse_output k) (run_id k) (assistant_name k) (assistant_memory k)
     (run_message k) (run_task_data k).
Definition set_output (v : option pyval) k : t LLM :=
  mk (config k) (is_llm_task k) (llm k) (show_output k) (streamable k) v
     (parse_output k) (run_id k) (assistant_name k) (assistant_memory k)
     (run_message k) (run_task_data k).
Definition set_parse_output (v : bool) k : t LLM :=
  mk (config k) (is_llm_task k) (llm k) (show_output k) (streamable k)
     (output k) v (run_id k) (assistant_name k) (assistant_memory k)
     (run_message k) (run_task_data k).
Definition set_run_id (v : option string) k : t LLM :=
  mk (config k) (is_llm_task k) (llm k) (show_output k) (streamable k)
     (output k) (parse_output k) v (assistant_name k) (assistant_memory k)
     (run_message k) (run_task_data k).
Definition set_assistant_name (v : option string) k : t LLM :=
  mk (config k) (is_llm_task k) (llm k) (show_output k) (streamable k)
     (output k) (parse_output k) (run_id k) v (assistant_memory k)
     (run_message k) (run_task_data k).
Definition set_assistant_memory (v : option AssistantMemory.t) k : t LLM :=
  mk (config k) (is_llm_task k) (llm k) (show_output k) (streamable k)
     (output k) (parse_output k) (run_id k) (assistant_name k) v
     (run_message k) (run_task_data k).
Definition set_run_message (v : option pyval) k : t LLM :=
  mk (config k) (is_llm_task k) (llm k) (show_output k) (streamable k)
     (output k) (parse_output k) (run_id k) (assistant_name k)
     (assistant_memory k) v (run_task_data k).
Definition set_run_task_data (v : option (list dict)) k : t LLM :=
  mk (config k) (is_llm_task k) (llm k) (show_output k) (streamable k)
     (output k) (parse_output k) (run_id k) (assistant_name k)
     (assistant_memory k) (run_message k) v.
End Setters.
End Task.

(** The [Assistant] object.  [settings] groups the attributes that are only
    read, to build the default task. *)
Record Assistant {LLM Storage : Type} := mkAssistant {
  llm : option LLM;
  introduction : option string;
  name : option string;
  assistant_data : option dict;
  run_id : option string;
  run_name : option string;
  run_data : option dict;
  user_id : option string;
  user_data : option dict;
  memory : AssistantMemory.t;
  storage : option Storage;
  db_row : option AssistantRun.t;
  settings : Settings;
  markdown : bool;
  output_model : option OutputModel;
  parse_output : bool;
  output : option pyval;
  tasks : option (list (Task.t LLM));
  task_data : option dict;
  debug_mode : bool;
  monitoring : bool
}.
Arguments Assistant : clear implicits.
Arguments mkAssistant {LLM Storage}.

(** Attribute assignment [self.f = v], one definition per assigned attribute. *)
Section Setters.
Context {LLM Storage : Type}.
Implicit Type a : Assistant LLM Storage.
Definition with_llm (v : option LLM) a : Assistant LLM Storage :=
  mkAssistant
    v (introduction a) (name a) (assistant_data a) (run_id a) (run_name a)
    (run_data a) (user_id a) (user_data a) (memory a) (storage a)
    (db_row a) (settings a) (markdown a) (output_model a) (parse_output a)
    (output a) (tasks a) (task_data a) (debug_mode a) (monitoring a).
Definition with_name (v : option string) a : Assistant LLM Storage :=
  mkAssistant
    (llm a) (introduction a) v (assistant_data a) (run_id a) (run_name a)
    (run_data a) (user_id a) (user_data a) (memory a) (storage a)
    (db_row a) (settings a) (markdown a) (output_model a) (parse_output a)
    (output a) (tasks a) (task_data a) (debug_mode a) (monitoring a).
Definition with_assistant_data (v : option dict) a : Assistant LLM Storage :=
  mkAssistant
    (llm a) (introduction a) (name a) v (run_id a) (run_name a)
    (run_data a) (user_id a) (user_data a) (memory a) (storage a)
    (db_row a) (settings a) (markdown a) (output_model a) (parse_output a)
    (output a) (tasks a) (task_data a) (debug_mode a) (monitoring a).
Definition with_run_id (v : option string) a : Assistant LLM Storage :=
  mkAssistant
    (llm a) (introduction a) (name a) (assistant_data a) v (run_name a)
    (run_data a) (user_id a) (user_data a) (memory a) (storage a)
    (db_row a) (settings a) (markdown a) (output_model a) (parse_output a)
    (output a) (tasks a) (task_data a) (debug_mode a) (monitoring a).
Definition with_run_name (v : option string) a : Assistant LLM Storage :=
  mkAssistant
    (llm a) (introduction a) (name a) (assistant_data a) (run_id a) v
    (run_data a) (user_id a) (user_data a) (memory a) (storage a)
    (db_row a) (settings a) (markdown a) (output_model a) (parse_output a)
    (output a) (tasks a) (task_data a) (debug_mode a) (monitoring a).
Definition with_run_data (v : option dict) a : Assistant LLM Storage :=
  mkAssistant
    (llm a) (introduction a) (name a) (assistant_data a) (run_id a)
    (run_name a) v (user_id a) (user_data a) (memory a) (storage a)
    (db_row a) (settings a) (markdown a) (output_model a) (parse_output a)
    (output a) (tasks a) (task_data a) (debug_mode a) (monitoring a).
Definition with_user_id (v : option string) a : Assistant LLM Storage :=
  mkAssistant
    (llm a) (introduction a) (name a) (assistant_data a) (run_id a)
    (run_name a) (run_data a) v (user_data a) (memory a) (storage a)
    (db_row a) (settings a) (markdown a) (output_model a) (parse_output a)
    (output a) (tasks a) (task_data a) (debug_mode a) (monitoring a).
Definition with_user_data (v : option dict) a : Assistant LLM Storage :=
  mkAssistant
    (llm a) (introduction a) (name a) (assistant_data a) (run_id a)
    (run_name a) (run_data a) (user_id a) v (memory a) (storage a)
    (db_row a) (settings a) (markdown a) (output_model a) (parse_output a)
    (output a) (tasks a) (task_data a) (debug_mode a) (monitoring a).
Definition with_memory (v : AssistantMemory.t) a : Assistant LLM Storage :=
  mkAssistant
    (llm a) (introduction a) (name a) (assistant_data a) (run_id a)
    (run_name a) (run_data a) (user_id a) (user_data a) v (storage a)
    (db_row a) (settings a) (markdown a) (output_model a) (parse_output a)
    (output a) (tasks a) (task_data a) (debug_mode a) (monitoring a).
Definition with_storage (v : option Storage) a : Assistant LLM Storage :=
  mkAssistant
    (llm a) (introduction a) (name a) (assistant_data a) (run_id a)
    (run_name a) (run_data a) (user_id a) (user_data a) (memory a) v
    (db_row a) (settings a) (markdown a) (output_model a) (parse_output a)
    (output a) (tasks a) (task_data a) (debug_mode a) (monitoring a).
Definition with_db_row (v : option AssistantRun.t) a : Assistant LLM Storage :=
  mkAssistant
    (llm a) (introduction a) (name a) (assistant_data a) (run_id a)
    (run_name a) (run_data a) (user_id a) (user_data a) (memory a)
    (storage a) v (settings a) (markdown a) (output_model a)
    (parse_output a) (output a) (tasks a) (task_data a) (debug_mode a)
    (monitoring a).
Definition with_markdown (v : bool) a : Assistant LLM Storage :=
  mkAssistant
    (llm a) (introduction a) (name a) (assistant_data a) (run_id a)
    (run_name a) (run_data a) (user_id a) (user_data a) (memory a)
    (storage a) (db_row a) (settings a) v (output_model a) (parse_output a)
    (output a) (tasks a) (task_data a) (debug_mode a) (monitoring a).
Definition with_output (v : option pyval) a : Assistant LLM Storage :=
  mkAssistant
    (llm a) (introduction a) (name a) (assistant_data a) (run_id a)
    (run_name a) (run_data a) (user_id a) (user_data a) (memory a)
    (storage a) (db_row a) (settings a) (markdown a) (output_model a)
    (parse_output a) v (tasks a) (task_data a) (debug_mode a)
    (monitoring a).
Definition with_tasks (v : option (list (Task.t LLM))) a : Assistant LLM Storage :=
  mkAssistant
    (llm a) (introduction a) (name a) (assistant_data a) (run_id a)
    (run_name a) (run_data a) (user_id a) (user_data a) (memory a)
    (storage a) (db_row a) (settings a) (markdown a) (output_model a)
    (parse_output a) (output a) v (task_data a) (debug_mode a)
    (monitoring a).
Definition with_task_data (v : option dict) a : Assistant LLM Storage :=
  mkAssistant
    (llm a) (introduction a) (name a) (assistant_data a) (run_id a)
    (run_name a) (run_data a) (user_id a) (user_data a) (memory a)
    (storage a) (db_row a) (settings a) (markdown a) (output_model a)
    (parse_output a) (output a) (tasks a) v (debug_mode a) (monitoring a).
End Setters.

(** ** Collaborator interfaces

    The language-model client, the storage adapter, the task implementations
    and the serialisers live outside this file; the orchestrator is
    parameterised by them. *)

(** [phi.llm.base.LLM].  A call may change the client (its metrics), and
    [generate]/[generate_stream] extend the message list they are given (the
    response is its last element afterwards). *)
Class LLMClient (LLM : Type) := {
  llm_metrics : LLM → dict;
  llm_set_metrics : dict → LLM → LLM;
  llm_to_dict : LLM → dict;
  llm_model_copy : LLM → LLM;
  llm_response : LLM → list Message.t → string * LLM;
  llm_generate : LLM → list Message.t → pyval * list Message.t * LLM;
  llm_generate_stream :
    LLM → list Message.t → list pyval * list Message.t * LLM
}.

(** [phi.storage.assistant.AssistantStorage]: [read(run_id)] and
    [upsert(row)]; [None] from [upsert] signals a failed write. *)
Class StorageAdapter (Storage : Type) := {
  storage_read : Storage → string → option AssistantRun.t;
  storage_upsert : Storage → AssistantRun.t → option AssistantRun.t * Storage
}.

(** What one call of [Task.run] hands back: the returned value, the task's
    [output] attribute afterwards, and the shared memory and per-task metadata
    list as the task left them. *)
Record TaskReturn {R : Type} := mkTaskReturn {
  tr_value : R;
  tr_output : option pyval;
  tr_memory : AssistantMemory.t;
  tr_task_data : list dict
}.
Arguments TaskReturn : clear implicits.

(** [phi.task]: [run(message, stream=True)] yields chunks,
    [run(message, stream=False)] returns one response; [llm_task_init] is the
    [LLMTask] constructor as [Assistant.llm_task] calls it. *)
Class TaskRunner (LLM : Type) := {
  task_run_stream : Task.t LLM → option pyval → TaskReturn (list pyval);
  task_run_batch : Task.t LLM → option pyval → TaskReturn pyval;
  llm_task_init :
    option LLM → option string → AssistantMemory.t → Settings →
    bool → option OutputModel → Task.t LLM
}.

(** [json], pydantic and the memory (de)serialisation.  [None] is a raised
    [JSONDecodeError], [TypeError] or [ValidationError]. *)
Class Codecs := {
  json_loads : string → option pyval;
  json_dumps : pyval → option string;
  model_validate_json : string → string → option pyval;
  model_dump_json : pyval → string;
  memory_to_dict : AssistantMemory.t → dict;
  memory_model_validate : dict → option AssistantMemory.t
}.

(** ** Worlds, effects and generators *)

Inductive LogLevel := LError | LWarning.

(** The calls the assistant makes to the outside. *)
Inductive Event :=
  | EvStorageRead (run_id : string)
  | EvStorageUpsert (row : AssistantRun.t)
  | EvTaskRun (idx : nat) (message : option pyval) (stream : bool)
  | EvLLMResponse (messages : list Message.t)
  | EvLLMGenerate (messages : list Message.t)
  | EvLLMGenerateStream (messages : list Message.t)
  | EvApiRun (row : AssistantRun.t)
  | EvApiEvent (row : AssistantRun.t) (event_type : string) (event_data : dict)
  | EvLog (level : LogLevel) (text : string).

Record World {LLM Storage : Type} := mkWorld {
  self : Assistant LLM Storage;
  trace : list Event
}.
Arguments World : clear implicits.
Arguments mkWorld {LLM Storage}.

Inductive result (A : Type) :=
  | Ok (v : A)
  | Raise (e : string).
Arguments Ok {A}.
Arguments Raise {A}.

(** What a generator produced when it was run to its end: the items it
    yielded, and the exception that ended it, if any. *)
Record Drained {A : Type} := mkDrained {
  yielded : list A;
  raised : option string
}.
Arguments Drained : clear implicits.
Arguments mkDrained {A}.

Section Effects.
Context {LLM Storage : Type}.

Definition M (A : Type) : Type :=
  World LLM Storage → result A * World LLM Storage.

Definition ret {A} (v : A) : M A := λ w, (Ok v, w).

Definition raise {A} (e : string) : M A := λ w, (Raise e, w).

Definition bind {A B} (c : M A) (k : A → M B) : M B :=
  λ w, match c w with
       | (Ok v, w') => k v w'
       | (Raise e, w') => (Raise e, w')
       end.

(** Reading and updating [self], and recording a call in the trace. *)
Definition get_self : M (Assistant LLM Storage) := λ w, (Ok (self w), w).

Definition modify (f : Assistant LLM Storage → Assistant LLM Storage)
  : M unit :=
  λ w, (Ok tt, mkWorld (f (self w)) (trace w)).

Definition emit (e : Event) : M unit :=
  λ w, (Ok tt, mkWorld (self w) (trace w ++ [e])).

(** A generator object: nothing runs until it is advanced. *)
Definition Generator (A : Type) : Type :=
  World LLM Storage → Drained A * World LLM Storage.

(** [next(g)] on a fresh generator whose body yields, if at all, as its last
    effectful step (the non-streaming bodies below): the first item, or the
    exception that ended the body. *)
Definition next {A} (g : Generator A) : M A :=
  λ w, let '(d, w') := g w in
       match yielded d with
       | x :: _ => (Ok x, w')
       | [] => (Raise (default "StopIteration" (raised d)), w')
       end.

End Effects.

Notation "'let!' x := c 'in' k" := (bind c (λ x, k))
  (at level 10, x name, c at level 100, k at level 200,
   format "'[v' 'let!'  x  :=  c  'in' '/' k ']'").
Notation "c ;;; k" := (bind c (λ _, k))
  (at level 100, k at level 200, right associativity,
   format "'[v' c  ;;; '/' k ']'").

(** ** The methods of [Assistant] *)

Section Methods.
Context {LLM Storage : Type}.
Context `{!LLMClient LLM, !StorageAdapter Storage, !TaskRunner LLM, !Codecs}.

Implicit Type a : Assistant LLM Storage.
Implicit Type row : AssistantRun.t.

(** [set_run_id], the [run_id] field validator run at construction:
    [v if v is not None else str(uuid4())].  [uuid4] is the identifier the
    generator would hand out. *)
Definition set_run_id (uuid4 : string) (v : option string) : string :=
  match v with
  | Some x => x
  | None => uuid4
  end.

(** [Assistant(...)]: the given attribute values with the validator applied
    to [run_id] (also to its default). *)
Definition new_assistant (uuid4 : string) (kw : Assistant LLM Storage)
  : Assistant LLM Storage :=
  with_run_id (Some (set_run_id uuid4 (run_id kw))) kw.

Definition new_world (uuid4 : string) (kw : Assistant LLM Storage)
  : World LLM Storage :=
  mkWorld (new_assistant uuid4 kw) [].

(** [streamable]: [self.output_model is None] *)
Definition streamable a : bool :=
  match output_model a with
  | None => true
  | Some _ => false
  end.

(** [llm_task]: a fresh [LLMTask] built from the assistant's settings. *)
Definition llm_task a : Task.t LLM :=
  llm_task_init (llm_model_copy <$> llm a) (name a) (memory a) (settings a)
                (markdown a) (output_model a).

Definition to_database_row a : AssistantRun.t :=
  AssistantRun.mk (name a) (run_id a) (run_name a) (user_id a)
    (llm_to_dict <$> llm a) (Some (memory_to_dict (memory a)))
    (assistant_data a) (run_data a) (user_data a) (task_data a).

(** Modelled from the spec: [merge_dictionaries(a, b)] of the absent
    [phi.utils.merge_dict] updates [a] in place with [b]; [a] is the base and
    the values of [b] take precedence on key conflicts. *)
Definition merge_dictionaries (a b : dict) : dict := b ∪ a.

(** One identity attribute:
    [if self.f is None and row.f is not None: self.f = row.f] *)
Definition load_if_unset {X} (live persisted : option X) : option X :=
  match live, persisted with
  | None, Some v => Some v
  | _, _ => live
  end.

(** One metadata dictionary: the pair of [self.f] and [row.f] after
<<
    if row.f is not None:
        if self.f is not None and row.f is not None:
            merge_dictionaries(row.f, self.f)
            self.f = row.f
        if self.f is None and row.f is not None:
            self.f = row.f
>>
    The merge updates the row's dictionary in place and [self.f] then names
    that same object. *)
Definition load_data (live persisted : option dict)
  : option dict * option dict :=
  match persisted with
  | Some p =>
      match live with
      | Some l => let m := merge_dictionaries p l in (Some m, Some m)
      | None => (Some p, Some p)
      end
  | None => (live, None)
  end.

(** The metadata reconciliation as the specification words it: the
    persisted values are the base and the live values take precedence on key
    conflicts; an absent live dictionary defers entirely to the persisted
    one (and an absent persisted one leaves the live one alone). *)
Definition reconciled (live persisted : option dict) : option dict :=
  match persisted with
  | Some p =>
      Some (match live with
            | Some l => merge_dictionaries p l
            | None => p
            end)
  | None => live
  end.

(** [from_database_row(row)]; returns the row as the call leaves it. *)
Definition from_database_row row : M (LLM:=LLM) (Storage:=Storage) AssistantRun.t :=
  modify (λ a, with_name (load_if_unset (name a) (AssistantRun.name row)) a);;;
  modify (λ a, with_run_id (load_if_unset (run_id a) (AssistantRun.run_id row)) a);;;
  modify (λ a, with_run_name
                 (load_if_unset (run_name a) (AssistantRun.run_name row)) a);;;
  modify (λ a, with_user_id
                 (load_if_unset (user_id a) (AssistantRun.user_id row)) a);;;
  (match AssistantRun.llm row with
   | Some d =>
       match d !! "metrics" with
       | Some (VDict llm_metrics_from_db) =>
           modify (λ a, with_llm
                          (llm_set_metrics llm_metrics_from_db <$> llm a) a)
       | _ => ret tt
       end
   | None => ret tt
   end);;;
  (match AssistantRun.memory row with
   | Some d =>
       match memory_model_validate d with
       | Some mem => modify (with_memory mem)
       | None => emit (EvLog LWarning "Failed to load assistant memory")
       end
   | None => ret tt
   end);;;
  let! a := get_self in
  let '(ad, row_ad) := load_data (assistant_data a) (AssistantRun.assistant_data row) in
  let '(rd, row_rd) := load_data (run_data a) (AssistantRun.run_data row) in
  let '(ud, row_ud) := load_data (user_data a) (AssistantRun.user_data row) in
  let '(td, row_td) := load_data (task_data a) (AssistantRun.task_data row) in
  modify (with_assistant_data ad);;;
  modify (with_run_data rd);;;
  modify (with_user_data ud);;;
  modify (with_task_data td);;;
  ret (AssistantRun.set_task_data row_td
         (AssistantRun.set_user_data row_ud
            (AssistantRun.set_run_data row_rd
               (AssistantRun.set_assistant_data row_ad row)))).

(** [read_from_storage()] *)
Definition read_from_storage : M (LLM:=LLM) (Storage:=Storage) (option AssistantRun.t) :=
  let! a := get_self in
  match storage a, run_id a with
  | Some st, Some rid =>
      emit (EvStorageRead rid);;;
      modify (with_db_row (storage_read st rid));;;
      let! a := get_self in
      match db_row a with
      | Some row =>
          if match user_id a with
             | Some uid => bool_decide (AssistantRun.user_id row ≠ Some uid)
             | None => false
             end
          then
            emit (EvLog LError
                    ("SECURITY ERROR: User id mismatch: "
                     +:+ default "None" (user_id a) +:+ " != "
                     +:+ default "None" (AssistantRun.user_id row)));;;
            ret None
          else
            let! row' := from_database_row row in
            modify (with_db_row (Some row'));;;
            ret (Some row')
      | None => ret None
      end
  | _, _ => ret (db_row a)
  end.

(** [write_to_storage()] *)
Definition write_to_storage : M (LLM:=LLM) (Storage:=Storage) (option AssistantRun.t) :=
  let! a := get_self in
  match storage a with
  | Some st =>
      let row := to_database_row a in
      emit (EvStorageUpsert row);;;
      let '(r, st') := storage_upsert st row in
      modify (λ a, with_db_row r (with_storage (Some st') a));;;
      ret r
  | None => ret (db_row a)
  end.

(** [add_introduction(introduction)] *)
Definition add_introduction (introduction : option string) : M (LLM:=LLM) (Storage:=Storage) unit :=
  match introduction with
  | Some text =>
      let! a := get_self in
      if (length (AssistantMemory.chat_history (memory a)) =? 0)%nat
      then modify (with_memory
                     (AssistantMemory.add_chat_message
                        (Message.mk "assistant" (Some text)) (memory a)))
      else ret tt
  | None => ret tt
  end.

(** [bool(s)] for an optional string *)
Definition nonempty (s : option string) : bool :=
  match s with
  | Some x => negb (String.eqb x "")
  | None => false
  end.

(** [self.db_row or self.to_database_row()]: a row object is always truthy *)
Definition database_row a : AssistantRun.t :=
  default (to_database_row a) (db_row a).

(** [_api_log_assistant_run()] *)
Definition _api_log_assistant_run : M (LLM:=LLM) (Storage:=Storage) unit :=
  let! a := get_self in
  if negb (monitoring a) then ret tt
  else emit (EvApiRun (database_row a)).

(** [_api_log_assistant_event(event_type, event_data)] *)
Definition _api_log_assistant_event (event_type : string) (event_data : dict)
  : M (LLM:=LLM) (Storage:=Storage) unit :=
  let! a := get_self in
  if negb (monitoring a) then ret tt
  else emit (EvApiEvent (database_row a) event_type event_data).

(** [create_run()] *)
Definition create_run : M (LLM:=LLM) (Storage:=Storage) (option string) :=
  let! a := get_self in
  match db_row a with
  | Some row => ret (AssistantRun.run_id row)
  | None =>
      (match storage a with
       | Some _ =>
           read_from_storage;;;
           let! a := get_self in
           match db_row a with
           | None =>
               (if nonempty (introduction a)
                then add_introduction (introduction a)
                else ret tt);;;
               let! written := write_to_storage in
               modify (with_db_row written);;;
               match written with
               | None => raise "Failed to create new assistant run in storage"
               | Some row =>
                   let! row' := from_database_row row in
                   modify (with_db_row (Some row'));;;
                   _api_log_assistant_run
               end
           | Some _ => ret tt
           end
       | None => ret tt
       end);;;
      let! a := get_self in
      ret (run_id a)
  end.

(** ** Running tasks *)

(** Wrap a generator body: an exception raised before the body built its
    result ends the generator with nothing yielded. *)
Definition generator {A} (body : M (LLM:=LLM) (Storage:=Storage) (Drained A))
  : Generator (LLM:=LLM) (Storage:=Storage) A :=
  λ w, match body w with
       | (Ok d, w') => (d, w')
       | (Raise e, w') => (mkDrained [] (Some e), w')
       end.

(** The locals of the task loop of [_run].  [ls_executed] is a ghost record
    of the loop: for each task run so far, the message it was handed and the
    task object as its run left it. *)
Record LoopState := mkLoop {
  ls_current : option (Task.t LLM);
  ls_run_output : string;
  ls_task_data : list dict;
  ls_chunks : list string;
  ls_executed : list (option pyval * Task.t LLM)
}.

(** [chunk if isinstance(chunk, str) else ""] *)
Definition chunk_text (chunk : pyval) : string :=
  match chunk with
  | VStr s => s
  | _ => ""
  end.

(** The conversion of a non-streamed task response inside the [try] block:
    [None] when the response is falsy or the conversion raises, in which
    case the task contributes nothing. *)
Definition response_text (response : pyval) : option string :=
  if truthy response then
    match response with
    | VStr s => Some s
    | VModel _ _ => Some (model_dump_json response)
    | _ => json_dumps response
    end
  else None.

(** "Prepare input message for the current_task" *)
Definition task_message (previous_task : option (Task.t LLM))
    (message : option pyval) : option pyval :=
  match previous_task with
  | Some p =>
      match Task.output p with
      | Some o =>
          if is_base_model o then Some (VStr (model_dump_json o)) else Some o
      | None => message
      end
  | None => message
  end.

(** "Update Task" and "Update LLMTask" *)
Definition prepare_task a (message : option pyval) (task_data : list dict)
    (task : Task.t LLM) : Task.t LLM :=
  let t1 := Task.set_run_id (run_id a) task in
  let t2 := Task.set_assistant_name (name a) t1 in
  let t3 := Task.set_assistant_memory (Some (memory a)) t2 in
  let t4 := Task.set_run_message message t3 in
  let t5 := Task.set_run_task_data (Some task_data) t4 in
  let t6 := Task.set_parse_output false t5 in
  if Task.is_llm_task t6 then
    match Task.llm t6, llm a with
    | None, Some l => Task.set_llm (Some (llm_model_copy l)) t6
    | _, _ => t6
    end
  else t6.

(** The task object after one call of its [run]. *)
Definition task_after {R} (r : TaskReturn R) (task : Task.t LLM) : Task.t LLM :=
  Task.set_output (tr_output r)
    (Task.set_assistant_memory (Some (tr_memory r))
       (Task.set_run_task_data (Some (tr_task_data r)) task)).

(** One iteration of the loop over [enumerate(_tasks, start=1)]. *)
Definition run_task (message : option pyval) (stream : bool) (idx : nat)
    (ls : LoopState) (task : Task.t LLM)
  : M (LLM:=LLM) (Storage:=Storage) LoopState :=
  let previous_task := ls_current ls in
  let separate :=
    match previous_task with
    | Some p => Task.show_output p
    | None => false
    end in
  let chunks :=
    if separate && stream
    then ls_chunks ls ++ [Py.newline +:+ Py.newline]
    else ls_chunks ls in
  let run_output :=
    if separate
    then ls_run_output ls +:+ (Py.newline +:+ Py.newline)
    else ls_run_output ls in
  let current_task_message := task_message previous_task message in
  let! a := get_self in
  let current_task := prepare_task a message (ls_task_data ls) task in
  if stream && Task.streamable current_task then
    emit (EvTaskRun idx current_task_message true);;;
    let r := task_run_stream current_task current_task_message in
    modify (with_memory (tr_memory r));;;
    let texts := chunk_text <$> tr_value r in
    let done := task_after r current_task in
    ret (if Task.show_output current_task
         then mkLoop (Some done)
                (fold_left String.append texts run_output)
                (tr_task_data r) (chunks ++ texts)
                (ls_executed ls ++ [(current_task_message, done)])
         else mkLoop (Some done) run_output (tr_task_data r) chunks
                (ls_executed ls ++ [(current_task_message, done)]))
  else
    emit (EvTaskRun idx current_task_message false);;;
    let r := task_run_batch current_task current_task_message in
    modify (with_memory (tr_memory r));;;
    let done := task_after r current_task in
    ret (match response_text (tr_value r) with
         | Some current_task_response_str =>
             if Task.show_output current_task
             then
               if stream
               then mkLoop (Some done) run_output (tr_task_data r)
                      (chunks ++ [current_task_response_str])
                      (ls_executed ls ++ [(current_task_message, done)])
               else mkLoop (Some done)
                      (run_output +:+ current_task_response_str)
                      (tr_task_data r) chunks
                      (ls_executed ls ++ [(current_task_message, done)])
             else mkLoop (Some done) run_output (tr_task_data r) chunks
                    (ls_executed ls ++ [(current_task_message, done)])
         | None => mkLoop (Some done) run_output (tr_task_data r) chunks
                     (ls_executed ls ++ [(current_task_message, done)])
         end).

(** The loop, from index [idx]. *)
Fixpoint run_tasks (message : option pyval) (stream : bool) (idx : nat)
    (ls : LoopState) (_tasks : list (Task.t LLM))
  : M (LLM:=LLM) (Storage:=Storage) LoopState :=
  match _tasks with
  | [] => ret ls
  | task :: rest =>
      let! ls' := run_task message stream idx ls task in
      run_tasks message stream (S idx) ls' rest
  end.

(** A stretch of the ghost record in which every task was handed the
    message prepared from the task before it, starting after [prev]. *)
Fixpoint chained (message : option pyval) (prev : option (Task.t LLM))
    (ex : list (option pyval * Task.t LLM)) : Prop :=
  match ex with
  | [] => True
  | (m, t) :: rest =>
      m = task_message prev message ∧ chained message (Some t) rest
  end.

(** The tasks of this run: the configured list, or one default [LLMTask]. *)
Definition run_task_list a : list (Task.t LLM) :=
  match tasks a with
  | Some (t :: ts) => t :: ts
  | _ => [llm_task a]
  end.

(** The event sent to monitoring at the end of [_run]. *)
Definition run_event_data a (message : option pyval) (run_output : string)
    (task_data : list dict) : dict :=
  let llm_response_type :=
    match output_model a with
    | Some _ => "json"
    | None => if markdown a then "markdown" else "text"
    end in
  <["user_message" := default VNone message]>
  (<["llm_response" := VStr run_output]>
  (<["llm_response_type" := VStr llm_response_type]>
  (<["info" := VDict {["tasks" := VList (VDict <$> task_data)]}]>
  {["metrics" := match llm a with
                 | Some l => VDict (llm_metrics l)
                 | None => VNone
                 end]}))).

(** The body of [_run] up to the end of the task loop. *)
Definition run_loop (message : option pyval) (stream : bool)
  : M (LLM:=LLM) (Storage:=Storage) LoopState :=
  read_from_storage;;;
  let! a := get_self in
  run_tasks message stream 1 (mkLoop None "" [] [] []) (run_task_list a).

(** [_run(message, stream)]: a generator of text.  The configured task
    objects are updated in place; they all name the one memory object and the
    one metadata list of the run. *)
Definition _run (message : option pyval) (stream : bool)
  : Generator (LLM:=LLM) (Storage:=Storage) string :=
  generator (
    let! ls := run_loop message stream in
    modify (λ a,
      match tasks a with
      | Some (_ :: _) =>
          with_tasks
            (Some ((λ p, Task.set_assistant_memory (Some (memory a))
                           (Task.set_run_task_data (Some (ls_task_data ls))
                              (snd p))) <$> ls_executed ls)) a
      | _ => a
      end);;;
    write_to_storage;;;
    let! a := get_self in
    _api_log_assistant_event "run"
      (run_event_data a message (ls_run_output ls) (ls_task_data ls));;;
    modify (with_output (Some (VStr (ls_run_output ls))));;;
    ret (mkDrained
           (if stream then ls_chunks ls
            else ls_chunks ls ++ [ls_run_output ls])
           None)).

(** What [run] and [chat_raw] return: a generator object or a value. *)
Inductive Returned (A B : Type) :=
  | Iterator (g : Generator (LLM:=LLM) (Storage:=Storage) A)
  | Value (v : B).
Arguments Iterator {A B}.
Arguments Value {A B}.

(** The opening and closing markers of a fenced JSON block. *)
Definition fence_open : string := "```json".
Definition fence_open_nl : string := fence_open +:+ Py.newline.
Definition fence_close_nl : string := Py.newline +:+ "```".

(** The fenced text [```json\n{"a":1}\n```] and the JSON text inside it. *)
Definition json_example : string := "{" +:+ Py.quoted "a" +:+ ":1}".
Definition fenced_example : string :=
  fence_open_nl +:+ json_example +:+ fence_close_nl.

(** [json_resp.replace("```json\n", "").replace("\n```", "")] *)
Definition strip_fence (json_resp : string) : string :=
  Py.replace (Py.replace json_resp fence_open_nl "") fence_close_nl "".

(** [self.output or json_resp] *)
Definition output_or a (json_resp : string) : pyval :=
  match output a with
  | Some o => if truthy o then o else VStr json_resp
  | None => VStr json_resp
  end.

(** "Update assistant output to the structured output":
    [if structured_output is not None: self.output = structured_output] *)
Definition update_output (structured_output : option pyval)
  : M (LLM:=LLM) (Storage:=Storage) unit :=
  match structured_output with
  | Some VNone | None => ret tt
  | Some o => modify (with_output (Some o))
  end.

(** [run(message, stream)] *)
Definition run (message : option pyval) (stream : bool)
  : M (LLM:=LLM) (Storage:=Storage) (Returned string pyval) :=
  let! a := get_self in
  match output_model a, parse_output a with
  | Some om, true =>
      let! json_resp := next (_run message false) in
      let! json_resp' :=
        match om with
        | OMStr _ | OMDict _ | OMList _ =>
            match json_loads json_resp with
            | Some structured_output =>
                update_output (Some structured_output);;;
                ret json_resp
            | None =>
                emit (EvLog LWarning
                        "Failed to convert response to output model");;;
                ret json_resp
            end
        | OMClass cls =>
            match model_validate_json cls json_resp with
            | Some structured_output =>
                update_output (Some structured_output);;;
                ret json_resp
            | None =>
                if Py.startswith json_resp fence_open then
                  let json_resp := strip_fence json_resp in
                  match model_validate_json cls json_resp with
                  | Some structured_output =>
                      update_output (Some structured_output);;;
                      ret json_resp
                  | None =>
                      emit (EvLog LWarning "Failed to validate response");;;
                      update_output None;;;
                      ret json_resp
                  end
                else
                  update_output None;;;
                  ret json_resp
            end
        end in
      let! a := get_self in
      ret (Value (output_or a json_resp'))
  | _, _ =>
      if stream && streamable a
      then ret (Iterator (_run message true))
      else
        let! resp := next (_run message false) in
        ret (Value (VStr resp))
  end.

(** [chat(message, stream)] *)
Definition chat (message : option pyval) (stream : bool)
  : M (LLM:=LLM) (Storage:=Storage) (Returned string pyval) :=
  run message stream.

(** The structured-output attempts as the specification words them: (a) for
    a primitive container marker, parse the aggregate text as generic JSON;
    (b) for an object schema, validate the raw text against it directly;
    (c) on validation failure, strip the fenced-code-block wrapper and
    re-validate once.  [None]: every attempt failed. *)
Definition parse_attempts (om : OutputModel) (raw : string) : option pyval :=
  match om with
  | OMClass cls =>
      match model_validate_json cls raw with
      | Some o => Some o
      | None =>
          if Py.startswith raw fence_open
          then model_validate_json cls (strip_fence raw)
          else None
      end
  | _ => json_loads raw
  end.

(** ** Raw chat *)

(** [_chat_raw(messages, user_message, stream)]: a generator of response
    dictionaries. *)
Definition _chat_raw (messages : list Message.t) (user_message : option string)
    (stream : bool) : Generator (LLM:=LLM) (Storage:=Storage) pyval :=
  generator (
    let! a := get_self in
    match llm a with
    | None => raise "LLM not set"
    | Some _ =>
        read_from_storage;;;
        (if nonempty user_message
         then modify (λ a, with_memory
                             (AssistantMemory.add_chat_message
                                (Message.mk "user" user_message) (memory a)) a)
         else ret tt);;;
        let! a := get_self in
        match llm a with
        | None => raise "LLM not set"
        | Some client =>
            let '(deltas, batch_llm_response_message, messages', client') :=
              if stream
              then let '(ds, ms, c) := llm_generate_stream client messages in
                   (ds, VDict ∅, ms, c)
              else let '(d, ms, c) := llm_generate client messages in
                   ([], d, ms, c) in
            emit (if stream then EvLLMGenerateStream messages
                  else EvLLMGenerate messages);;;
            modify (with_llm (Some client'));;;
            modify (λ a, with_memory
                           (AssistantMemory.add_llm_messages messages'
                              (memory a)) a);;;
            match last messages' with
            | None => ret (mkDrained deltas (Some "IndexError"))
            | Some llm_response_message =>
                modify (λ a, with_memory
                               (AssistantMemory.add_chat_message
                                  llm_response_message (memory a)) a);;;
                write_to_storage;;;
                let! a := get_self in
                _api_log_assistant_event "chat_raw"
                  (<["user_message" :=
                       match user_message with
                       | Some u => VStr u
                       | None => VNone
                       end]>
                   (<["llm_response" :=
                        Message.model_dump llm_response_message]>
                   (<["messages" :=
                        VList (Message.model_dump <$> messages')]>
                   {["metrics" := VDict (llm_metrics client')]})));;;
                ret (mkDrained
                       (if stream then deltas
                        else [batch_llm_response_message])
                       None)
            end
        end
    end).

(** [self.tasks and len(self.tasks) > 0] *)
Definition has_tasks a : bool :=
  match tasks a with
  | Some (_ :: _) => true
  | _ => false
  end.

(** [chat_raw(messages, user_message, stream)] *)
Definition chat_raw (messages : list Message.t) (user_message : option string)
    (stream : bool) : M (LLM:=LLM) (Storage:=Storage) (Returned pyval pyval) :=
  let! a := get_self in
  if has_tasks a then raise "chat_raw does not support tasks"
  else
    let resp := _chat_raw messages user_message stream in
    if stream then ret (Iterator resp)
    else
      let! d := next resp in
      ret (Value d).

(** ** Renaming *)

(** [rename(name)] *)
Definition rename (new_name : string) : M (LLM:=LLM) (Storage:=Storage) unit :=
  read_from_storage;;;
  modify (with_name (Some new_name));;;
  write_to_storage;;;
  _api_log_assistant_run.

(** [rename_run(name)] *)
Definition rename_run (new_name : string)
  : M (LLM:=LLM) (Storage:=Storage) unit :=
  read_from_storage;;;
  modify (with_run_name (Some new_name));;;
  write_to_storage;;;
  _api_log_assistant_run.

(** The messages the name is generated from: the first visible turns (after
    a leading assistant turn), or the last four raw messages when there are
    none. *)
Definition messages_for_generating_name (mem : AssistantMemory.t)
  : list Message.t :=
  let picked :=
    match AssistantMemory.chat_history mem with
    | first :: _ =>
        if String.eqb (Message.role first) "assistant"
        then take 5 (drop 1 (AssistantMemory.chat_history mem))
        else take 6 (AssistantMemory.chat_history mem)
    | [] => []
    end in
  match picked with
  | [] => Py.last_n 4 (AssistantMemory.llm_messages mem)
  | _ => picked
  end.

(** The transcript [_conv] *)
Definition name_conversation (ms : list Message.t) : string :=
  fold_left
    (λ _conv message,
       _conv +:+ Py.upper (Message.role message) +:+ ": "
       +:+ Message.content_str message +:+ Py.newline)
    ms ("Conversation" +:+ Py.newline)
  +:+ (Py.newline +:+ Py.newline +:+ "Conversation Name: ").

Definition generate_name_messages (mem : AssistantMemory.t) : list Message.t :=
  [ Message.mk "system"
      (Some ("Please provide a suitable name for this conversation in maximum 5 words. "
             +:+ "Remember, do not exceed 5 words."));
    Message.mk "user"
      (Some (name_conversation (messages_for_generating_name mem))) ].

(** [generate_name()].  The recursion of the source has no bound; [fuel]
    bounds the number of retries followed, and [None] is returned when it
    runs out. *)
Fixpoint generate_name (fuel : nat)
  : M (LLM:=LLM) (Storage:=Storage) (option string) :=
  let! a := get_self in
  match llm a with
  | None => raise "LLM not set"
  | Some client =>
      (match AssistantMemory.chat_history (memory a) with
       | [] => emit (EvLog LWarning "Failed to generate name")
       | _ => ret tt
       end);;;
      let msgs := generate_name_messages (memory a) in
      emit (EvLLMResponse msgs);;;
      let '(generated_name, client') := llm_response client msgs in
      modify (with_llm (Some client'));;;
      if (15 <? length (Py.split generated_name))%nat then
        emit (EvLog LError "Generated name is too long. Trying again.");;;
        match fuel with
        | O => ret None
        | S fuel' => generate_name fuel'
        end
      else
        ret (Some (Py.strip (Py.replace generated_name Py.dquote "")))
  end.

(** [auto_rename_run()] *)
Definition auto_rename_run (fuel : nat)
  : M (LLM:=LLM) (Storage:=Storage) unit :=
  read_from_storage;;;
  let! generated_name := generate_name fuel in
  match generated_name with
  | Some n =>
      modify (with_run_name (Some n));;;
      write_to_storage;;;
      _api_log_assistant_run
  | None => ret tt
  end.

(** ** Printing and the command-line loop *)

(** Consume a generator to its end, as a [for] loop over it does. *)
Definition drain {A} (g : Generator (LLM:=LLM) (Storage:=Storage) A)
  : M (LLM:=LLM) (Storage:=Storage) (list A) :=
  λ w, let '(d, w') := g w in
       match raised d with
       | Some e => (Raise e, w')
       | None => (Ok (yielded d), w')
       end.

(** [print_response(message, stream, markdown)]: what the call does to the
    assistant.  The rendering of the response on the console, done by the
    [rich] library once [run] is through, is left out, and with it a failure
    of that rendering (of a response that is not text). *)
Definition print_response (message : option pyval) (stream markdown : bool)
  : M (LLM:=LLM) (Storage:=Storage) unit :=
  (if markdown then modify (with_markdown true) else ret tt);;;
  let! a := get_self in
  (match output_model a with
   | Some _ => modify (with_markdown false)
   | None => ret tt
   end);;;
  let stream := match output_model a with Some _ => false | None => stream end in
  let! response := run message stream in
  match response with
  | Iterator g => drain g;;; ret tt
  | Value _ => ret tt
  end.

(** [cli_app(...)]: [inputs] are the successive answers to the prompt; the
    loop ends at the first one found in [exit_on]. *)
Fixpoint cli_app (inputs : list string) (stream markdown : bool)
    (exit_on : list string) : M (LLM:=LLM) (Storage:=Storage) unit :=
  match inputs with
  | [] => ret tt
  | message :: rest =>
      if bool_decide (message ∈ exit_on) then ret tt
      else
        print_response (Some (VStr message)) stream markdown;;;
        cli_app rest stream markdown exit_on
  end.

(** ** The assistant as a state machine *)

(** The calls a client can make on an assistant. *)
Inductive Call :=
  | CallFromDatabaseRow (row : AssistantRun.t)
  | CallReadFromStorage
  | CallWriteToStorage
  | CallAddIntroduction (introduction : option string)
  | CallCreateRun
  | CallRun (message : option pyval) (stream : bool)
  | CallChat (message : option pyval) (stream : bool)
  | CallChatRaw (messages : list Message.t) (user_message : option string)
      (stream : bool)
  | CallRename (new_name : string)
  | CallRenameRun (new_name : string)
  | CallGenerateName (fuel : nat)
  | CallAutoRenameRun (fuel : nat)
  | CallPrintResponse (message : option pyval) (stream markdown : bool)
  | CallCliApp (inputs : list string) (stream markdown : bool)
      (exit_on : list string).

(** Forget the value of a computation. *)
Definition void {A} (c : M (LLM:=LLM) (Storage:=Storage) A)
  : M (LLM:=LLM) (Storage:=Storage) unit :=
  c;;; ret tt.

(** Make the call and, if it returns a generator, consume it to its end. *)
Definition consume {A B} (c : M (LLM:=LLM) (Storage:=Storage) (Returned A B))
  : M (LLM:=LLM) (Storage:=Storage) unit :=
  let! r := c in
  match r with
  | Iterator g => drain g;;; ret tt
  | Value _ => ret tt
  end.

Definition call (c : Call) : M (LLM:=LLM) (Storage:=Storage) unit :=
  match c with
  | CallFromDatabaseRow row => void (from_database_row row)
  | CallReadFromStorage => void read_from_storage
  | CallWriteToStorage => void write_to_storage
  | CallAddIntroduction i => add_introduction i
  | CallCreateRun => void create_run
  | CallRun m s => consume (run m s)
  | CallChat m s => consume (chat m s)
  | CallChatRaw ms um s => consume (chat_raw ms um s)
  | CallRename n => rename n
  | CallRenameRun n => rename_run n
  | CallGenerateName fuel => void (generate_name fuel)
  | CallAutoRenameRun fuel => auto_rename_run fuel
  | CallPrintResponse m s md => print_response m s md
  | CallCliApp inputs s md ex => cli_app inputs s md ex
  end.

(** The calls that go through [print_response], the one method that assigns
    [markdown]. *)
Definition prints (c : Call) : bool :=
  match c with
  | CallPrintResponse _ _ _ | CallCliApp _ _ _ _ => true
  | _ => false
  end.

(** The world after a call, whether it returned or raised. *)
Definition step (w : World LLM Storage) (c : Call) : World LLM Storage :=
  snd (call c w).

(** The world after a sequence of calls. *)
Definition steps (w : World LLM Storage) (cs : list Call) : World LLM Storage :=
  fold_left step cs w.

(** The language model after [n] more requests with the messages [msgs]. *)
Fixpoint asked (n : nat) (msgs : list Message.t) (client : LLM) : LLM :=
  match n with
  | O => client
  | S n' => asked n' msgs (snd (llm_response client msgs))
  end.

Definition is_llm_request (e : Event) : bool :=
  match e with
  | EvLLMResponse _ => true
  | _ => false
  end.

(** The number of [response] requests in a trace. *)
Definition llm_requests (tr : list Event) : nat :=
  length (List.filter is_llm_request tr).

(** The kinds of calls to the outside. *)
Definition is_api_event (e : Event) : bool :=
  match e with
  | EvApiRun _ | EvApiEvent _ _ _ => true
  | _ => false
  end.

Definition is_storage_event (e : Event) : bool :=
  match e with
  | EvStorageRead _ | EvStorageUpsert _ => true
  | _ => false
  end.

(** What a stretch of execution from [w] to [w'] has left alone: the
    configuration attributes, a set [user_id], the presence of a language
    model, the absence of a storage, the trace so far; without monitoring it
    made no monitoring call, and without a storage it made no storage call.
    [md] tells whether [markdown] is among the attributes left alone. *)
Definition framed (md : bool) (w w' : World LLM Storage) : Prop :=
  introduction (self w') = introduction (self w)
  ∧ settings (self w') = settings (self w)
  ∧ output_model (self w') = output_model (self w)
  ∧ parse_output (self w') = parse_output (self w)
  ∧ debug_mode (self w') = debug_mode (self w)
  ∧ monitoring (self w') = monitoring (self w)
  ∧ (md = true → markdown (self w') = markdown (self w))
  ∧ (∀ u, user_id (self w) = Some u → user_id (self w') = Some u)
  ∧ (is_Some (llm (self w)) → is_Some (llm (self w')))
  ∧ (storage (self w) = None → storage (self w') = None)
  ∧ ∃ tr, trace w' = trace w ++ tr
          ∧ (monitoring (self w) = false →
             Forall (λ e, is_api_event e = false) tr)
          ∧ (storage (self w) = None →
             Forall (λ e, is_storage_event e = false) tr).

(** A computation (or a generator) every execution of which is [framed]. *)
Definition frames (md : bool) {X}
    (c : World LLM Storage → X * World LLM Storage) : Prop :=
  ∀ w, framed md w (snd (c w)).

(** A computation (or a generator) that leaves a set [run_id] as it is. *)
Definition keeps_run_id {X}
    (c : World LLM Storage → X * World LLM Storage) : Prop :=
  ∀ w id, run_id (self w) = Some id → run_id (self (snd (c w))) = Some id.

End Methods.

Arguments Iterator {LLM Storage A B}.
Arguments Value {LLM Storage A B}.
Arguments mkLoop {LLM}.

(** ** Reference collaborators

    Small executable implementations of the collaborator interfaces, used to
    run the model on concrete inputs. *)

Module Reference.

(** A language model that answers from a script: [replies] are the answers
    still to come, one per call. *)
Record ScriptedLLM := mkScripted {
  replies : list string;
  metrics : dict
}.

Definition reply (l : ScriptedLLM) : string := default "" (head (replies l)).

Definition advance (l : ScriptedLLM) : ScriptedLLM :=
  mkScripted (tail (replies l)) (metrics l).

#[global] Instance scripted_llm : LLMClient ScriptedLLM := {|
  llm_metrics := metrics;
  llm_set_metrics := λ m l, mkScripted (replies l) m;
  llm_to_dict := λ l, {["metrics" := VDict (metrics l)]};
  llm_model_copy := λ l, l;
  llm_response := λ l _, (reply l, advance l);
  llm_generate := λ l ms,
    (VDict {["content" := VStr (reply l)]},
     ms ++ [Message.mk "assistant" (Some (reply l))], advance l);
  llm_generate_stream := λ l ms,
    ((λ s, VDict {["content" := VStr s]}) <$> Py.split (reply l),
     ms ++ [Message.mk "assistant" (Some (reply l))], advance l)
|}.

(** A table of rows keyed by run identifier; writes fail while it is
    read-only. *)
Record Table := mkTable {
  rows : list AssistantRun.t;
  writable : bool
}.

Definition has_run_id (rid : option string) (r : AssistantRun.t) : bool :=
  bool_decide (AssistantRun.run_id r = rid).

Definition table_read (t : Table) (rid : string) : option AssistantRun.t :=
  find (has_run_id (Some rid)) (rows t).

Definition table_upsert (t : Table) (row : AssistantRun.t)
  : option AssistantRun.t * Table :=
  if writable t
  then (Some row,
        mkTable (row :: filter (λ r, has_run_id (AssistantRun.run_id row) r = false)
                          (rows t))
                true)
  else (None, t).

#[global] Instance table_storage : StorageAdapter Table := {|
  storage_read := table_read;
  storage_upsert := table_upsert
|}.

(** Tasks driven by their [config]: a dictionary whose ["chunks"] are the
    text fragments the task produces and whose ["output"], when present, is
    the value left in [output]; a task without such a dictionary echoes the
    message it is given. *)
Definition task_chunks (task : Task.t ScriptedLLM) (message : option pyval)
  : list pyval :=
  match Task.config task with
  | VDict d =>
      match d !! "chunks" with
      | Some (VList l) => l
      | _ => []
      end
  | _ => match message with Some m => [m] | None => [] end
  end.

Definition join_chunks (l : list pyval) : string :=
  foldr (λ c acc, chunk_text c +:+ acc) "" l.

Definition task_output (task : Task.t ScriptedLLM) (message : option pyval)
  : option pyval :=
  match Task.config task with
  | VDict d =>
      match d !! "output" with
      | Some o => Some o
      | None => Some (VStr (join_chunks (task_chunks task message)))
      end
  | _ => Some (VStr (join_chunks (task_chunks task message)))
  end.

Definition task_return {R} (v : R) (task : Task.t ScriptedLLM)
    (message : option pyval) : TaskReturn R :=
  mkTaskReturn R v (task_output task message)
    (default AssistantMemory.empty (Task.assistant_memory task))
    (default [] (Task.run_task_data task)
     ++ [{["chunks" := VInt (Z.of_nat (length (task_chunks task message)))]}]).

#[global] Instance scripted_tasks : TaskRunner ScriptedLLM := {|
  task_run_stream := λ task message,
    task_return (task_chunks task message) task message;
  task_run_batch := λ task message,
    task_return (VStr (join_chunks (task_chunks task message))) task message;
  llm_task_init := λ l n mem _ _ om,
    Task.mk VNone true l true (match om with None => true | Some _ => false end)
      None true None n (Some mem) None None
|}.

(** *** A JSON reader and writer for the integers, strings, lists and
    objects of [pyval] *)

Definition is_digit (c : Ascii.ascii) : bool :=
  let n := Ascii.nat_of_ascii c in ((48 <=? n) && (n <=? 57))%nat.

Fixpoint skip_ws (s : string) : string :=
  match s with
  | String c s' => if Py.isspace c then skip_ws s' else s
  | EmptyString => s
  end.

Fixpoint read_digits (acc : Z) (s : string) : Z * string :=
  match s with
  | String c s' =>
      if is_digit c
      then read_digits (10 * acc + Z.of_nat (Ascii.nat_of_ascii c - 48)) s'
      else (acc, s)
  | EmptyString => (acc, s)
  end.

(** The characters up to the closing quote (no escapes). *)
Fixpoint read_string (acc : string) (s : string) : option (string * string) :=
  match s with
  | String c s' =>
      if Ascii.eqb c (Ascii.ascii_of_nat 34) then Some (acc, s')
      else read_string (acc +:+ String c "") s'
  | EmptyString => None
  end.

Definition drop_prefix (p s : string) : option string :=
  if String.prefix p s
  then Some (String.substring (String.length p)
               (String.length s - String.length p) s)
  else None.

Fixpoint read_value (fuel : nat) (s : string) : option (pyval * string) :=
  match fuel with
  | O => None
  | S fuel =>
      match skip_ws s with
      | String c rest =>
          if Ascii.eqb c (Ascii.ascii_of_nat 34) then
            '(str, rest') ← read_string "" rest; Some (VStr str, rest')
          else if Ascii.eqb c "["%char then
            match skip_ws rest with
            | String "]"%char rest' => Some (VList [], rest')
            | _ => '(l, rest') ← read_elements fuel rest; Some (VList l, rest')
            end
          else if Ascii.eqb c "{"%char then
            match skip_ws rest with
            | String "}"%char rest' => Some (VDict ∅, rest')
            | _ => '(d, rest') ← read_members fuel rest; Some (VDict d, rest')
            end
          else if Ascii.eqb c "-"%char then
            match rest with
            | String d _ =>
                if is_digit d
                then let '(z, rest') := read_digits 0 rest in Some (VInt (- z), rest')
                else None
            | EmptyString => None
            end
          else if is_digit c then
            let '(z, rest') := read_digits 0 (String c rest) in Some (VInt z, rest')
          else
            match drop_prefix "null" (String c rest),
                  drop_prefix "true" (String c rest),
                  drop_prefix "false" (String c rest) with
            | Some rest', _, _ => Some (VNone, rest')
            | _, Some rest', _ => Some (VBool true, rest')
            | _, _, Some rest' => Some (VBool false, rest')
            | _, _, _ => None
            end
      | EmptyString => None
      end
  end
with read_elements (fuel : nat) (s : string) : option (list pyval * string) :=
  match fuel with
  | O => None
  | S fuel =>
      '(v, rest) ← read_value fuel s;
      match skip_ws rest with
      | String ","%char rest' =>
          '(l, rest'') ← read_elements fuel rest'; Some (v :: l, rest'')
      | String "]"%char rest' => Some ([v], rest')
      | _ => None
      end
  end
with read_members (fuel : nat) (s : string) : option (dict * string) :=
  match fuel with
  | O => None
  | S fuel =>
      match skip_ws s with
      | String q rest =>
          if Ascii.eqb q (Ascii.ascii_of_nat 34) then
            '(key, rest1) ← read_string "" rest;
            match skip_ws rest1 with
            | String ":"%char rest2 =>
                '(v, rest3) ← read_value fuel rest2;
                match skip_ws rest3 with
                | String ","%char rest4 =>
                    '(d, rest5) ← read_members fuel rest4;
                    Some (<[key := v]> d, rest5)
                | String "}"%char rest4 => Some ({[key := v]}, rest4)
                | _ => None
                end
            | _ => None
            end
          else None
      | EmptyString => None
      end
  end.

(** [json.loads(s)] *)
Definition loads (s : string) : option pyval :=
  '(v, rest) ← read_value (S (String.length s)) s;
  match skip_ws rest with
  | EmptyString => Some v
  | _ => None
  end.

Definition pad (n : nat) : string := foldr String.append "" (replicate n " ").

(** Join the rendered items of a list or object. *)
Definition enclose (indent : option nat) (level : nat) (opening closing : string)
    (items : list string) : string :=
  match items with
  | [] => opening +:+ closing
  | first :: others =>
      match indent with
      | Some n =>
          opening +:+ Py.newline +:+ pad (n * S level) +:+ first
          +:+ foldr (λ i acc, "," +:+ Py.newline +:+ pad (n * S level) +:+ i +:+ acc)
                "" others
          +:+ Py.newline +:+ pad (n * level) +:+ closing
      | None =>
          opening +:+ first +:+ foldr (λ i acc, ", " +:+ i +:+ acc) "" others
          +:+ closing
      end
  end.

Definition is_none (v : pyval) : bool :=
  match v with VNone => true | _ => false end.

(** Render a value as JSON text.  With [models] set, a model instance is
    rendered as the object of its fields that are not [None]; without, it is
    not serialisable. *)
Fixpoint render (fuel : nat) (models : bool) (indent : option nat) (level : nat)
    (v : pyval) : option string :=
  match fuel with
  | O => None
  | S fuel =>
      let member kv :=
        s ← render fuel models indent (S level) kv.2;
        Some (Py.quoted kv.1 +:+ ": " +:+ s) in
      match v with
      | VNone => Some "null"
      | VBool true => Some "true"
      | VBool false => Some "false"
      | VInt z => Some (pretty z)
      | VStr s => Some (Py.quoted s)
      | VList l =>
          items ← mapM (render fuel models indent (S level)) l;
          Some (enclose indent level "[" "]" items)
      | VDict d =>
          items ← mapM member (map_to_list d);
          Some (enclose indent level "{" "}" items)
      | VModel _ fields =>
          if models then
            items ← mapM member
                      (filter (λ kv, is_none kv.2 = false) (map_to_list fields));
            Some (enclose indent level "{" "}" items)
          else None
      end
  end.

(** An upper bound on the nesting depth of the values rendered here. *)
Definition render_depth : nat := 64.

(** [json.dumps(v)] *)
Definition dumps (v : pyval) : option string :=
  render render_depth false None 0 v.

(** [v.model_dump_json(exclude_none=True, indent=2)] *)
Definition dump_model (v : pyval) : string :=
  default "" (render render_depth true (Some 2) 0 v).

(** The field types understood by the reference validator. *)
Inductive FieldType := TInt | TStr | TBool.

Definition has_type (ty : FieldType) (v : pyval) : bool :=
  match ty, v with
  | TInt, VInt _ | TStr, VStr _ | TBool, VBool _ => true
  | _, _ => false
  end.

(** The model classes known to the reference validator, by name. *)
Definition schemas : list (string * list (string * FieldType)) :=
  [ ("A", [("a", TInt)]);
    ("Plan", [("title", TStr); ("steps", TInt)]) ].

Definition schema_of (cls : string) : option (list (string * FieldType)) :=
  snd <$> find (λ p, String.eqb p.1 cls) schemas.

(** Check every declared field and keep exactly the declared fields. *)
Fixpoint validate_fields (fields : list (string * FieldType)) (d : dict)
  : option dict :=
  match fields with
  | [] => Some ∅
  | (f, ty) :: rest =>
      v ← d !! f;
      if has_type ty v
      then m ← validate_fields rest d; Some (<[f := v]> m)
      else None
  end.

(** [cls.model_validate_json(text)] *)
Definition validate_json (cls text : string) : option pyval :=
  fields ← schema_of cls;
  v ← loads text;
  match v with
  | VDict d => m ← validate_fields fields d; Some (VModel cls m)
  | _ => None
  end.

Definition message_of (v : pyval) : option Message.t :=
  match v with
  | VDict d =>
      match d !! "role", d !! "content" with
      | Some (VStr r), Some (VStr c) => Some (Message.mk r (Some c))
      | Some (VStr r), None => Some (Message.mk r None)
      | _, _ => None
      end
  | _ => None
  end.

Definition messages_of (v : option pyval) : option (list Message.t) :=
  match v with
  | Some (VList l) => mapM message_of l
  | None => Some []
  | _ => None
  end.

(** [memory.to_dict()] *)
Definition memory_dict (mem : AssistantMemory.t) : dict :=
  <["chat_history" :=
      VList (Message.model_dump <$> AssistantMemory.chat_history mem)]>
  {["llm_messages" :=
      VList (Message.model_dump <$> AssistantMemory.llm_messages mem)]}.

(** [AssistantMemory.model_validate(d)] *)
Definition memory_validate (d : dict) : option AssistantMemory.t :=
  ch ← messages_of (d !! "chat_history");
  lm ← messages_of (d !! "llm_messages");
  Some (AssistantMemory.mk ch lm).

#[global] Instance reference_codecs : Codecs := {|
  json_loads := loads;
  json_dumps := dumps;
  model_validate_json := validate_json;
  model_dump_json := dump_model;
  memory_to_dict := memory_dict;
  memory_model_validate := memory_validate
|}.

(** The assistant and world types over the reference collaborators. *)
Abbreviation assistant := (Assistant ScriptedLLM Table).
Abbreviation world := (World ScriptedLLM Table).

Definition default_settings : Settings :=
  mkSettings false false 6 false false false None false false true None
    true None None None None true false false false false None true "json"
    None None None None None None None.

(** [Assistant()] before validation: every attribute at its default. *)
Definition defaults : assistant :=
  mkAssistant None None None None None None None None None
    AssistantMemory.empty None None default_settings false None true None None
    None false false.

(** Two users and one run identifier: the stored run ["r1"] belongs to
    ["bob"]; ["alice"] configures an assistant with that identifier. *)
Definition bob_memory : AssistantMemory.t :=
  AssistantMemory.mk
    [Message.mk "user" (Some "my account number is 1234")] [].

Definition bob_row : AssistantRun.t :=
  AssistantRun.mk (Some "bob's assistant") (Some "r1") (Some "bob's run")
    (Some "bob") None (Some (memory_dict bob_memory)) None
    (Some {["secret" := VInt 7]}) None None.

Definition bob_table : Table := mkTable [bob_row] true.

Definition alice : assistant :=
  new_assistant "uuid-0"
    (with_storage (Some bob_table)
       (with_user_id (Some "alice") (with_run_id (Some "r1") defaults))).

Definition alice_world : world := mkWorld alice [].

(** A new assistant with an introduction, over an empty table. *)
Definition greeter (t : Table) : assistant :=
  new_assistant "uuid-1"
    (mkAssistant None (Some "Hello, how can I help?") None None None None None
       None None AssistantMemory.empty (Some t) None default_settings false None
       true None None None false true).

Definition greeter_world : world := mkWorld (greeter (mkTable [] true)) [].

(** The same assistant over a table that refuses writes. *)
Definition read_only_world : world := mkWorld (greeter (mkTable [] false)) [].

(** An assistant without a language model and without tasks, and one with a
    task list. *)
Definition bare_world : world := mkWorld (new_assistant "uuid-2" defaults) [].

Definition fixed_task (chunks : list string) (out : option pyval)
  : Task.t ScriptedLLM :=
  Task.mk
    (VDict (match out with
            | Some o => <["output" := o]> {["chunks" := VList (VStr <$> chunks)]}
            | None => {["chunks" := VList (VStr <$> chunks)]}
            end))
    false None true true None true None None None None None.

Definition tasked_world : world :=
  mkWorld (new_assistant "uuid-3"
             (with_tasks (Some [fixed_task ["a"; "b"] None]) defaults)) [].

Definition hello : list Message.t := [Message.mk "user" (Some "hello")].

(** An assistant whose model answers the naming prompt from a script. *)
Definition sync_plan : string := "Tomorrow's Sync Plan".

Definition too_long : string :=
  "This name goes on and on for far too long to be a name that "
  +:+ "anyone would ever want".

Definition namer (answers : list string) : world :=
  mkWorld
    (new_assistant "uuid-4"
       (with_memory
          (AssistantMemory.mk
             [Message.mk "user" (Some "Can we sync tomorrow?");
              Message.mk "assistant" (Some "Sure, at ten.")] [])
          (with_llm (Some (mkScripted answers ∅)) defaults)))
    [].

(** Two chained tasks: the first leaves a [Plan] object in its output. *)
Definition plan : pyval :=
  VModel "Plan" (<["title" := VStr "Sync"]> {["steps" := VInt 2]}).

(** The same plan as a dictionary, as a task without a schema leaves it. *)
Definition plan_dict : pyval :=
  VDict (<["title" := VStr "Sync"]> {["steps" := VInt 2]}).

Definition dict_planner_world : world :=
  mkWorld
    (new_assistant "uuid-14"
       (with_tasks
          (Some [fixed_task ["Here is "; "the plan."] (Some plan_dict);
                 fixed_task ["Done."] None])
          defaults))
    [].

Definition planner_world : world :=
  mkWorld
    (new_assistant "uuid-5"
       (with_tasks
          (Some [fixed_task ["Here is "; "the plan."] (Some plan);
                 fixed_task ["Done."] None])
          defaults))
    [].

(** An assistant with an output schema and no task list: its default task
    echoes the message, which stands for the model's answer. *)
Definition parser_world (om : OutputModel) : world :=
  mkWorld (new_assistant "uuid-6" (mkAssistant None None None None None None
             None None None AssistantMemory.empty None None default_settings
             false (Some om) true None None None false false)) [].

(** Further worlds: the owner of the stored run, a caller without a user
    id, and an assistant with a model, a memory and metadata over an empty
    table. *)
Definition bob_world : world :=
  mkWorld
    (new_assistant "uuid-7"
       (with_run_data (Some (<["secret" := VInt 9]> {["mine" := VInt 2]}))
          (with_storage (Some bob_table)
             (with_user_id (Some "bob") (with_run_id (Some "r1") defaults)))))
    [].

Definition guest_world : world :=
  mkWorld
    (new_assistant "uuid-8"
       (with_storage (Some bob_table) (with_run_id (Some "r1") defaults)))
    [].

Definition writer : assistant :=
  new_assistant "uuid-9"
    (with_run_data (Some {["x" := VInt 1]})
       (with_memory
          (AssistantMemory.mk
             [Message.mk "user" (Some "Can we sync tomorrow?");
              Message.mk "assistant" (Some "Sure, at ten.")]
             [Message.mk "system" None])
          (with_llm (Some (mkScripted ["Sync at ten"] {["tokens" := VInt 3]}))
             (with_storage (Some (mkTable [] true))
                (with_user_id (Some "alice")
                   (with_run_id (Some "r9") defaults)))))).

Definition writer_world : world := mkWorld writer [].

(** An assistant with an output schema whose parsing is switched off. *)
Definition unparsed_world (om : OutputModel) : world :=
  mkWorld (new_assistant "uuid-10" (mkAssistant None None None None None None
             None None None AssistantMemory.empty None None default_settings
             false (Some om) false None None None false false)) [].

(** Tasks with chosen display flags; a run of hidden tasks and a run of one
    visible task that cannot stream. *)
Definition flagged_task (show_output streamable : bool) (chunks : list string)
  : Task.t ScriptedLLM :=
  Task.mk (VDict {["chunks" := VList (VStr <$> chunks)]})
    false None show_output streamable None true None None None None None.

Definition quiet_world : world :=
  mkWorld (new_assistant "uuid-11"
             (with_tasks (Some [flagged_task false true ["a"];
                                flagged_task false false ["b"]]) defaults)) [].

(** An assistant with a task list and monitoring switched on. *)
Definition monitored_world : world :=
  mkWorld (new_assistant "uuid-13"
             (mkAssistant None None None None None None None None None
                AssistantMemory.empty None None default_settings false None true
                None (Some [fixed_task ["a"; "b"] None]) None false true)) [].

Definition batch_only_world : world :=
  mkWorld (new_assistant "uuid-12"
             (with_tasks (Some [flagged_task true false ["a"; "b"]])
                defaults)) [].

End Reference.

(** * Properties *)

(** Unfold the plumbing of a computation. *)
Ltac mrun :=
  unfold bind, ret, raise, modify, emit, get_self; simpl.

Ltac mrun_in H :=
  unfold bind, ret, raise, modify, emit, get_self in H; simpl in H.

(** Split on the outcome of each metadata reconciliation in the goal. *)
Ltac case_load_data :=
  repeat match goal with
         | |- context [load_data ?x ?y] => destruct (load_data x y) eqn:?
         end.

Section Persistence.
Context {LLM Storage : Type}.
Context `{!LLMClient LLM, !StorageAdapter Storage, !TaskRunner LLM, !Codecs}.
Implicit Type w : World LLM Storage.
Implicit Type row : AssistantRun.t.

(** [from_database_row] always returns; what it leaves in each attribute. *)
Lemma from_database_row_spec row w :
  ∃ row' w', from_database_row row w = (Ok row', w')
  ∧ name (self w') = load_if_unset (name (self w)) (AssistantRun.name row)
  ∧ run_id (self w') = load_if_unset (run_id (self w)) (AssistantRun.run_id row)
  ∧ run_name (self w')
    = load_if_unset (run_name (self w)) (AssistantRun.run_name row)
  ∧ user_id (self w')
    = load_if_unset (user_id (self w)) (AssistantRun.user_id row)
  ∧ (assistant_data (self w'), AssistantRun.assistant_data row')
    = load_data (assistant_data (self w)) (AssistantRun.assistant_data row)
  ∧ (run_data (self w'), AssistantRun.run_data row')
    = load_data (run_data (self w)) (AssistantRun.run_data row)
  ∧ (user_data (self w'), AssistantRun.user_data row')
    = load_data (user_data (self w)) (AssistantRun.user_data row)
  ∧ (task_data (self w'), AssistantRun.task_data row')
    = load_data (task_data (self w)) (AssistantRun.task_data row)
  ∧ AssistantRun.run_id row' = AssistantRun.run_id row
  ∧ db_row (self w') = db_row (self w)
  ∧ storage (self w') = storage (self w)
  ∧ (llm (self w') = None ↔ llm (self w) = None).
Proof.
  unfold from_database_row. mrun.
  destruct (AssistantRun.llm row) as [d|]; mrun;
    [destruct (d !! "metrics") as [[]|]; mrun|];
    (destruct (AssistantRun.memory row) as [m|]; mrun;
     [destruct (memory_model_validate m); mrun|]);
    case_load_data; mrun;
    (do 2 eexists; split; [reflexivity|]); simpl;
    repeat split; try done; try (destruct (llm (self w)); done).
Qed.

(** The merge of a persisted dictionary with a live one, key by key. *)
Lemma merge_dictionaries_lookup (persisted live : dict) (k : string) :
  merge_dictionaries persisted live !! k
  = match live !! k with
    | Some v => Some v
    | None => persisted !! k
    end.
Proof.
  unfold merge_dictionaries. rewrite lookup_union.
  destruct (live !! k), (persisted !! k); reflexivity.
Qed.

(** C10.  [from_database_row] never overwrites an identity attribute that is
    already set: each of [name], [run_id], [run_name] and [user_id] keeps its
    live value when it has one, and takes the row's value only when the live
    value is [None]. *)
Theorem from_database_row_keeps_identity row w :
  let a := self w in
  let a' := self (snd (from_database_row row w)) in
  name a' = match name a with
            | Some v => Some v
            | None => AssistantRun.name row
            end
  ∧ run_id a' = match run_id a with
                | Some v => Some v
                | None => AssistantRun.run_id row
                end
  ∧ run_name a' = match run_name a with
                  | Some v => Some v
                  | None => AssistantRun.run_name row
                  end
  ∧ user_id a' = match user_id a with
                 | Some v => Some v
                 | None => AssistantRun.user_id row
                 end.
Proof.
  destruct (from_database_row_spec row w)
    as (row' & w' & -> & Hn & Hr & Hrn & Hu & _).
  simpl. rewrite Hn, Hr, Hrn, Hu. unfold load_if_unset.
  repeat split;
    match goal with
    | |- match ?x with _ => _ end = _ =>
        destruct x; try reflexivity;
        match goal with |- match ?y with _ => _ end = _ => destruct y end
    end; reflexivity.
Qed.

Lemma load_data_reconciled (live persisted : option dict) :
  fst (load_data live persisted) = reconciled live persisted.
Proof. destruct live, persisted; reflexivity. Qed.

(** C6.  Reconciling a live metadata dictionary with a persisted one, the
    live value wins on every key conflict and the persisted values fill the
    remaining keys; an absent live dictionary defers to the persisted one.
    Live [{"x": 1}] with persisted [{"x": 2, "y": 3}] gives
    [{"x": 1, "y": 3}]. *)
Theorem from_database_row_merges_metadata row w :
  let a := self w in
  let a' := self (snd (from_database_row row w)) in
  assistant_data a' = reconciled (assistant_data a) (AssistantRun.assistant_data row)
  ∧ run_data a' = reconciled (run_data a) (AssistantRun.run_data row)
  ∧ user_data a' = reconciled (user_data a) (AssistantRun.user_data row)
  ∧ task_data a' = reconciled (task_data a) (AssistantRun.task_data row)
  ∧ (∀ (persisted live : dict) (k : string),
       merge_dictionaries persisted live !! k
       = match live !! k with
         | Some v => Some v
         | None => persisted !! k
         end)
  ∧ (∀ persisted : dict, reconciled None (Some persisted) = Some persisted)
  ∧ reconciled (Some ({["x" := VInt 1]} : dict))
      (Some (<["x" := VInt 2]> {["y" := VInt 3]}))
    = Some (<["x" := VInt 1]> {["y" := VInt 3]}).
Proof.
  destruct (from_database_row_spec row w)
    as (row' & w' & -> & _ & _ & _ & _ & Ha & Hr & Hu & Ht & _).
  simpl. rewrite <- !load_data_reconciled.
  rewrite <- Ha, <- Hr, <- Hu, <- Ht. simpl.
  repeat split; try reflexivity.
  intros. apply merge_dictionaries_lookup.
Qed.

(** On a user mismatch [read_from_storage] returns [None], but the row of
    the other user has already been stored in [db_row]. *)
Lemma read_from_storage_mismatch w st rid uid row :
  storage (self w) = Some st →
  run_id (self w) = Some rid →
  user_id (self w) = Some uid →
  storage_read st rid = Some row →
  AssistantRun.user_id row ≠ Some uid →
  ∃ tr, read_from_storage w
        = (Ok None, mkWorld (with_db_row (Some row) (self w)) tr).
Proof.
  intros Hst Hrid Huid Hread Hne.
  unfold read_from_storage. mrun. rewrite Hst, Hrid. mrun.
  rewrite Hread, Huid. rewrite bool_decide_true by done. mrun.
  eexists. reflexivity.
Qed.

End Persistence.

(** C1.  The stored run ["r1"] belongs to ["bob"] and the caller is
    ["alice"]: [read_from_storage] returns no record and leaves every other
    attribute as it was, but [db_row], empty before the call, now holds
    bob's row; it is the row the monitoring calls would send next, and the
    one whose identifier [create_run] returns. *)
Theorem read_from_storage_mismatch_caches_foreign_row :
  let w := Reference.alice_world in
  let w' := snd (read_from_storage w) in
  user_id (self w) = Some "alice"
  ∧ storage_read Reference.bob_table "r1" = Some Reference.bob_row
  ∧ AssistantRun.user_id Reference.bob_row = Some "bob"
  ∧ db_row (self w) = None
  ∧ fst (read_from_storage w) = Ok None
  ∧ db_row (self w') = Some Reference.bob_row
  ∧ self w' = with_db_row (Some Reference.bob_row) (self w)
  ∧ database_row (self w') = Reference.bob_row
  ∧ create_run w' = (Ok (AssistantRun.run_id Reference.bob_row), w').
Proof.
  cbv zeta. repeat (apply conj; [vm_compute; reflexivity|]).
  vm_compute. reflexivity.
Qed.

Section RunCreation.
Context {LLM Storage : Type}.
Context `{!LLMClient LLM, !StorageAdapter Storage, !TaskRunner LLM, !Codecs}.
Implicit Type w : World LLM Storage.
Implicit Type row : AssistantRun.t.

(** [read_from_storage] always returns, leaves the storage and [run_id]
    alone, and caches what the storage returned. *)
Lemma read_from_storage_spec w :
  ∃ r w', read_from_storage w = (Ok r, w')
  ∧ storage (self w') = storage (self w)
  ∧ run_id (self w) = run_id (self w')
  ∧ match storage (self w), run_id (self w) with
    | Some st, Some rid =>
        match storage_read st rid with
        | Some row => ∃ row', db_row (self w') = Some row'
                       ∧ AssistantRun.run_id row' = AssistantRun.run_id row
        | None => db_row (self w') = None
        end
    | _, _ => w' = w
    end.
Proof.
  unfold read_from_storage. mrun.
  destruct (storage (self w)) as [st|] eqn:Hst; mrun; [|eauto 10].
  destruct (run_id (self w)) as [rid|] eqn:Hrid; mrun; [|eauto 10].
  destruct (storage_read st rid) as [row|] eqn:Hread; mrun; [|eauto 10].
  match goal with |- context [if ?b then _ else _] => destruct b end; mrun.
  - do 2 eexists. split; [reflexivity|]. simpl. eauto.
  - match goal with |- context [from_database_row ?r ?x] =>
      destruct (from_database_row_spec r x)
        as (row' & w' & -> & _ & Hr & _ & _ & _ & _ & _ & _ & Hrr & _ & Hs & _)
    end.
    simpl in *. do 2 eexists. split; [reflexivity|]. simpl.
    rewrite Hs, Hr, Hrid. simpl. eauto.
Qed.

Lemma create_run_cached w row :
  db_row (self w) = Some row →
  create_run w = (Ok (AssistantRun.run_id row), w).
Proof. intros Hd. unfold create_run. mrun. rewrite Hd. reflexivity. Qed.

Lemma create_run_unconfigured w :
  db_row (self w) = None → storage (self w) = None →
  create_run w = (Ok (run_id (self w)), w).
Proof.
  intros Hd Hs. unfold create_run. mrun. rewrite Hd, Hs. reflexivity.
Qed.

Lemma add_introduction_frame i w :
  ∃ w', add_introduction i w = (Ok tt, w')
  ∧ storage (self w') = storage (self w)
  ∧ db_row (self w') = db_row (self w)
  ∧ run_id (self w') = run_id (self w)
  ∧ trace w' = trace w.
Proof.
  unfold add_introduction. destruct i; mrun; [|eauto 10].
  destruct (_ =? _)%nat; mrun; eauto 10.
Qed.

(** The guard of [add_introduction]: nothing is added to a history that
    already has a message. *)
Lemma add_introduction_nonempty i w :
  AssistantMemory.chat_history (memory (self w)) ≠ [] →
  add_introduction i w = (Ok tt, w).
Proof.
  intros Hne. unfold add_introduction. destruct i; mrun; [|done].
  destruct (AssistantMemory.chat_history (memory (self w))); done.
Qed.

Section KeyedStorage.
(** The storage contract: a row is stored and found under its run
    identifier. *)
Hypothesis read_keyed : ∀ (st : Storage) rid row,
  storage_read st rid = Some row → AssistantRun.run_id row = Some rid.
Hypothesis upsert_keyed : ∀ (st st' : Storage) row row',
  storage_upsert st row = (Some row', st') →
  AssistantRun.run_id row' = AssistantRun.run_id row.

(** After [create_run] returned [id], either a row with that identifier is
    cached, or there is neither a storage nor a row and [id] is [run_id]. *)
Lemma create_run_post w id w1 :
  create_run w = (Ok id, w1) →
  (∃ row, db_row (self w1) = Some row ∧ AssistantRun.run_id row = id)
  ∨ (db_row (self w1) = None ∧ storage (self w1) = None
     ∧ run_id (self w1) = id).
Proof.
  destruct (db_row (self w)) as [row|] eqn:Hdb.
  { rewrite (create_run_cached _ _ Hdb). intros [= <- <-]. eauto. }
  destruct (storage (self w)) as [st|] eqn:Hst.
  2:{ rewrite (create_run_unconfigured _ Hdb Hst). intros [= <- <-]. eauto. }
  unfold create_run. mrun. rewrite Hdb, Hst.
  destruct (read_from_storage_spec w) as (r & w' & -> & Hs & Hrid & Hcase).
  rewrite Hst in Hcase, Hs.
  destruct (db_row (self w')) as [row'|] eqn:Hdb'.
  - simpl. intros [= <- <-]. left. exists row'. split; [done|].
    destruct (run_id (self w)) as [rid|] eqn:Hr.
    + destruct (storage_read st rid) as [row|] eqn:Hread.
      * destruct Hcase as (row'' & Hc1 & Hc2).
        injection Hc1 as <-. rewrite Hc2, <- Hrid. eauto.
      * congruence.
    + subst w'. congruence.
  - match goal with |- context [if ?b then ?x else ?y] =>
      assert (∃ w2, (if b then x else y) w' = (Ok tt, w2)
                 ∧ storage (self w2) = storage (self w')
                 ∧ db_row (self w2) = db_row (self w')
                 ∧ run_id (self w2) = run_id (self w')
                 ∧ trace w2 = trace w') as (w2 & -> & Hs2 & Hd2 & Hr2 & _)
    end.
    { destruct (nonempty _); [apply add_introduction_frame|]. mrun. eauto 10. }
    unfold write_to_storage. mrun. rewrite Hs2, Hs. mrun.
    destruct (storage_upsert st (to_database_row (self w2)))
      as [[row|] st'] eqn:Hup; mrun; [|discriminate].
    match goal with |- context [from_database_row ?r ?x] =>
      destruct (from_database_row_spec r x)
        as (row' & w3 & -> & _ & Hr3 & _ & _ & _ & _ & _ & _ & Hrr & _)
    end.
    simpl in Hr3. unfold _api_log_assistant_run. mrun.
    apply upsert_keyed in Hup. simpl in Hup.
    destruct (monitoring (self w3)); simpl; intros [= <- <-]; simpl;
      left; exists row'; (split; [done|]);
      rewrite Hrr, Hup, Hr3, Hup; unfold load_if_unset;
      destruct (run_id (self w2)); reflexivity.
Qed.

Lemma create_run_again w id :
  (∃ row, db_row (self w) = Some row ∧ AssistantRun.run_id row = id)
  ∨ (db_row (self w) = None ∧ storage (self w) = None
     ∧ run_id (self w) = id) →
  create_run w = (Ok id, w).
Proof.
  intros [(row & Hd & <-)|(Hd & Hs & <-)].
  - by apply create_run_cached.
  - by apply create_run_unconfigured.
Qed.

End KeyedStorage.

(** A storage that holds no row for the run and refuses the write makes
    [create_run] raise. *)
Lemma create_run_write_failure w st :
  db_row (self w) = None →
  storage (self w) = Some st →
  (∀ rid, run_id (self w) = Some rid → storage_read st rid = None) →
  (∀ row, fst (storage_upsert st row) = None) →
  fst (create_run w) = Raise "Failed to create new assistant run in storage".
Proof.
  intros Hdb Hst Hread Hup.
  unfold create_run. mrun. rewrite Hdb, Hst.
  destruct (read_from_storage_spec w) as (r & w' & -> & Hs & Hrid & Hcase).
  rewrite Hst in Hcase, Hs.
  assert (db_row (self w') = None) as ->.
  { destruct (run_id (self w)) as [rid|] eqn:Hr.
    - rewrite (Hread rid eq_refl) in Hcase. done.
    - subst w'. done. }
  match goal with |- context [if ?b then ?x else ?y] =>
    assert (∃ w2, (if b then x else y) w' = (Ok tt, w2)
               ∧ storage (self w2) = storage (self w')
               ∧ db_row (self w2) = db_row (self w')
               ∧ run_id (self w2) = run_id (self w')
               ∧ trace w2 = trace w') as (w2 & -> & Hs2 & _)
  end.
  { destruct (nonempty _); [apply add_introduction_frame|]. mrun. eauto 10. }
  unfold write_to_storage. mrun. rewrite Hs2, Hs. mrun.
  specialize (Hup (to_database_row (self w2))).
  destruct (storage_upsert st (to_database_row (self w2))) as [written st'].
  simpl in Hup. subst written. reflexivity.
Qed.

(** C5.  Over a storage that keeps rows under their run identifier:
    with a row cached in [db_row], [create_run] returns its identifier and
    changes nothing (no storage call is added to the trace); a second call
    right after a first one returns the same identifier and changes nothing,
    so the introduction is not added again; [add_introduction] itself adds
    nothing to a non-empty history; and when no row exists and the write
    returns no record, [create_run] raises. *)
Theorem create_run_idempotent w :
  (∀ (st : Storage) rid row,
     storage_read st rid = Some row → AssistantRun.run_id row = Some rid) →
  (∀ (st st' : Storage) row row',
     storage_upsert st row = (Some row', st') →
     AssistantRun.run_id row' = AssistantRun.run_id row) →
  (∀ row, db_row (self w) = Some row →
          create_run w = (Ok (AssistantRun.run_id row), w))
  ∧ (∀ id w1, create_run w = (Ok id, w1) → create_run w1 = (Ok id, w1))
  ∧ (∀ i, AssistantMemory.chat_history (memory (self w)) ≠ [] →
          add_introduction i w = (Ok tt, w))
  ∧ (∀ st, db_row (self w) = None →
           storage (self w) = Some st →
           (∀ rid, run_id (self w) = Some rid → storage_read st rid = None) →
           (∀ row, fst (storage_upsert st row) = None) →
           fst (create_run w)
           = Raise "Failed to create new assistant run in storage").
Proof.
  intros Hread Hupsert. repeat split.
  - apply create_run_cached.
  - intros id w1 Hfirst.
    apply create_run_again, (create_run_post Hread Hupsert _ _ _ Hfirst).
  - intros i. apply add_introduction_nonempty.
  - intros st. apply create_run_write_failure.
Qed.

End RunCreation.

(** The reference table keeps rows under their run identifier. *)
Lemma table_read_keyed (t : Reference.Table) rid row :
  storage_read t rid = Some row → AssistantRun.run_id row = Some rid.
Proof.
  simpl. unfold Reference.table_read. intros Hfind.
  apply find_some in Hfind as [_ Hid].
  unfold Reference.has_run_id in Hid. by apply bool_decide_eq_true in Hid.
Qed.

Lemma table_upsert_keyed (t t' : Reference.Table) row row' :
  storage_upsert t row = (Some row', t') →
  AssistantRun.run_id row' = AssistantRun.run_id row.
Proof.
  simpl. unfold Reference.table_upsert.
  destruct (Reference.writable t); intros [= <- _]. reflexivity.
Qed.

(** A first call creates the run, adds the introduction and writes the row;
    the second call returns the same identifier and changes nothing; over a
    table that refuses writes the call raises. *)
Lemma create_run_idempotent_witness :
  let w1 := snd (create_run Reference.greeter_world) in
  create_run Reference.greeter_world = (Ok (Some "uuid-1"), w1)
  ∧ create_run w1 = (Ok (Some "uuid-1"), w1)
  ∧ AssistantMemory.chat_history (memory (self w1))
    = [Message.mk "assistant" (Some "Hello, how can I help?")]
  ∧ fst (create_run Reference.read_only_world)
    = Raise "Failed to create new assistant run in storage".
Proof.
  pose proof (create_run_idempotent Reference.greeter_world
                table_read_keyed table_upsert_keyed) as (_ & Htwice & _).
  pose proof (create_run_idempotent Reference.read_only_world
                table_read_keyed table_upsert_keyed) as (_ & _ & _ & Hfail).
  split; [vm_compute; reflexivity|].
  split; [apply Htwice; vm_compute; reflexivity|].
  split; [vm_compute; reflexivity|].
  apply (Hfail (Reference.mkTable [] false));
    (vm_compute; reflexivity) || (intros; vm_compute; reflexivity).
Defined.

Section RawChat.
Context {LLM Storage : Type}.
Context `{!LLMClient LLM, !StorageAdapter Storage, !TaskRunner LLM, !Codecs}.
Implicit Type w : World LLM Storage.

(** Without a language model the body of [_chat_raw] raises at once. *)
Lemma _chat_raw_without_llm w messages user_message stream :
  llm (self w) = None →
  _chat_raw messages user_message stream w
  = (mkDrained [] (Some "LLM not set"), w).
Proof.
  intros Hllm. unfold _chat_raw, generator. mrun. rewrite Hllm. reflexivity.
Qed.

(** C7, as the code has it.  With a non-empty task list [chat_raw] raises at
    the call, in both modes.  Without a language model it raises at the call
    in non-streaming mode; in streaming mode the call returns the generator
    object, and the error is raised when that generator is first advanced.
    In each case the world is the one before the call: the storage was not
    read, the memory not changed and the model not contacted. *)
Theorem chat_raw_configuration_errors w messages user_message :
  (∀ stream, has_tasks (self w) = true →
     chat_raw messages user_message stream w
     = (Raise "chat_raw does not support tasks", w))
  ∧ (has_tasks (self w) = false → llm (self w) = None →
     chat_raw messages user_message false w = (Raise "LLM not set", w))
  ∧ (has_tasks (self w) = false →
     chat_raw messages user_message true w
     = (Ok (Iterator (_chat_raw messages user_message true)), w))
  ∧ (∀ stream, llm (self w) = None →
     _chat_raw messages user_message stream w
     = (mkDrained [] (Some "LLM not set"), w)).
Proof.
  repeat split.
  - intros stream Ht. unfold chat_raw. mrun. rewrite Ht. reflexivity.
  - intros Ht Hllm. unfold chat_raw. mrun. rewrite Ht. unfold next.
    rewrite _chat_raw_without_llm by done. reflexivity.
  - intros Ht. unfold chat_raw. mrun. rewrite Ht. reflexivity.
  - intros stream. apply _chat_raw_without_llm.
Qed.

End RawChat.

(** Without a language model and in streaming mode, [chat_raw] does not
    raise: it returns a generator. *)
Lemma chat_raw_streaming_without_llm_returns :
  llm (self Reference.bare_world) = None
  ∧ has_tasks (self Reference.bare_world) = false
  ∧ ¬ (∃ e, fst (chat_raw Reference.hello None true Reference.bare_world)
            = Raise e).
Proof.
  split; [reflexivity|]. split; [reflexivity|].
  intros [e He]. discriminate He.
Qed.

Lemma chat_raw_configuration_errors_witness :
  chat_raw Reference.hello None true Reference.tasked_world
  = (Raise "chat_raw does not support tasks", Reference.tasked_world)
  ∧ chat_raw Reference.hello None false Reference.bare_world
    = (Raise "LLM not set", Reference.bare_world)
  ∧ chat_raw Reference.hello None true Reference.bare_world
    = (Ok (Iterator (_chat_raw Reference.hello None true)), Reference.bare_world)
  ∧ drain (_chat_raw Reference.hello None true) Reference.bare_world
    = (Raise "LLM not set", Reference.bare_world).
Proof.
  pose proof (chat_raw_configuration_errors Reference.tasked_world
                Reference.hello None) as (Htasks & _).
  pose proof (chat_raw_configuration_errors Reference.bare_world
                Reference.hello None) as (_ & Hbatch & Hstream & Hbody).
  split; [apply Htasks; reflexivity|].
  split; [apply Hbatch; reflexivity|].
  split; [apply Hstream; reflexivity|].
  unfold drain. rewrite (Hbody true) by reflexivity. reflexivity.
Defined.

(** ** Naming *)

Lemma chars_app s1 s2 : Py.chars (s1 +:+ s2) = Py.chars s1 ++ Py.chars s2.
Proof. induction s1 as [|c s1 IH]; simpl; [done|]. by rewrite IH. Qed.

Lemma chars_rev_app s1 s2 :
  Py.chars (String.rev_app s1 s2) = reverse (Py.chars s1) ++ Py.chars s2.
Proof.
  revert s2. induction s1 as [|c s1 IH]; intros s2; simpl; [done|].
  rewrite IH. simpl. rewrite reverse_cons, <- app_assoc. done.
Qed.

Lemma chars_rev s : Py.chars (String.rev s) = reverse (Py.chars s).
Proof. unfold String.rev. rewrite chars_rev_app. simpl. by rewrite app_nil_r. Qed.

(** [lstrip] removes a prefix of whitespace and stops at a character that is none. *)
Lemma lstrip_spec s :
  ∃ pre, Py.chars s = pre ++ Py.chars (Py.lstrip s)
         ∧ Forall (λ c, Py.isspace c = true) pre
         ∧ ∀ c, head (Py.chars (Py.lstrip s)) = Some c → Py.isspace c = false.
Proof.
  induction s as [|c s (pre & Heq & Hpre & Hhead)]; simpl.
  - exists []. repeat split; [constructor | done].
  - destruct (Py.isspace c) eqn:Hc.
    + exists (c :: pre). simpl. rewrite <- Heq. repeat split; [by constructor | done].
    + exists []. simpl. repeat split; [constructor|]. by intros ? [= <-].
Qed.

Lemma strip_edges s c :
  (head (Py.chars (Py.strip s)) = Some c → Py.isspace c = false)
  ∧ (last (Py.chars (Py.strip s)) = Some c → Py.isspace c = false).
Proof.
  unfold Py.strip.
  destruct (lstrip_spec s) as (pre1 & Heq1 & Hpre1 & Hhead1).
  destruct (lstrip_spec (String.rev (Py.lstrip s))) as (pre2 & Heq2 & Hpre2 & Hhead2).
  rewrite chars_rev. rewrite chars_rev in Heq2.
  set (t := Py.chars (Py.lstrip s)) in *.
  set (u := Py.chars (Py.lstrip (String.rev (Py.lstrip s)))) in *.
  split.
  - rewrite head_reverse. intros Hlast.
    apply Hhead1.
    assert (last (reverse t) = Some c) as Hl.
    { rewrite Heq2. rewrite last_app, Hlast. done. }
    by rewrite last_reverse in Hl.
  - rewrite last_reverse. apply Hhead2.
Qed.

Lemma strip_chars s c : c ∈ Py.chars (Py.strip s) → c ∈ Py.chars s.
Proof.
  unfold Py.strip.
  destruct (lstrip_spec s) as (pre1 & Heq1 & _).
  destruct (lstrip_spec (String.rev (Py.lstrip s))) as (pre2 & Heq2 & _).
  rewrite chars_rev. rewrite chars_rev in Heq2.
  intros Hin. rewrite elem_of_reverse in Hin.
  rewrite Heq1. apply elem_of_app. right.
  rewrite <- elem_of_reverse, Heq2. apply elem_of_app. by right.
Qed.

Lemma prefix_single q c s :
  String.prefix (String q "") (String c s) = bool_decide (q = c).
Proof.
  cbn [String.prefix]. destruct (ascii_dec q c) as [->|Hne].
  - rewrite bool_decide_true by done. by destruct s.
  - by rewrite bool_decide_false.
Qed.

Lemma replace_go_removes q skip s :
  q ∉ Py.chars (Py.replace_go (String q "") "" skip s).
Proof.
  revert skip. induction s as [|c s IH]; intros skip.
  - simpl. apply not_elem_of_nil.
  - cbn [Py.replace_go]. destruct skip as [|k]; [|apply IH].
    rewrite prefix_single. case_bool_decide as Hq.
    + simpl. apply IH.
    + simpl. apply not_elem_of_cons. split; [done|apply IH].
Qed.

Lemma replace_removes q s : q ∉ Py.chars (Py.replace s (String q "") "").
Proof. apply replace_go_removes. Qed.

Section Naming.
Context {LLM Storage : Type}.
Context `{!LLMClient LLM, !StorageAdapter Storage, !TaskRunner LLM, !Codecs}.
Implicit Type w : World LLM Storage.

(** One attempt of [generate_name]: the world once the model was asked, and
    what the call does with the answer. *)
Lemma generate_name_attempt fuel w client :
  llm (self w) = Some client →
  let msgs := generate_name_messages (memory (self w)) in
  let generated_name := fst (llm_response client msgs) in
  ∃ w', llm (self w') = Some (snd (llm_response client msgs))
        ∧ memory (self w') = memory (self w)
        ∧ generate_name fuel w
          = if (15 <? length (Py.split generated_name))%nat
            then
              let retry :=
                mkWorld (self w')
                  (trace w'
                   ++ [EvLog LError "Generated name is too long. Trying again."])
              in
              match fuel with
              | O => (Ok None, retry)
              | S fuel' => generate_name fuel' retry
              end
            else
              (Ok (Some (Py.strip (Py.replace generated_name Py.dquote ""))),
               w').
Proof.
  intros Hllm msgs generated_name. subst msgs generated_name.
  destruct fuel; cbn [generate_name]; mrun; rewrite Hllm;
    destruct (AssistantMemory.chat_history (memory (self w))) eqn:Hh; mrun;
    destruct (llm_response client _) as [n c'] eqn:Hresp; mrun;
    (eexists (mkWorld _ _); split; [|split]; cycle 2;
     [destruct (_ <? _)%nat; reflexivity | reflexivity | reflexivity]).
Qed.

(** C8.  With a model configured, let [generated_name] be its answer to the
    naming prompt.  If it has at most 15 words, [generate_name] returns it
    with every double quote removed and the surrounding whitespace
    stripped, whatever the retry budget: the result holds no double quote
    and neither starts nor ends with whitespace.  If it has more than 15
    words, the call does not return it but starts over, asking the model
    again.  The quoted answer ["Tomorrow's Sync Plan"] has 3 words and comes
    back unquoted. *)
Theorem generate_name_accepts fuel w client :
  llm (self w) = Some client →
  let msgs := generate_name_messages (memory (self w)) in
  let generated_name := fst (llm_response client msgs) in
  let accepted := Py.strip (Py.replace generated_name Py.dquote "") in
  (length (Py.split generated_name) ≤ 15 →
   fst (generate_name fuel w) = Ok (Some accepted))
  ∧ (15 < length (Py.split generated_name) →
     ∃ w', llm (self w') = Some (snd (llm_response client msgs))
           ∧ memory (self w') = memory (self w)
           ∧ generate_name (S fuel) w = generate_name fuel w')
  ∧ (Ascii.ascii_of_nat 34 ∉ Py.chars accepted)
  ∧ (∀ c, head (Py.chars accepted) = Some c ∨ last (Py.chars accepted) = Some c →
          Py.isspace c = false)
  ∧ length (Py.split (Py.quoted "Tomorrow's Sync Plan")) = 3
  ∧ Py.strip (Py.replace (Py.quoted "Tomorrow's Sync Plan") Py.dquote "")
    = "Tomorrow's Sync Plan".
Proof.
  intros Hllm msgs generated_name accepted.
  split; [|split; [|split; [|split; [|split]]]].
  - intros Hwords.
    destruct (generate_name_attempt fuel w client Hllm) as (w' & _ & _ & ->).
    fold msgs generated_name.
    destruct (Nat.ltb_spec 15 (length (Py.split generated_name))); [lia|].
    reflexivity.
  - intros Hwords.
    destruct (generate_name_attempt (S fuel) w client Hllm)
      as (w' & Hl & Hm & ->).
    fold msgs generated_name.
    destruct (Nat.ltb_spec 15 (length (Py.split generated_name))); [|lia].
    eexists (mkWorld _ _). split; [exact Hl|]. split; [exact Hm|]. reflexivity.
  - intros Hin%strip_chars. revert Hin. apply replace_removes.
  - intros c. destruct (strip_edges (Py.replace generated_name Py.dquote "") c)
      as [Hhead Hlast].
    intros [Hc|Hc]; auto.
  - reflexivity.
  - reflexivity.
Qed.

End Naming.

(** The scripted model answers with the quoted name: it comes back
    unquoted.  When it first answers with 19 words, that answer is not
    returned; the call asks again and returns the second answer. *)
Lemma generate_name_accepts_witness :
  fst (generate_name 0 (Reference.namer [Py.quoted Reference.sync_plan]))
  = Ok (Some "Tomorrow's Sync Plan")
  ∧ length (Py.split Reference.too_long) = 19
  ∧ fst (generate_name 1
           (Reference.namer [Reference.too_long; "  Sync notes "]))
    = Ok (Some "Sync notes").
Proof.
  split; [|split; [vm_compute; reflexivity|]].
  - pose proof (generate_name_accepts 0
                  (Reference.namer [Py.quoted Reference.sync_plan]) _ eq_refl)
      as (Haccept & _).
    rewrite Haccept; [vm_compute; reflexivity|vm_compute; lia].
  - pose proof (generate_name_accepts 0
                  (Reference.namer [Reference.too_long; "  Sync notes "]) _
                  eq_refl) as (_ & Hretry & _).
    destruct Hretry as (w' & Hl & Hm & ->); [vm_compute; lia|].
    pose proof (generate_name_accepts 0 w' _ Hl) as (Haccept & _).
    rewrite Haccept; rewrite Hm; [vm_compute; reflexivity|vm_compute; lia].
Defined.

(** ** The run identifier *)

Create HintDb keeps discriminated.

Section RunIdentity.
Context {LLM Storage : Type}.
Context `{!LLMClient LLM, !StorageAdapter Storage, !TaskRunner LLM, !Codecs}.
Implicit Type w : World LLM Storage.

Lemma keeps_ret {A} (v : A) : keeps_run_id (ret (LLM:=LLM) (Storage:=Storage) v).
Proof. by intros w id Hid. Qed.

Lemma keeps_raise {A} e : keeps_run_id (raise (LLM:=LLM) (Storage:=Storage) (A:=A) e).
Proof. by intros w id Hid. Qed.

Lemma keeps_get_self : keeps_run_id (get_self (LLM:=LLM) (Storage:=Storage)).
Proof. by intros w id Hid. Qed.

Lemma keeps_emit e : keeps_run_id (emit (LLM:=LLM) (Storage:=Storage) e).
Proof. by intros w id Hid. Qed.

Lemma keeps_modify (f : Assistant LLM Storage → Assistant LLM Storage) :
  (∀ a id, run_id a = Some id → run_id (f a) = Some id) →
  keeps_run_id (modify f).
Proof. intros Hf w id Hid. simpl. by apply Hf. Qed.

Lemma keeps_bind {A B} (c : M A) (k : A → M (LLM:=LLM) (Storage:=Storage) B) :
  keeps_run_id c → (∀ v, keeps_run_id (k v)) → keeps_run_id (bind c k).
Proof.
  intros Hc Hk w id Hid. unfold bind.
  specialize (Hc w id Hid). destruct (c w) as [[v|e] w']; simpl in *.
  - by apply Hk.
  - done.
Qed.

Lemma keeps_generator {A} (body : M (LLM:=LLM) (Storage:=Storage) (Drained A)) :
  keeps_run_id body → keeps_run_id (generator body).
Proof.
  intros Hb w id Hid. unfold generator. specialize (Hb w id Hid).
  by destruct (body w) as [[d|e] w'].
Qed.

Lemma keeps_next {A} (g : Generator (LLM:=LLM) (Storage:=Storage) A) :
  keeps_run_id g → keeps_run_id (next g).
Proof.
  intros Hg w id Hid. unfold next. specialize (Hg w id Hid).
  destruct (g w) as [d w']. by destruct (yielded d).
Qed.

Lemma keeps_drain {A} (g : Generator (LLM:=LLM) (Storage:=Storage) A) :
  keeps_run_id g → keeps_run_id (drain g).
Proof.
  intros Hg w id Hid. unfold drain. specialize (Hg w id Hid).
  destruct (g w) as [d w']. by destruct (raised d).
Qed.

(** Walk through a computation, closing each step with the lemma for it. *)
Ltac keeps_step :=
  first
    [ solve [auto 1 with keeps nocore]
    | apply keeps_ret | apply keeps_raise | apply keeps_get_self
    | apply keeps_emit
    | apply keeps_modify; intros ? ? Hid; simpl; try done;
      try (rewrite Hid; reflexivity)
    | apply keeps_generator | apply keeps_next | apply keeps_drain
    | apply keeps_bind; [|intros ?]
    | match goal with
      | |- keeps_run_id (match ?x with _ => _ end) => destruct x
      | |- keeps_run_id (let '(_, _) := ?x in _) => destruct x
      end ].

Ltac keeps := repeat keeps_step.

Lemma keeps_from_database_row row :
  keeps_run_id (from_database_row (LLM:=LLM) (Storage:=Storage) row).
Proof.
  unfold from_database_row. keeps.
Qed.
#[local] Hint Resolve keeps_from_database_row : keeps.

Lemma keeps_read_from_storage :
  keeps_run_id (read_from_storage (LLM:=LLM) (Storage:=Storage)).
Proof. unfold read_from_storage. keeps. Qed.
#[local] Hint Resolve keeps_read_from_storage : keeps.

Lemma keeps_write_to_storage :
  keeps_run_id (write_to_storage (LLM:=LLM) (Storage:=Storage)).
Proof. unfold write_to_storage. keeps. Qed.
#[local] Hint Resolve keeps_write_to_storage : keeps.

Lemma keeps_add_introduction i :
  keeps_run_id (add_introduction (LLM:=LLM) (Storage:=Storage) i).
Proof. unfold add_introduction. keeps. Qed.
#[local] Hint Resolve keeps_add_introduction : keeps.

Lemma keeps_api_log_run :
  keeps_run_id (_api_log_assistant_run (LLM:=LLM) (Storage:=Storage)).
Proof. unfold _api_log_assistant_run. keeps. Qed.
#[local] Hint Resolve keeps_api_log_run : keeps.

Lemma keeps_api_log_event t d :
  keeps_run_id (_api_log_assistant_event (LLM:=LLM) (Storage:=Storage) t d).
Proof. unfold _api_log_assistant_event. keeps. Qed.
#[local] Hint Resolve keeps_api_log_event : keeps.

Lemma keeps_create_run :
  keeps_run_id (create_run (LLM:=LLM) (Storage:=Storage)).
Proof.
  unfold create_run. keeps.
Qed.
#[local] Hint Resolve keeps_create_run : keeps.

Lemma keeps_run_task message stream idx ls task :
  keeps_run_id (run_task (Storage:=Storage) message stream idx ls task).
Proof. unfold run_task. keeps. Qed.
#[local] Hint Resolve keeps_run_task : keeps.

Lemma keeps_run_tasks message stream tasks idx ls :
  keeps_run_id (run_tasks (Storage:=Storage) message stream idx ls tasks).
Proof.
  revert idx ls. induction tasks as [|t tasks IH]; intros idx ls; simpl.
  - keeps.
  - keeps.
Qed.
#[local] Hint Resolve keeps_run_tasks : keeps.

Lemma keeps__run message stream :
  keeps_run_id (_run (Storage:=Storage) message stream).
Proof.
  unfold _run, run_loop. keeps.
  by destruct (tasks a) as [[|]|].
Qed.
#[local] Hint Resolve keeps__run : keeps.

Lemma keeps_consume {A B}
    (c : M (LLM:=LLM) (Storage:=Storage) (Returned A B)) :
  keeps_run_id c →
  (∀ w r w' g, c w = (r, w') → r = Ok (Iterator g) → keeps_run_id g) →
  keeps_run_id (consume c).
Proof.
  intros Hc Hg w id Hid. unfold consume, bind.
  pose proof (Hc w id Hid) as Hid'.
  destruct (c w) as [[[g|v]|e] w'] eqn:Hcw; simpl in *; try done.
  specialize (Hg w _ w' g Hcw eq_refl).
  pose proof (keeps_drain g Hg w' id Hid') as Hd.
  by destruct (drain g w') as [[l|e] w''].
Qed.

Lemma keeps_run message stream :
  keeps_run_id (run (Storage:=Storage) message stream).
Proof. unfold run, update_output. keeps. Qed.
#[local] Hint Resolve keeps_run : keeps.

Lemma run_iterator message stream w r w' g :
  run (Storage:=Storage) message stream w = (r, w') →
  r = Ok (Iterator g) → g = _run message true.
Proof.
  unfold run, update_output. mrun. intros Hrun ->. revert Hrun.
  repeat match goal with
         | |- context [match ?x with _ => _ end] => destruct x eqn:?; simpl
         end; try congruence.
Qed.

Lemma keeps__chat_raw messages user_message stream :
  keeps_run_id (_chat_raw (LLM:=LLM) (Storage:=Storage) messages user_message stream).
Proof. unfold _chat_raw. keeps. Qed.
#[local] Hint Resolve keeps__chat_raw : keeps.

Lemma keeps_chat_raw messages user_message stream :
  keeps_run_id (chat_raw (LLM:=LLM) (Storage:=Storage) messages user_message stream).
Proof. unfold chat_raw. keeps. Qed.
#[local] Hint Resolve keeps_chat_raw : keeps.

Lemma chat_raw_iterator messages user_message stream w r w' g :
  chat_raw (LLM:=LLM) (Storage:=Storage) messages user_message stream w = (r, w') →
  r = Ok (Iterator g) → g = _chat_raw messages user_message stream.
Proof.
  unfold chat_raw. mrun. intros Hrun ->. revert Hrun.
  repeat match goal with
         | |- context [match ?x with _ => _ end] => destruct x eqn:?; simpl
         end; try congruence.
Qed.

Lemma keeps_rename n : keeps_run_id (rename (LLM:=LLM) (Storage:=Storage) n).
Proof. unfold rename. keeps. Qed.

Lemma keeps_rename_run n :
  keeps_run_id (rename_run (LLM:=LLM) (Storage:=Storage) n).
Proof. unfold rename_run. keeps. Qed.

Lemma keeps_generate_name fuel :
  keeps_run_id (generate_name (LLM:=LLM) (Storage:=Storage) fuel).
Proof. induction fuel; cbn [generate_name]; keeps. Qed.
#[local] Hint Resolve keeps_generate_name : keeps.

Lemma keeps_auto_rename_run fuel :
  keeps_run_id (auto_rename_run (LLM:=LLM) (Storage:=Storage) fuel).
Proof. unfold auto_rename_run. keeps. Qed.

Lemma keeps_consume_run message stream :
  keeps_run_id (consume (run (Storage:=Storage) message stream)).
Proof.
  apply keeps_consume; [keeps|].
  intros w r w' g Hrun Hr. rewrite (run_iterator _ _ _ _ _ _ Hrun Hr). keeps.
Qed.
#[local] Hint Resolve keeps_consume_run : keeps.

Lemma keeps_print_response message stream markdown :
  keeps_run_id (print_response (Storage:=Storage) message stream markdown).
Proof.
  unfold print_response.
  apply keeps_bind; [keeps|]. intros _.
  apply keeps_bind; [keeps|]. intros a.
  apply keeps_bind; [keeps|]. intros _.
  apply (keeps_consume_run message _).
Qed.
#[local] Hint Resolve keeps_print_response : keeps.

Lemma keeps_cli_app inputs stream markdown exit_on :
  keeps_run_id (cli_app (Storage:=Storage) inputs stream markdown exit_on).
Proof. induction inputs; cbn [cli_app]; keeps. Qed.

Lemma keeps_call c : keeps_run_id (call (LLM:=LLM) (Storage:=Storage) c).
Proof.
  destruct c; cbn [call]; unfold void, chat;
    auto using keeps_rename, keeps_rename_run, keeps_auto_rename_run,
      keeps_cli_app with keeps; try (keeps; fail).
  apply keeps_consume; [keeps|].
  intros w r w' g Hrun Hr. rewrite (chat_raw_iterator _ _ _ _ _ _ _ Hrun Hr). keeps.
Qed.

Lemma steps_keep_run_id cs : ∀ w id,
  run_id (self w) = Some id → run_id (self (steps w cs)) = Some id.
Proof.
  induction cs as [|c cs IH]; intros w id Hid; simpl; [done|].
  apply IH. by apply keeps_call.
Qed.

(** C9.  A constructed assistant has a [run_id]: the one the caller
    supplied, or the generated identifier when the caller supplied none.
    Whatever calls are then made on the assistant (generators consumed to
    their end; calls that raise included), [run_id] keeps that value, so it
    is never [None] again. *)
Theorem run_id_always_set uuid4 (kw : Assistant LLM Storage) (cs : list Call) :
  run_id (new_assistant uuid4 kw) = Some (set_run_id uuid4 (run_id kw))
  ∧ set_run_id uuid4 None = uuid4
  ∧ run_id (self (steps (new_world uuid4 kw) cs))
    = Some (set_run_id uuid4 (run_id kw)).
Proof.
  split; [reflexivity|]. split; [reflexivity|].
  by apply steps_keep_run_id.
Qed.

End RunIdentity.

(** ** Task chaining *)

Section Chaining.
Context {LLM Storage : Type}.
Context `{!LLMClient LLM, !StorageAdapter Storage, !TaskRunner LLM, !Codecs}.
Implicit Type w : World LLM Storage.
Implicit Type ls : LoopState (LLM:=LLM).

(** One iteration always completes; it records the message prepared from the
    previous task together with the task as its run left it. *)
Lemma run_task_spec message stream idx ls task w :
  ∃ ls' w' p,
    run_task message stream idx ls task w = (Ok ls', w')
    ∧ p = prepare_task (self w) message (ls_task_data ls) task
    ∧ let m := task_message (ls_current ls) message in
      let done := if stream && Task.streamable p
                  then task_after (task_run_stream p m) p
                  else task_after (task_run_batch p m) p in
      ls_current ls' = Some done
      ∧ ls_executed ls' = ls_executed ls ++ [(m, done)].
Proof.
  unfold run_task. mrun.
  destruct (stream && Task.streamable _) eqn:Hmode; mrun;
    do 3 eexists; (split; [reflexivity|]); (split; [reflexivity|]);
    cbv zeta; rewrite Hmode.
  - by destruct (Task.show_output _).
  - destruct (response_text _); [destruct (Task.show_output _); [destruct stream|]|];
      done.
Qed.

(** The loop always completes; the stretch it adds to the record has one
    entry per task and is chained from the task before it. *)
Lemma run_tasks_spec message stream tasks : ∀ idx ls w,
  ∃ ls' w' new,
    run_tasks message stream idx ls tasks w = (Ok ls', w')
    ∧ ls_executed ls' = ls_executed ls ++ new
    ∧ length new = length tasks
    ∧ chained message (ls_current ls) new
    ∧ ls_current ls' = from_option (λ p, Some p.2) (ls_current ls) (last new)
    ∧ Forall (λ e, ∃ p, e.2 = task_after (task_run_stream p e.1) p
                        ∨ e.2 = task_after (task_run_batch p e.1) p) new.
Proof.
  induction tasks as [|task tasks IH]; intros idx ls w; cbn [run_tasks].
  - exists ls, w, []. rewrite app_nil_r. repeat split; constructor.
  - unfold bind.
    destruct (run_task_spec message stream idx ls task w)
      as (ls1 & w1 & p & -> & Hp & Hcur & Hex).
    destruct (IH (S idx) ls1 w1) as (ls' & w' & new & -> & Hex' & Hlen & Hch & Hcur' & Hall).
    eexists ls', w', (_ :: new). split; [reflexivity|].
    rewrite Hex', Hex, <- app_assoc. simpl.
    split; [reflexivity|]. split; [by rewrite Hlen|].
    rewrite Hcur in Hch, Hcur'. split; [done|].
    split.
    + rewrite Hcur', last_cons. by destruct (last new).
    + constructor; [|done]. simpl. exists p.
      destruct (stream && Task.streamable p); eauto.
Qed.

(** Neighbouring entries of a chained stretch. *)
Lemma chained_lookup message (prev : option (Task.t LLM)) ex i mi ti mj tj :
  chained message prev ex →
  ex !! i = Some (mi, ti) → ex !! S i = Some (mj, tj) →
  mj = task_message (Some ti) message.
Proof.
  revert prev i. induction ex as [|[m t] ex IH]; intros prev i Hch; [done|].
  destruct Hch as [-> Hch]. destruct i as [|i]; simpl.
  - intros [= <- <-]. destruct ex as [|[m' t'] ex]; [done|].
    simpl. intros [= <- <-]. by destruct Hch.
  - intros Hi Hj. eapply IH; eauto.
Qed.

(** C2.  The task loop of a run always completes and runs every task of the
    list once.  The first task is handed the caller's message.  For two
    consecutive tasks, the second is handed: the [model_dump_json] text of the
    first one's output when that output is a model instance (not the object);
    the output itself when it is any other value; and the caller's message
    when the first task left no output.  Each recorded task is the task
    object as [run], called with the recorded message, left it. *)
Theorem task_chain_inputs message stream w :
  ∃ ls w',
    run_loop message stream w = (Ok ls, w')
    ∧ length (ls_executed ls)
      = length (run_task_list (self (snd (read_from_storage w))))
    ∧ (∀ m t, ls_executed ls !! 0 = Some (m, t) → m = message)
    ∧ (∀ i mi ti mj tj,
         ls_executed ls !! i = Some (mi, ti) →
         ls_executed ls !! S i = Some (mj, tj) →
         match Task.output ti with
         | Some (VModel cls fields) =>
             mj = Some (VStr (model_dump_json (VModel cls fields)))
         | Some o => mj = Some o
         | None => mj = message
         end)
    ∧ (∀ i m t,
         ls_executed ls !! i = Some (m, t) →
         ∃ p, t = task_after (task_run_stream p m) p
              ∨ t = task_after (task_run_batch p m) p).
Proof.
  unfold run_loop. mrun.
  destruct (read_from_storage_spec w) as (r & w1 & -> & _). simpl.
  destruct (run_tasks_spec message stream (run_task_list (self w1)) 1
              (mkLoop None "" [] [] []) w1)
    as (ls & w' & new & -> & Hex & Hlen & Hch & _ & Hall).
  simpl in Hex, Hch. subst new.
  exists ls, w'. split; [reflexivity|]. split; [done|].
  split; [|split].
  - intros m t H0. destruct (ls_executed ls) as [|[m' t'] ex]; [done|].
    simpl in H0. injection H0 as -> ->. by destruct Hch.
  - intros i mi ti mj tj Hi Hj.
    rewrite (chained_lookup _ _ _ _ _ _ _ _ Hch Hi Hj). simpl.
    by destruct (Task.output ti) as [[]|].
  - intros i m t Hi. rewrite Forall_lookup in Hall. apply (Hall _ _ Hi).
Qed.
End Chaining.

(** Two chained tasks, the first leaving a [Plan] object: the second one is
    handed the JSON text of the plan. *)
Lemma task_chain_inputs_witness :
  ∃ ls w' t1 t2,
    run_loop (Some (VStr "Plan my day")) true Reference.planner_world
    = (Ok ls, w')
    ∧ ls_executed ls
      = [(Some (VStr "Plan my day"), t1);
         (Some (VStr (model_dump_json Reference.plan)), t2)]
    ∧ Task.output t1 = Some Reference.plan.
Proof.
  destruct (task_chain_inputs (Some (VStr "Plan my day")) true
              Reference.planner_world)
    as (ls & w' & Hrun & Hlen & Hhead & Hchain & _).
  exists ls, w'. revert Hlen Hhead Hchain.
  destruct (ls_executed ls) as [|[m1 t1] [|[m2 t2] [|]]] eqn:Hex;
    intros Hlen Hhead Hchain; try discriminate Hlen.
  exists t1, t2. split; [exact Hrun|].
  assert (Task.output t1 = Some Reference.plan) as Hout.
  { vm_compute in Hrun. injection Hrun as <- _. simpl in Hex.
    injection Hex as _ <- _. reflexivity. }
  specialize (Hchain 0 m1 t1 m2 t2 eq_refl eq_refl). rewrite Hout in Hchain.
  rewrite (Hhead m1 t1 eq_refl), Hchain. split; [reflexivity|exact Hout].
Defined.

(** Two chained tasks, the first leaving a dictionary in its output, a
    structured value that is not a string: the second one is handed the
    dictionary itself, not a text. *)
Lemma task_chain_dict_handed_as_object :
  ∃ ls w' t1 t2,
    run_loop (Some (VStr "Plan my day")) true Reference.dict_planner_world
    = (Ok ls, w')
    ∧ ls_executed ls
      = [(Some (VStr "Plan my day"), t1); (Some Reference.plan_dict, t2)]
    ∧ Task.output t1 = Some Reference.plan_dict
    ∧ ∀ s, Reference.plan_dict ≠ VStr s.
Proof.
  destruct (run_loop (Some (VStr "Plan my day")) true
              Reference.dict_planner_world) as [r w'] eqn:Hrun.
  vm_compute in Hrun. injection Hrun as <- <-.
  do 4 eexists. split; [reflexivity|].
  split; [vm_compute; reflexivity|]. split; [vm_compute; reflexivity|].
  intros s. discriminate.
Qed.

(** ** Streaming, aggregation and structured output *)

Lemma string_app_nil_r (s : string) : s +:+ "" = s.
Proof.
  induction s as [|c s IH]; [done|].
  change (String c s +:+ "") with (String c (s +:+ "")). by rewrite IH.
Qed.

Lemma string_app_assoc (s1 s2 s3 : string) :
  (s1 +:+ s2) +:+ s3 = s1 +:+ (s2 +:+ s3).
Proof.
  induction s1 as [|c s1 IH]; [done|].
  change (String c ((s1 +:+ s2) +:+ s3) = String c (s1 +:+ (s2 +:+ s3))).
  by rewrite IH.
Qed.

Lemma fold_left_append (texts : list string) (out : string) :
  fold_left String.append texts out = out +:+ Py.join texts.
Proof.
  revert out. induction texts as [|t texts IH]; intros out; simpl.
  - by rewrite string_app_nil_r.
  - by rewrite IH, string_app_assoc.
Qed.

Section Modes.
Context {LLM Storage : Type}.
Context `{!LLMClient LLM, !StorageAdapter Storage, !TaskRunner LLM, !Codecs}.
Implicit Type w : World LLM Storage.
Implicit Type ls : LoopState (LLM:=LLM).

(** [write_to_storage] and the monitoring call always return. *)
Lemma write_to_storage_total w :
  ∃ r w', write_to_storage w = (Ok r, w')
          ∧ output_model (self w') = output_model (self w)
          ∧ parse_output (self w') = parse_output (self w).
Proof.
  unfold write_to_storage. mrun.
  destruct (storage (self w)); mrun; [|eauto].
  destruct (storage_upsert _ _). mrun. eauto.
Qed.

Lemma _api_log_assistant_event_total t d w :
  ∃ w', _api_log_assistant_event t d w = (Ok tt, w') ∧ self w' = self w.
Proof.
  unfold _api_log_assistant_event. mrun.
  destruct (monitoring (self w)); mrun; eauto.
Qed.

(** The task loop always completes, with one record per task. *)
Lemma run_loop_total message stream w :
  ∃ ls w1,
    run_loop message stream w = (Ok ls, w1)
    ∧ length (ls_executed ls)
      = length (run_task_list (self (snd (read_from_storage w)))).
Proof.
  unfold run_loop. mrun.
  destruct (read_from_storage_spec w) as (r & w1 & -> & _). simpl.
  destruct (run_tasks_spec message stream (run_task_list (self w1)) 1
              (mkLoop None "" [] [] []) w1)
    as (ls & w' & new & -> & Hex & Hlen & _).
  simpl in Hex. subst new. eauto.
Qed.

(** [_run] raises nothing of its own; what it yields in each mode. *)
Lemma _run_spec message stream w :
  ∃ ls w1 w',
    run_loop message stream w = (Ok ls, w1)
    ∧ _run message stream w
      = (mkDrained (if stream then ls_chunks ls
                    else ls_chunks ls ++ [ls_run_output ls]) None, w')
    ∧ output (self w') = Some (VStr (ls_run_output ls)).
Proof.
  destruct (run_loop_total message stream w) as (ls & w1 & Hloop & _).
  exists ls, w1. unfold _run, generator. unfold bind at 1. rewrite Hloop.
  mrun.
  match goal with |- context [write_to_storage ?x] =>
    destruct (write_to_storage_total x) as (r & w2 & -> & _)
  end.
  match goal with |- context [_api_log_assistant_event ?t ?d ?x] =>
    destruct (_api_log_assistant_event_total t d x) as (w3 & -> & Hs)
  end.
  eexists. split; [reflexivity|]. split; reflexivity.
Qed.

Lemma run_task_batch_chunks message idx ls task w ls' w' :
  run_task message false idx ls task w = (Ok ls', w') →
  ls_chunks ls' = ls_chunks ls.
Proof.
  unfold run_task. mrun. rewrite andb_false_r.
  destruct (response_text _); [destruct (Task.show_output _)|];
    intros [= <- _]; reflexivity.
Qed.

Lemma run_tasks_batch_chunks message tasks : ∀ idx ls w ls' w',
  run_tasks message false idx ls tasks w = (Ok ls', w') →
  ls_chunks ls' = ls_chunks ls.
Proof.
  induction tasks as [|task tasks IH]; intros idx ls w ls' w'; cbn [run_tasks].
  - by intros [= <- _].
  - unfold bind.
    destruct (run_task_spec message false idx ls task w)
      as (ls1 & w1 & p & Hrun & _).
    rewrite Hrun. intros Hrest.
    rewrite (IH _ _ _ _ _ Hrest). by eapply run_task_batch_chunks.
Qed.

(** In non-streaming mode [_run] yields exactly once: the aggregate text,
    which it has also stored in [output]. *)
Lemma _run_batch_spec message w :
  ∃ raw w', _run message false w = (mkDrained [raw] None, w')
            ∧ output (self w') = Some (VStr raw).
Proof.
  destruct (_run_spec message false w) as (ls & w1 & w' & Hloop & -> & Hout).
  exists (ls_run_output ls), w'. split; [|done].
  unfold run_loop in Hloop. revert Hloop. unfold bind.
  destruct (read_from_storage w) as [[r|e] w0]; [|done].
  intros Hloop. by rewrite (run_tasks_batch_chunks _ _ _ _ _ _ _ Hloop).
Qed.

(** C4.  Take a run with a single task (the one configured task, or the
    default task) whose language-model behaviour is the same in both modes:
    the fragments it streams concatenate to the text of its non-streamed
    response.  Then [_run] in non-streaming mode yields exactly one string,
    neither mode raises, and the concatenation of the chunks yielded in
    streaming mode is that string.  The behaviour assumption is only needed
    for a visible, streamable task. *)
Theorem streaming_matches_batch message w task :
  let w1 := snd (read_from_storage w) in
  let p := prepare_task (self w1) message [] task in
  run_task_list (self w1) = [task] →
  (Task.streamable p = true → Task.show_output p = true →
   Py.join (chunk_text <$> tr_value (task_run_stream p message))
   = default "" (response_text (tr_value (task_run_batch p message)))) →
  ∃ aggregate,
    yielded (fst (_run message false w)) = [aggregate]
    ∧ raised (fst (_run message false w)) = None
    ∧ raised (fst (_run message true w)) = None
    ∧ Py.join (yielded (fst (_run message true w))) = aggregate.
Proof.
  intros w1 p Hsingle Hmodel.
  destruct (_run_spec message false w) as (lsb & wb1 & wb & Hloopb & -> & _).
  destruct (_run_spec message true w) as (lss & ws1 & ws & Hloops & -> & _).
  simpl. revert Hloopb Hloops. unfold run_loop, bind.
  subst p w1. revert Hsingle Hmodel.
  destruct (read_from_storage w) as [[r|e] w1]; [|done]. simpl.
  intros -> Hmodel. cbn [run_tasks]. unfold bind, run_task. mrun.
  set (p := prepare_task (self w1) message [] task) in *.
  destruct (Task.streamable p) eqn:Hst; simpl.
  - destruct (Task.show_output p) eqn:Hshow.
    + specialize (Hmodel eq_refl eq_refl).
      destruct (response_text _) as [s|]; simpl in Hmodel;
        intros [= <- _] [= <- _]; simpl; eexists; repeat split; done.
    + destruct (response_text _) as [s|]; intros [= <- _] [= <- _]; simpl;
        eexists; repeat split; done.
  - destruct (response_text _) as [s|]; [destruct (Task.show_output p)|];
      intros [= <- _] [= <- _]; simpl; eexists; repeat split;
      rewrite ?string_app_nil_r; done.
Qed.

Lemma startswith_nonempty raw p :
  p ≠ "" → Py.startswith raw p = true → truthy (VStr raw) = true.
Proof. intros Hp. destruct raw; [by destruct p|done]. Qed.

Lemma base_model_truthy o : is_base_model o = true → truthy o = true.
Proof. by destruct o. Qed.

(** C3.  With an output schema configured and [parse_output] enabled (and a
    validator that returns model instances), [run] runs the pipeline in
    non-streaming mode whatever [stream] says, and returns a value and never
    raises.  With [parse_attempts] the attempts in the order of the
    specification: when every attempt fails, the value is the raw aggregate
    text, unchanged; when an attempt yields a (truthy) result, the value is
    that result and it replaces the stored output.  For the raw text
    [fenced_example] and a schema whose validator rejects the fenced text and
    accepts the JSON inside it, the value is the validated object. *)
Theorem run_parses_output message stream w om :
  output_model (self w) = Some om →
  parse_output (self w) = true →
  (∀ cls text o, model_validate_json cls text = Some o → is_base_model o = true) →
  ∃ raw w1 v w',
    _run message false w = (mkDrained [raw] None, w1)
    ∧ run message stream w = (Ok (Value v), w')
    ∧ run message true w = run message false w
    ∧ match parse_attempts om raw with
      | Some o => if truthy o
                  then v = o ∧ output (self w') = Some o
                  else v = VStr raw
      | None => v = VStr raw
      end
    ∧ (∀ cls o, om = OMClass cls → raw = fenced_example →
         model_validate_json cls fenced_example = None →
         model_validate_json cls json_example = Some o →
         v = o).
Proof.
  intros Hom Hparse Hmodel.
  destruct (_run_batch_spec message w) as (raw & w1 & Hrun & Hout).
  exists raw, w1.
  assert (∃ v w',
    run message stream w = (Ok (Value v), w')
    ∧ run message true w = run message false w
    ∧ match parse_attempts om raw with
      | Some o => if truthy o
                  then v = o ∧ output (self w') = Some o
                  else v = VStr raw
      | None => v = VStr raw
      end) as (v & w' & Hv & Hmode & Hres).
  { unfold run. mrun. rewrite Hom, Hparse. unfold next, bind. rewrite Hrun.
    simpl. unfold parse_attempts, update_output, output_or.
    destruct om as [s|d|l|cls].
    1-3: (destruct (json_loads raw) as [o|] eqn:Hl; mrun;
          [destruct o; mrun; rewrite ?Hout|rewrite Hout];
          do 2 eexists; (split; [reflexivity|]); (split; [reflexivity|]);
          simpl;
          repeat match goal with
                 | |- context [if ?b then _ else _] => destruct b eqn:?
                 | |- context [match ?b with [] => _ | _ => _ end] => destruct b eqn:?
                 end; simpl in *; try done; try congruence).
    destruct (model_validate_json cls raw) as [o|] eqn:Hv1; mrun.
    - pose proof (Hmodel _ _ _ Hv1) as Hb. destruct o; try done. simpl.
      do 2 eexists. split; [reflexivity|]. split; [reflexivity|]. done.
    - destruct (Py.startswith raw fence_open) eqn:Hf; mrun.
      + destruct (model_validate_json cls (strip_fence raw)) as [o|] eqn:Hv2; mrun.
        * pose proof (Hmodel _ _ _ Hv2) as Hb. destruct o; try done. simpl.
          do 2 eexists. split; [reflexivity|]. split; [reflexivity|]. done.
        * rewrite Hout. rewrite (startswith_nonempty raw fence_open) by done.
          do 2 eexists. split; [reflexivity|]. split; [reflexivity|]. done.
      + rewrite Hout. do 2 eexists. split; [reflexivity|]. split; [reflexivity|].
        by destruct (truthy (VStr raw)). }
  exists v, w'. split; [done|]. split; [done|]. split; [done|]. split; [done|].
  intros cls o -> -> Hfail Hok. revert Hres. unfold parse_attempts.
  rewrite Hfail.
  replace (Py.startswith fenced_example fence_open) with true by (vm_compute; reflexivity).
  replace (strip_fence fenced_example) with json_example by (vm_compute; reflexivity).
  rewrite Hok. rewrite (base_model_truthy o (Hmodel _ _ _ Hok)). by intros [-> _].
Qed.
End Modes.

(** One configured task that streams ["a"] and ["b"] and answers ["ab"] when
    not streamed, and the default task of an assistant without tasks. *)
Lemma streaming_matches_batch_witness :
  yielded (fst (_run (Some (VStr "x")) true Reference.tasked_world)) = ["a"; "b"]
  ∧ yielded (fst (_run (Some (VStr "x")) false Reference.tasked_world)) = ["ab"]
  ∧ Py.join (yielded (fst (_run (Some (VStr "x")) true Reference.tasked_world)))
    = "ab".
Proof.
  destruct (streaming_matches_batch (Some (VStr "x")) Reference.tasked_world
              (Reference.fixed_task ["a"; "b"] None))
    as (aggregate & Hbatch & _ & _ & Hstream).
  - vm_compute. reflexivity.
  - intros _ _. vm_compute. reflexivity.
  - split; [vm_compute; reflexivity|].
    assert (aggregate = "ab") as ->.
    { vm_compute in Hbatch. by injection Hbatch. }
    split; [exact Hbatch|exact Hstream].
Defined.

(** The reference validator returns model instances. *)
Lemma validate_json_model cls text o :
  model_validate_json cls text = Some o → is_base_model o = true.
Proof.
  simpl. unfold Reference.validate_json.
  destruct (Reference.schema_of cls); simpl; [|done].
  destruct (Reference.loads text) as [[]|]; simpl; try done.
  destruct (Reference.validate_fields _ _); simpl; [|done].
  by intros [= <-].
Qed.

(** The model answers with the fenced JSON text: [run] returns the [A]
    object with [a = 1].  It answers with prose: [run] returns the prose. *)
Lemma run_parses_output_witness :
  fst (run (Some (VStr fenced_example)) true
         (Reference.parser_world (OMClass "A")))
  = Ok (Value (VModel "A" {["a" := VInt 1]}))
  ∧ fst (run (Some (VStr "no json here")) true
           (Reference.parser_world (OMClass "A")))
    = Ok (Value (VStr "no json here")).
Proof.
  split.
  - destruct (run_parses_output (Some (VStr fenced_example)) true
                (Reference.parser_world (OMClass "A")) (OMClass "A")
                eq_refl eq_refl validate_json_model)
      as (raw & w1 & v & w' & Hrun & -> & _ & _ & Hexample).
    simpl. do 2 f_equal. apply (Hexample "A"); [reflexivity| |
      vm_compute; reflexivity | vm_compute; reflexivity].
    vm_compute in Hrun. by injection Hrun as <- _.
  - destruct (run_parses_output (Some (VStr "no json here")) true
                (Reference.parser_world (OMClass "A")) (OMClass "A")
                eq_refl eq_refl validate_json_model)
      as (raw & w1 & v & w' & Hrun & -> & _ & Hres & _).
    assert (raw = "no json here") as ->.
    { vm_compute in Hrun. by injection Hrun as <- _. }
    vm_compute in Hres. by rewrite Hres.
Defined.

(** * Further properties *)

(** ** What the calls leave alone *)

Create HintDb frames discriminated.

Section Framing.
Context {LLM Storage : Type}.
Context `{!LLMClient LLM, !StorageAdapter Storage, !TaskRunner LLM, !Codecs}.
Implicit Type w : World LLM Storage.

Lemma framed_refl md w : framed md w w.
Proof.
  repeat split; try done. exists []. rewrite app_nil_r. by repeat split.
Qed.

Lemma framed_trans md w1 w2 w3 :
  framed md w1 w2 → framed md w2 w3 → framed md w1 w3.
Proof.
  intros (Hi & Hp & Ho & Hpa & Hd & Hm & Hmd & Hu & Hl & Hs & tr & Ht & Ha & Hst)
         (Hi' & Hp' & Ho' & Hpa' & Hd' & Hm' & Hmd' & Hu' & Hl' & Hs' & tr' & Ht' & Ha' & Hst').
  split; [congruence|]. split; [congruence|]. split; [congruence|].
  split; [congruence|]. split; [congruence|]. split; [congruence|].
  split; [intros Hb; rewrite (Hmd' Hb); exact (Hmd Hb)|].
  split; [auto|]. split; [auto|].
  split; [auto|].
  exists (tr ++ tr'). rewrite Ht', Ht, app_assoc. split; [done|].
  split.
  - intros Hoff. apply Forall_app. split; [auto|]. apply Ha'. congruence.
  - intros Hnone. apply Forall_app. split; [auto|]. apply Hst'. by apply Hs.
Qed.

Lemma framed_weaken md w w' : framed md w w' → framed false w w'.
Proof.
  intros (Hi & Hp & Ho & Hpa & Hd & Hm & Hmd & Hrest).
  do 6 (split; [done|]). split; [done|]. exact Hrest.
Qed.

Lemma frames_ret md {A} (v : A) : frames md (ret (LLM:=LLM) (Storage:=Storage) v).
Proof. intros w. apply framed_refl. Qed.

Lemma frames_raise md {A} e :
  frames md (raise (LLM:=LLM) (Storage:=Storage) (A:=A) e).
Proof. intros w. apply framed_refl. Qed.

Lemma frames_get_self md : frames md (get_self (LLM:=LLM) (Storage:=Storage)).
Proof. intros w. apply framed_refl. Qed.

Lemma frames_emit md e :
  is_api_event e = false → is_storage_event e = false →
  frames md (emit (LLM:=LLM) (Storage:=Storage) e).
Proof.
  intros Ha Hs w. repeat split; try done. exists [e].
  repeat split; by repeat constructor.
Qed.

(** An assignment to an attribute outside the frame. *)
Lemma frames_modify md (f : Assistant LLM Storage → Assistant LLM Storage) :
  (∀ a, framed md (mkWorld a []) (mkWorld (f a) [])) →
  frames md (modify f).
Proof.
  intros Hf w. destruct (Hf (self w))
    as (Hi & Hp & Ho & Hpa & Hd & Hm & Hmd & Hu & Hl & Hs & _).
  simpl in *. repeat split; try done; try (by apply Hl); try (by apply Hs).
  exists []. rewrite app_nil_r. by repeat split.
Qed.

Lemma frames_bind md {A B} (c : M A) (k : A → M (LLM:=LLM) (Storage:=Storage) B) :
  frames md c → (∀ v, frames md (k v)) → frames md (bind c k).
Proof.
  intros Hc Hk w. unfold bind. specialize (Hc w).
  destruct (c w) as [[v|e] w']; simpl in *; [|done].
  eapply framed_trans; [exact Hc|apply Hk].
Qed.

Lemma frames_generator md {A} (body : M (LLM:=LLM) (Storage:=Storage) (Drained A)) :
  frames md body → frames md (generator body).
Proof.
  intros Hb w. unfold generator. specialize (Hb w).
  by destruct (body w) as [[d|e] w'].
Qed.

Lemma frames_next md {A} (g : Generator (LLM:=LLM) (Storage:=Storage) A) :
  frames md g → frames md (next g).
Proof.
  intros Hg w. unfold next. specialize (Hg w).
  destruct (g w) as [d w']. by destruct (yielded d).
Qed.

Lemma frames_drain md {A} (g : Generator (LLM:=LLM) (Storage:=Storage) A) :
  frames md g → frames md (drain g).
Proof.
  intros Hg w. unfold drain. specialize (Hg w).
  destruct (g w) as [d w']. by destruct (raised d).
Qed.

(** The side condition of [frames_modify] for the assignments the methods
    make. *)
Ltac frame_fields :=
  repeat split; simpl; try done;
  try (intros ? Hset; rewrite Hset; reflexivity);
  try (match goal with |- context [llm ?a] => destruct (llm a) end; simpl; eauto; done);
  try (exists []; by repeat split).

Ltac frame_assignment := intros ?; frame_fields.

Ltac frames_step :=
  first
    [ solve [auto 1 with frames nocore]
    | apply frames_ret | apply frames_raise | apply frames_get_self
    | apply frames_emit; reflexivity
    | apply frames_modify; solve [frame_assignment]
    | apply frames_generator | apply frames_next | apply frames_drain
    | apply frames_bind; [|intros ?]
    | match goal with
      | |- frames _ (match ?x with _ => _ end) => destruct x
      | |- frames _ (let '(_, _) := ?x in _) => destruct x
      end ].

Ltac frames := repeat frames_step.

Lemma frames_from_database_row md row :
  frames md (from_database_row (LLM:=LLM) (Storage:=Storage) row).
Proof. unfold from_database_row. frames. Qed.
#[local] Hint Resolve frames_from_database_row : frames.

(** A stretch that only extends the trace, by events allowed in [w]. *)
Lemma framed_emits md w tr :
  (monitoring (self w) = false → Forall (λ e, is_api_event e = false) tr) →
  (storage (self w) = None → Forall (λ e, is_storage_event e = false) tr) →
  framed md w (mkWorld (self w) (trace w ++ tr)).
Proof. intros Ha Hs. repeat split; try done. by exists tr. Qed.

Lemma frames_api_log_run md :
  frames md (_api_log_assistant_run (LLM:=LLM) (Storage:=Storage)).
Proof.
  intros w. unfold _api_log_assistant_run. mrun.
  destruct (monitoring (self w)) eqn:Hm; simpl; [|apply framed_refl].
  apply framed_emits; [congruence|]. intros _. by repeat constructor.
Qed.
#[local] Hint Resolve frames_api_log_run : frames.

Lemma frames_api_log_event md t d :
  frames md (_api_log_assistant_event (LLM:=LLM) (Storage:=Storage) t d).
Proof.
  intros w. unfold _api_log_assistant_event. mrun.
  destruct (monitoring (self w)) eqn:Hm; simpl; [|apply framed_refl].
  apply framed_emits; [congruence|]. intros _. by repeat constructor.
Qed.
#[local] Hint Resolve frames_api_log_event : frames.

Lemma frames_write_to_storage md :
  frames md (write_to_storage (LLM:=LLM) (Storage:=Storage)).
Proof.
  intros w. unfold write_to_storage. mrun.
  destruct (storage (self w)) as [st|] eqn:Hst; mrun; [|apply framed_refl].
  destruct (storage_upsert st _) as [r st'] eqn:Hup. mrun.
  repeat split; simpl; try done; try congruence.
  eexists. split; [reflexivity|]. split; [|congruence].
  intros _. by repeat constructor.
Qed.
#[local] Hint Resolve frames_write_to_storage : frames.

Lemma frames_read_from_storage md :
  frames md (read_from_storage (LLM:=LLM) (Storage:=Storage)).
Proof.
  intros w. unfold read_from_storage. mrun.
  destruct (storage (self w)) as [st|] eqn:Hst; mrun; [|apply framed_refl].
  destruct (run_id (self w)) as [rid|] eqn:Hrid; mrun; [|apply framed_refl].
  set (w1 := mkWorld (with_db_row (storage_read st rid) (self w))
               (trace w ++ [EvStorageRead rid])).
  assert (framed md w w1) as H1.
  { repeat split; simpl; try done; try congruence.
    eexists. split; [reflexivity|]. split; [|congruence].
    intros _. by repeat constructor. }
  destruct (storage_read st rid) as [row|] eqn:Hread; mrun; [|exact H1].
  match goal with |- context [if ?b then _ else _] => destruct b end; mrun.
  - eapply framed_trans; [exact H1|].
    apply (framed_emits md w1); intros _; by repeat constructor.
  - pose proof (frames_from_database_row md row w1) as H2.
    destruct (from_database_row row w1) as [[row'|e] w2] eqn:Hfd; simpl in *.
    + eapply framed_trans; [exact H1|]. eapply framed_trans; [exact H2|].
      repeat split; simpl; try done.
      exists []. rewrite app_nil_r. by repeat split.
    + eapply framed_trans; [exact H1|exact H2].
Qed.
#[local] Hint Resolve frames_read_from_storage : frames.

Lemma frames_add_introduction md i :
  frames md (add_introduction (LLM:=LLM) (Storage:=Storage) i).
Proof. unfold add_introduction. frames. Qed.
#[local] Hint Resolve frames_add_introduction : frames.

Lemma frames_create_run md :
  frames md (create_run (LLM:=LLM) (Storage:=Storage)).
Proof. unfold create_run. frames. Qed.
#[local] Hint Resolve frames_create_run : frames.

Lemma frames_run_task md message stream idx ls task :
  frames md (run_task (Storage:=Storage) message stream idx ls task).
Proof. unfold run_task. frames. Qed.
#[local] Hint Resolve frames_run_task : frames.

Lemma frames_run_tasks md message stream tasks idx ls :
  frames md (run_tasks (Storage:=Storage) message stream idx ls tasks).
Proof.
  revert idx ls. induction tasks as [|t tasks IH]; intros idx ls; simpl; frames.
Qed.
#[local] Hint Resolve frames_run_tasks : frames.

Lemma frames_run_loop md message stream :
  frames md (run_loop (Storage:=Storage) message stream).
Proof. unfold run_loop. frames. Qed.

Lemma frames__run md message stream :
  frames md (_run (Storage:=Storage) message stream).
Proof.
  unfold _run, run_loop. frames.
  apply frames_modify. intros a. destruct (tasks a) as [[|]|]; frame_fields.
Qed.
#[local] Hint Resolve frames__run : frames.

Lemma frames_consume md {A B}
    (c : M (LLM:=LLM) (Storage:=Storage) (Returned A B)) :
  frames md c →
  (∀ w r w' g, c w = (r, w') → r = Ok (Iterator g) → frames md g) →
  frames md (consume c).
Proof.
  intros Hc Hg w. unfold consume, bind.
  pose proof (Hc w) as H1.
  destruct (c w) as [[[g|v]|e] w'] eqn:Hcw; simpl in *; try done.
  specialize (Hg w _ w' g Hcw eq_refl).
  pose proof (frames_drain md g Hg w') as Hd.
  destruct (drain g w') as [[l|e] w'']; simpl in *;
    eapply framed_trans; eauto.
Qed.

Lemma frames_run md message stream :
  frames md (run (Storage:=Storage) message stream).
Proof. unfold run, update_output. frames. Qed.
#[local] Hint Resolve frames_run : frames.

Lemma frames_consume_run md message stream :
  frames md (consume (run (Storage:=Storage) message stream)).
Proof.
  apply frames_consume; [frames|].
  intros w r w' g Hrun Hr. rewrite (run_iterator _ _ _ _ _ _ Hrun Hr). frames.
Qed.
#[local] Hint Resolve frames_consume_run : frames.

Lemma frames__chat_raw md messages user_message stream :
  frames md (_chat_raw (LLM:=LLM) (Storage:=Storage) messages user_message stream).
Proof. unfold _chat_raw. destruct stream; frames. Qed.
#[local] Hint Resolve frames__chat_raw : frames.

Lemma frames_chat_raw md messages user_message stream :
  frames md (chat_raw (LLM:=LLM) (Storage:=Storage) messages user_message stream).
Proof. unfold chat_raw. frames. Qed.
#[local] Hint Resolve frames_chat_raw : frames.

Lemma frames_rename md n : frames md (rename (LLM:=LLM) (Storage:=Storage) n).
Proof. unfold rename. frames. Qed.

Lemma frames_rename_run md n :
  frames md (rename_run (LLM:=LLM) (Storage:=Storage) n).
Proof. unfold rename_run. frames. Qed.

Lemma frames_generate_name md fuel :
  frames md (generate_name (LLM:=LLM) (Storage:=Storage) fuel).
Proof. induction fuel; cbn [generate_name]; frames. Qed.
#[local] Hint Resolve frames_generate_name : frames.

Lemma frames_auto_rename_run md fuel :
  frames md (auto_rename_run (LLM:=LLM) (Storage:=Storage) fuel).
Proof. unfold auto_rename_run. frames. Qed.

Lemma frames_print_response message stream markdown :
  frames false (print_response (Storage:=Storage) message stream markdown).
Proof.
  unfold print_response.
  apply frames_bind; [frames|]. intros _.
  apply frames_bind; [frames|]. intros a.
  apply frames_bind; [frames|]. intros _.
  apply (frames_consume_run false message _).
Qed.
#[local] Hint Resolve frames_print_response : frames.

Lemma frames_cli_app inputs stream markdown exit_on :
  frames false (cli_app (Storage:=Storage) inputs stream markdown exit_on).
Proof. induction inputs; cbn [cli_app]; frames. Qed.

Lemma frames_call c : frames false (call (LLM:=LLM) (Storage:=Storage) c).
Proof.
  destruct c; cbn [call]; unfold void, chat;
    auto using frames_rename, frames_rename_run, frames_auto_rename_run,
      frames_cli_app with frames; try (frames; fail).
  apply frames_consume; [frames|].
  intros w r w' g Hrun Hr. rewrite (chat_raw_iterator _ _ _ _ _ _ _ Hrun Hr). frames.
Qed.

Lemma steps_framed cs : ∀ w, framed false w (steps w cs).
Proof.
  induction cs as [|c cs IH]; intros w; simpl; [apply framed_refl|].
  eapply framed_trans; [apply (frames_call c w)|apply IH].
Qed.

Lemma frames_call_quiet c :
  prints c = false → frames true (call (LLM:=LLM) (Storage:=Storage) c).
Proof.
  destruct c; try discriminate; intros _; cbn [call]; unfold void, chat;
    auto using frames_rename, frames_rename_run, frames_auto_rename_run
      with frames; try (frames; fail).
  apply frames_consume; [frames|].
  intros w r w' g Hrun Hr. rewrite (chat_raw_iterator _ _ _ _ _ _ _ Hrun Hr). frames.
Qed.

Lemma steps_framed_quiet cs :
  Forall (λ c, prints c = false) cs → ∀ w, framed true w (steps w cs).
Proof.
  induction 1 as [|c cs Hc _ IH]; intros w; simpl; [apply framed_refl|].
  eapply framed_trans; [apply (frames_call_quiet c Hc w)|apply IH].
Qed.

(** X1.  What no sequence of calls changes: [introduction], [output_model],
    [parse_output], [debug_mode], [monitoring], and every attribute grouped
    in [settings]: the settings for the memory, the knowledge base, the tools
    and the prompts, with the callables, the tools and the knowledge base
    themselves.  [markdown], the one prompt setting that is assigned, is
    assigned by [print_response] only, also when [cli_app] calls it: a
    sequence without these two calls leaves it as it was.  A storage is never
    configured by a call, and a configured language model is never
    removed. *)
Theorem calls_keep_configuration w (cs : list Call) :
  let w' := steps w cs in
  introduction (self w') = introduction (self w)
  ∧ settings (self w') = settings (self w)
  ∧ output_model (self w') = output_model (self w)
  ∧ parse_output (self w') = parse_output (self w)
  ∧ debug_mode (self w') = debug_mode (self w)
  ∧ monitoring (self w') = monitoring (self w)
  ∧ (Forall (λ c, prints c = false) cs →
     markdown (self w') = markdown (self w))
  ∧ (is_Some (llm (self w)) → is_Some (llm (self w')))
  ∧ (storage (self w) = None → storage (self w') = None).
Proof.
  destruct (steps_framed cs w)
    as (Hi & Hp & Ho & Hpa & Hd & Hm & _ & _ & Hl & Hs & _).
  cbv zeta. do 6 (apply conj; [done|]).
  split; [|by split].
  intros Hquiet.
  destruct (steps_framed_quiet cs Hquiet w) as (_ & _ & _ & _ & _ & _ & Hmd & _).
  by apply Hmd.
Qed.

(** X2.  A [user_id] that is set is never changed by any sequence of calls:
    loading a stored row may fill in a missing [user_id] but does not replace
    one. *)
Theorem calls_keep_user_id w (cs : list Call) u :
  user_id (self w) = Some u → user_id (self (steps w cs)) = Some u.
Proof.
  destruct (steps_framed cs w) as (_ & _ & _ & _ & _ & _ & _ & Hu & _).
  apply Hu.
Qed.

(** X3.  With monitoring disabled, no sequence of calls makes a monitoring
    call: the trace is only extended, and by no API event. *)
Theorem calls_without_monitoring w (cs : list Call) :
  monitoring (self w) = false →
  ∃ tr, trace (steps w cs) = trace w ++ tr
        ∧ Forall (λ e, is_api_event e = false) tr.
Proof.
  destruct (steps_framed cs w)
    as (_ & _ & _ & _ & _ & _ & _ & _ & _ & _ & tr & Ht & Ha & _).
  intros Hoff. exists tr. auto.
Qed.

(** X4.  Without a storage configured, no sequence of calls reads or writes
    a storage: the trace is only extended, and by no storage event. *)
Theorem calls_without_storage w (cs : list Call) :
  storage (self w) = None →
  ∃ tr, trace (steps w cs) = trace w ++ tr
        ∧ Forall (λ e, is_storage_event e = false) tr.
Proof.
  destruct (steps_framed cs w)
    as (_ & _ & _ & _ & _ & _ & _ & _ & _ & _ & tr & Ht & _ & Hs).
  intros Hnone. exists tr. auto.
Qed.

End Framing.

Lemma calls_keep_user_id_witness :
  user_id (self (steps Reference.alice_world
                   [CallReadFromStorage; CallCreateRun; CallRename "mine";
                    CallRun (Some (VStr "hello")) true]))
  = Some "alice".
Proof. apply calls_keep_user_id. reflexivity. Defined.

Lemma calls_without_monitoring_witness :
  ∃ tr, trace (steps Reference.alice_world
                 [CallCreateRun; CallRun (Some (VStr "hello")) false;
                  CallRenameRun "greetings"])
        = trace Reference.alice_world ++ tr
        ∧ Forall (λ e, is_api_event e = false) tr.
Proof. apply calls_without_monitoring. reflexivity. Defined.

Lemma calls_without_storage_witness :
  ∃ tr, trace (steps Reference.tasked_world
                 [CallCreateRun; CallRun (Some (VStr "hello")) true;
                  CallRename "offline"])
        = trace Reference.tasked_world ++ tr
        ∧ Forall (λ e, is_storage_event e = false) tr.
Proof. apply calls_without_storage. reflexivity. Defined.


(** ** Reading and writing the storage *)

Section Storage.
Context {LLM Storage : Type}.
Context `{!LLMClient LLM, !StorageAdapter Storage, !TaskRunner LLM, !Codecs}.
Implicit Type w : World LLM Storage.
Implicit Type row : AssistantRun.t.

(** [from_database_row] leaves the identity, model and memory entries of the
    row alone. *)
Lemma from_database_row_identity row w :
  ∃ row' w', from_database_row row w = (Ok row', w')
  ∧ AssistantRun.name row' = AssistantRun.name row
  ∧ AssistantRun.run_id row' = AssistantRun.run_id row
  ∧ AssistantRun.run_name row' = AssistantRun.run_name row
  ∧ AssistantRun.user_id row' = AssistantRun.user_id row
  ∧ AssistantRun.llm row' = AssistantRun.llm row
  ∧ AssistantRun.memory row' = AssistantRun.memory row.
Proof.
  unfold from_database_row. mrun.
  destruct (AssistantRun.llm row) as [d|] eqn:Hl; mrun;
    [destruct (d !! "metrics") as [[]|]; mrun|];
    (destruct (AssistantRun.memory row) as [m|] eqn:Hm; mrun;
     [destruct (memory_model_validate m); mrun|]);
    case_load_data; mrun;
    (do 2 eexists; split; [reflexivity|]); simpl; repeat split; done.
Qed.

(** X6.  When the storage holds a row for the run: [read_from_storage]
    returns no record if the caller's [user_id] is set and differs from the
    row's; otherwise (no caller [user_id], or the same one) it returns the
    loaded row, caches that same row in [db_row], and the row keeps its stored
    name, identifiers and memory.  A caller without a [user_id] passes no
    identity check and takes over the row's [user_id]. *)
Theorem read_from_storage_result w st rid row :
  storage (self w) = Some st →
  run_id (self w) = Some rid →
  storage_read st rid = Some row →
  let r := fst (read_from_storage w) in
  let w' := snd (read_from_storage w) in
  (AssistantRun.user_id row ≠ user_id (self w) ∧ user_id (self w) ≠ None →
   r = Ok None)
  ∧ (user_id (self w) = None ∨ AssistantRun.user_id row = user_id (self w) →
     ∃ row', r = Ok (Some row') ∧ db_row (self w') = Some row'
             ∧ AssistantRun.name row' = AssistantRun.name row
             ∧ AssistantRun.run_id row' = AssistantRun.run_id row
             ∧ AssistantRun.run_name row' = AssistantRun.run_name row
             ∧ AssistantRun.user_id row' = AssistantRun.user_id row
             ∧ AssistantRun.memory row' = AssistantRun.memory row
             ∧ (user_id (self w) = None →
                user_id (self w') = AssistantRun.user_id row)).
Proof.
  intros Hst Hrid Hread r w'. subst r w'.
  unfold read_from_storage. mrun. rewrite Hst, Hrid. mrun. rewrite Hread.
  split.
  - intros [Hne Hset]. destruct (user_id (self w)) as [u|]; [|done].
    rewrite bool_decide_true by done. reflexivity.
  - intros Hok.
    assert (match user_id (self w) with
            | Some uid => bool_decide (AssistantRun.user_id row ≠ Some uid)
            | None => false
            end = false) as ->.
    { destruct Hok as [->|Hsame]; [done|].
      destruct (user_id (self w)); [|done]. by rewrite bool_decide_false by auto. }
    match goal with |- context [from_database_row ?r ?x] =>
      destruct (from_database_row_identity r x)
        as (row' & w2 & Heq & Hn & Hr & Hrn & Hu & _ & Hm);
      destruct (from_database_row_spec r x)
        as (row'' & w2' & Heq' & _ & _ & _ & Hu2 & _)
    end.
    rewrite Heq in Heq'. injection Heq' as <- <-. rewrite Heq. simpl.
    exists row'. repeat split; try done.
    intros Hnone. simpl in Hu2. rewrite Hu2, Hnone.
    by destruct (AssistantRun.user_id row).
Qed.

(** A read that finds no row drops the cached one. *)
Lemma read_from_storage_missing w st rid :
  storage (self w) = Some st → run_id (self w) = Some rid →
  storage_read st rid = None →
  read_from_storage w
  = (Ok None, mkWorld (with_db_row None (self w))
                (trace w ++ [EvStorageRead rid])).
Proof.
  intros Hst Hrid Hread. unfold read_from_storage. mrun.
  rewrite Hst, Hrid. mrun. by rewrite Hread.
Qed.

(** X7.  Without a storage or without a [run_id], [read_from_storage]
    touches nothing and returns whatever row is cached.  When the storage has
    no row for the run, it returns no record and the cached row is dropped. *)
Theorem read_from_storage_edge_cases w :
  (storage (self w) = None ∨ run_id (self w) = None →
   read_from_storage w = (Ok (db_row (self w)), w))
  ∧ (∀ st rid, storage (self w) = Some st → run_id (self w) = Some rid →
       storage_read st rid = None →
       read_from_storage w
       = (Ok None, mkWorld (with_db_row None (self w))
                     (trace w ++ [EvStorageRead rid]))).
Proof.
  split.
  - intros Hnone. unfold read_from_storage. mrun.
    destruct Hnone as [->| ->]; [done|]. by destruct (storage (self w)).
  - intros st rid. apply read_from_storage_missing.
Qed.

(** The dictionaries of [load_data] coincide when the row has one. *)
Lemma load_data_shared (live persisted : option dict) :
  persisted ≠ None → (load_data live persisted).1 = (load_data live persisted).2.
Proof. by destruct live, persisted. Qed.

(** X8.  [from_database_row] merges into the row it is given: for each
    metadata dictionary the row has, the row's dictionary after the call is
    the assistant's dictionary after the call (the merged one), not the
    stored one. *)
Theorem from_database_row_shares_metadata row w :
  let a' := self (snd (from_database_row row w)) in
  ∀ row', fst (from_database_row row w) = Ok row' →
  (AssistantRun.assistant_data row ≠ None →
   AssistantRun.assistant_data row' = assistant_data a')
  ∧ (AssistantRun.run_data row ≠ None →
     AssistantRun.run_data row' = run_data a')
  ∧ (AssistantRun.user_data row ≠ None →
     AssistantRun.user_data row' = user_data a')
  ∧ (AssistantRun.task_data row ≠ None →
     AssistantRun.task_data row' = task_data a').
Proof.
  destruct (from_database_row_spec row w)
    as (row1 & w1 & -> & _ & _ & _ & _ & Ha & Hr & Hu & Ht & _).
  simpl. intros row' [= <-].
  repeat split; intros Hne.
  - apply load_data_shared with (live := assistant_data (self w)) in Hne.
    rewrite <- Ha in Hne. simpl in Hne. done.
  - apply load_data_shared with (live := run_data (self w)) in Hne.
    rewrite <- Hr in Hne. simpl in Hne. done.
  - apply load_data_shared with (live := user_data (self w)) in Hne.
    rewrite <- Hu in Hne. simpl in Hne. done.
  - apply load_data_shared with (live := task_data (self w)) in Hne.
    rewrite <- Ht in Hne. simpl in Hne. done.
Qed.

Lemma load_if_unset_same {X} (x : option X) : load_if_unset x x = x.
Proof. by destruct x. Qed.

Lemma load_data_same (d : option dict) : load_data d d = (d, d).
Proof.
  destruct d as [d|]; [|done]. simpl. unfold merge_dictionaries.
  by rewrite (idemp_L (∪) d).
Qed.

(** Loading the row made from an assistant into that assistant. *)
Lemma from_database_row_own (a : Assistant LLM Storage) tr :
  memory_model_validate (memory_to_dict (memory a)) = Some (memory a) →
  (∀ l m, llm a = Some l →
          llm_to_dict l !! "metrics" = Some (VDict m) →
          llm_set_metrics m l = l) →
  from_database_row (to_database_row a) (mkWorld a tr)
  = (Ok (to_database_row a), mkWorld a tr).
Proof.
  intros Hmem Hllm.
  unfold from_database_row, to_database_row. mrun.
  rewrite !load_if_unset_same, Hmem.
  destruct (llm a) as [l|] eqn:Hl; simpl.
  - destruct (llm_to_dict l !! "metrics") as [[| | | | |m|]|] eqn:Hm; mrun;
      rewrite ?Hl; simpl; rewrite ?(Hllm l _ eq_refl Hm);
      rewrite !load_data_same; mrun;
      destruct a; simpl in *; subst; reflexivity.
  - rewrite !load_data_same; mrun. destruct a; simpl in *; subst; reflexivity.
Qed.

(** X9.  Loading the row made from the current state is the identity: if
    the memory survives its own serialisation and the metrics of the model
    survive theirs, [from_database_row (to_database_row self)] changes
    neither the assistant nor the row. *)
Theorem from_database_row_of_own_row w :
  memory_model_validate (memory_to_dict (memory (self w)))
  = Some (memory (self w)) →
  (∀ l m, llm (self w) = Some l →
          llm_to_dict l !! "metrics" = Some (VDict m) →
          llm_set_metrics m l = l) →
  from_database_row (to_database_row (self w)) w
  = (Ok (to_database_row (self w)), w).
Proof.
  intros Hmem Hllm. destruct w as [a tr]. by apply from_database_row_own.
Qed.

(** X10.  Writing and reading back restores the assistant: over a storage
    that stores the written row and returns it for the run identifier (and
    with serialisations as in X9), [write_to_storage] followed by
    [read_from_storage] returns the written row, passes the identity check,
    and changes nothing but [db_row], the storage and the trace. *)
Theorem write_then_read_restores w st st' rid :
  storage (self w) = Some st →
  run_id (self w) = Some rid →
  storage_upsert st (to_database_row (self w))
  = (Some (to_database_row (self w)), st') →
  storage_read st' rid = Some (to_database_row (self w)) →
  memory_model_validate (memory_to_dict (memory (self w)))
  = Some (memory (self w)) →
  (∀ l m, llm (self w) = Some l →
          llm_to_dict l !! "metrics" = Some (VDict m) →
          llm_set_metrics m l = l) →
  let row := to_database_row (self w) in
  (write_to_storage;;; read_from_storage) w
  = (Ok (Some row),
     mkWorld (with_db_row (Some row) (with_storage (Some st') (self w)))
       (trace w ++ [EvStorageUpsert row; EvStorageRead rid])).
Proof.
  intros Hst Hrid Hup Hread Hmem Hllm row.
  unfold bind at 1. unfold write_to_storage at 1. mrun. rewrite Hst. mrun.
  fold row in Hup, Hread. fold row. rewrite Hup. mrun.
  unfold read_from_storage. mrun. rewrite Hrid. mrun. rewrite Hread.
  assert (match user_id (self w) with
          | Some uid => bool_decide (AssistantRun.user_id row ≠ Some uid)
          | None => false
          end = false) as ->.
  { subst row. simpl. destruct (user_id (self w)); [|done].
    by rewrite bool_decide_false by auto. }
  match goal with |- context [from_database_row _ (mkWorld ?a ?tr)] =>
    pose proof (from_database_row_own a tr Hmem Hllm) as Hown
  end.
  change (to_database_row _) with row in Hown at 1 2. rewrite Hown.
  simpl. rewrite <- app_assoc. reflexivity.
Qed.
End Storage.


(** The metrics of a scripted model survive [to_dict]. *)
Lemma scripted_metrics_round_trip (a : Reference.assistant) :
  ∀ l m, llm a = Some l →
         llm_to_dict l !! "metrics" = Some (VDict m) →
         llm_set_metrics m l = l.
Proof.
  intros [r ms] m _. simpl. rewrite lookup_singleton_eq. by intros [= <-].
Qed.

Lemma read_from_storage_result_witness :
  (∃ row', fst (read_from_storage Reference.bob_world) = Ok (Some row')
           ∧ AssistantRun.user_id row' = Some "bob")
  ∧ (∃ row', fst (read_from_storage Reference.guest_world) = Ok (Some row')
             ∧ user_id (self (snd (read_from_storage Reference.guest_world))) = Some "bob").
Proof.
  split.
  - destruct (read_from_storage_result Reference.bob_world Reference.bob_table "r1" Reference.bob_row)
      as (_ & Hok); [reflexivity|reflexivity|vm_compute; reflexivity|].
    destruct Hok as (row' & Hr & _ & _ & _ & _ & Hu & _); [by right|].
    exists row'. split; [exact Hr|]. rewrite Hu. reflexivity.
  - destruct (read_from_storage_result Reference.guest_world Reference.bob_table "r1" Reference.bob_row)
      as (_ & Hok); [reflexivity|reflexivity|vm_compute; reflexivity|].
    destruct Hok as (row' & Hr & _ & _ & _ & _ & _ & _ & Hadopt); [by left|].
    exists row'. split; [exact Hr|]. rewrite Hadopt; reflexivity.
Defined.

Lemma from_database_row_shares_metadata_witness :
  ∃ row', fst (from_database_row Reference.bob_row Reference.bob_world) = Ok row'
          ∧ AssistantRun.run_data row'
            = Some (<["secret" := VInt 9]> {["mine" := VInt 2]})
          ∧ AssistantRun.run_data Reference.bob_row = Some {["secret" := VInt 7]}.
Proof.
  destruct (from_database_row_spec Reference.bob_row Reference.bob_world) as (row' & w' & Heq & _).
  exists row'. split; [by rewrite Heq|].
  destruct (from_database_row_shares_metadata Reference.bob_row Reference.bob_world row')
    as (_ & Hrun & _); [by rewrite Heq|].
  split; [|reflexivity]. rewrite Hrun by done.
  rewrite Heq. vm_compute in Heq. injection Heq as _ <-. vm_compute. reflexivity.
Defined.

Lemma from_database_row_of_own_row_witness :
  from_database_row (to_database_row Reference.writer) Reference.writer_world
  = (Ok (to_database_row Reference.writer), Reference.writer_world).
Proof.
  apply (from_database_row_of_own_row Reference.writer_world).
  - vm_compute. reflexivity.
  - apply scripted_metrics_round_trip.
Defined.

Lemma write_then_read_restores_witness :
  ∃ st', self (snd ((write_to_storage;;; read_from_storage) Reference.writer_world))
         = with_db_row (Some (to_database_row Reference.writer))
             (with_storage (Some st') Reference.writer).
Proof.
  eexists. erewrite (write_then_read_restores Reference.writer_world).
  - reflexivity.
  - reflexivity.
  - reflexivity.
  - vm_compute. reflexivity.
  - vm_compute. reflexivity.
  - vm_compute. reflexivity.
  - apply scripted_metrics_round_trip.
Defined.

(** ** Naming, renaming and run creation *)

Section Lifecycle.
Context {LLM Storage : Type}.
Context `{!LLMClient LLM, !StorageAdapter Storage, !TaskRunner LLM, !Codecs}.
Implicit Type w : World LLM Storage.

Lemma llm_requests_app tr1 tr2 :
  llm_requests (tr1 ++ tr2) = llm_requests tr1 + llm_requests tr2.
Proof. unfold llm_requests. by rewrite List.filter_app, length_app. Qed.

(** One attempt, with the number of requests made. *)
Lemma generate_name_attempt_counted fuel w client :
  llm (self w) = Some client →
  let msgs := generate_name_messages (memory (self w)) in
  let generated_name := fst (llm_response client msgs) in
  ∃ w', llm (self w') = Some (snd (llm_response client msgs))
        ∧ memory (self w') = memory (self w)
        ∧ llm_requests (trace w') = S (llm_requests (trace w))
        ∧ generate_name fuel w
          = if (15 <? length (Py.split generated_name))%nat
            then match fuel with
                 | O => (Ok None, w')
                 | S fuel' => generate_name fuel' w'
                 end
            else
              (Ok (Some (Py.strip (Py.replace generated_name Py.dquote ""))),
               w').
Proof.
  intros Hllm msgs generated_name. subst msgs generated_name.
  destruct fuel; cbn [generate_name]; mrun; rewrite Hllm;
    destruct (AssistantMemory.chat_history (memory (self w))) eqn:Hh; mrun;
    destruct (llm_response client _) as [n c'] eqn:Hresp; mrun;
    destruct (_ <? _)%nat eqn:Hlong; mrun;
    (eexists (mkWorld _ _); split; [|split; [|split]]; cycle 3;
     [reflexivity | reflexivity | reflexivity
     | simpl; rewrite ?llm_requests_app; simpl; unfold llm_requests; simpl; lia]).
Qed.

(** X11.  [generate_name] keeps asking until an answer passes the check: if
    the model's first [k] answers to the naming prompt each have more than 15
    words and the next one has at most 15, the call returns that answer,
    unquoted and stripped, after exactly [k + 1] requests (given that many
    retries are followed).  The prompt is the same at every retry. *)
Theorem generate_name_retries k : ∀ fuel w client,
  llm (self w) = Some client →
  let msgs := generate_name_messages (memory (self w)) in
  let answer i := fst (llm_response (asked i msgs client) msgs) in
  (∀ i, i < k → 15 < length (Py.split (answer i))) →
  length (Py.split (answer k)) ≤ 15 →
  k ≤ fuel →
  fst (generate_name fuel w)
  = Ok (Some (Py.strip (Py.replace (answer k) Py.dquote "")))
  ∧ llm_requests (trace (snd (generate_name fuel w)))
    = S k + llm_requests (trace w).
Proof.
  induction k as [|k IH]; intros fuel w client Hllm msgs answer Hlong Hok Hfuel.
  - destruct (generate_name_attempt_counted fuel w client Hllm)
      as (w' & _ & _ & Hcount & ->).
    fold msgs. change (fst (llm_response client msgs)) with (answer 0).
    destruct (Nat.ltb_spec 15 (length (Py.split (answer 0)))); [lia|].
    simpl. split; [reflexivity|lia].
  - destruct (generate_name_attempt_counted fuel w client Hllm)
      as (w' & Hl & Hm & Hcount & ->).
    fold msgs. change (fst (llm_response client msgs)) with (answer 0).
    pose proof (Hlong 0 ltac:(lia)) as H0.
    destruct (Nat.ltb_spec 15 (length (Py.split (answer 0)))); [|lia].
    destruct fuel as [|fuel]; [lia|].
    destruct (IH fuel w' _ Hl) as [Hres Hreq].
    + rewrite Hm. fold msgs. intros i Hi. apply (Hlong (S i)). lia.
    + rewrite Hm. exact Hok.
    + lia.
    + rewrite Hres, Hreq, Hm. split; [reflexivity|lia].
Qed.

(** X12.  The transcript sent for naming holds at most 6 messages, all taken
    from the memory.  A leading assistant turn (the introduction) is skipped
    when visible turns follow it, and with an empty chat history the last
    four raw messages are used. *)
Theorem naming_transcript_bounded (mem : AssistantMemory.t) :
  let picked := messages_for_generating_name mem in
  length picked ≤ 6
  ∧ (∀ m, m ∈ picked →
          m ∈ AssistantMemory.chat_history mem
          ∨ m ∈ AssistantMemory.llm_messages mem)
  ∧ (∀ first rest,
       AssistantMemory.chat_history mem = first :: rest →
       Message.role first = "assistant" → rest ≠ [] →
       picked = take 5 rest)
  ∧ (AssistantMemory.chat_history mem = [] →
     picked = Py.last_n 4 (AssistantMemory.llm_messages mem)).
Proof.
  unfold messages_for_generating_name.
  destruct (AssistantMemory.chat_history mem) as [|first rest] eqn:Hh.
  - split; [|split; [|split]].
    + unfold Py.last_n. rewrite length_drop. lia.
    + intros m Hm. right. unfold Py.last_n in Hm. by eapply subseteq_drop.
    + done.
    + done.
  - destruct (String.eqb (Message.role first) "assistant") eqn:Hrole.
    + simpl. rewrite drop_0.
      destruct (take 5 rest) as [|x xs] eqn:Htake.
      * split; [|split; [|split]].
        -- unfold Py.last_n. rewrite length_drop. lia.
        -- intros m Hm. right. unfold Py.last_n in Hm. by eapply subseteq_drop.
        -- intros f r [= <- <-] _ Hne. by destruct rest.
        -- done.
      * rewrite <- Htake. split; [|split; [|split]].
        -- rewrite length_take. lia.
        -- intros m Hm. left. right. by eapply subseteq_take.
        -- by intros f r [= <- <-] _ _.
        -- done.
    + cbn [take]. split; [|split; [|split]].
      * simpl. rewrite length_take. lia.
      * intros m Hm. left. change (first :: take 5 rest) with (take 6 (first :: rest)) in Hm.
        by eapply subseteq_take.
      * intros f r [= <- <-] Hr. rewrite Hr in Hrole. done.
      * done.
Qed.

(** [read_from_storage] only extends the trace and keeps the storage and an
    absent language model. *)
Lemma read_from_storage_trace w :
  ∃ r w1 tr, read_from_storage w = (Ok r, w1)
             ∧ trace w1 = trace w ++ tr
             ∧ storage (self w1) = storage (self w)
             ∧ (llm (self w) = None → llm (self w1) = None).
Proof.
  destruct (read_from_storage_spec w) as (r & w1 & Heq & Hs & _).
  destruct (frames_read_from_storage false w)
    as (_ & _ & _ & _ & _ & _ & _ & _ & _ & _ & tr & Ht & _).
  rewrite Heq in Ht. simpl in Ht.
  exists r, w1, tr. split; [done|]. split; [done|]. split; [done|].
  revert Heq. unfold read_from_storage. mrun.
  destruct (storage (self w)) as [st|]; mrun; [|by intros [= _ <-]].
  destruct (run_id (self w)) as [rid|]; mrun; [|by intros [= _ <-]].
  destruct (storage_read st rid) as [row|]; mrun; [|by intros [= _ <-]].
  match goal with |- context [if ?b then _ else _] => destruct b end; mrun.
  { by intros [= _ <-]. }
  match goal with |- context [from_database_row ?r ?x] =>
    destruct (from_database_row_spec r x)
      as (row' & w2 & -> & _ & _ & _ & _ & _ & _ & _ & _ & _ & _ & _ & Hl)
  end.
  simpl. intros [= _ <-] Hnone. simpl. by apply Hl.
Qed.

(** Read, assign, write, notify: the row handed to the storage is the one
    of the state after the assignment, and it is the last storage call. *)
Lemma assign_and_persist (f : Assistant LLM Storage → Assistant LLM Storage) w st :
  storage (self w) = Some st →
  (∀ a, storage (f a) = storage a) →
  ∃ a1 pre post,
    trace (snd ((read_from_storage;;; modify f;;; write_to_storage;;;
                 _api_log_assistant_run) w))
    = pre ++ [EvStorageUpsert (to_database_row (f a1))] ++ post
    ∧ Forall (λ e, is_storage_event e = false) post.
Proof.
  intros Hst Hf.
  destruct (read_from_storage_trace w) as (r & w1 & tr & Heq & Ht & Hs & _).
  unfold bind at 1. rewrite Heq. mrun.
  unfold write_to_storage. mrun. rewrite Hf, Hs, Hst. mrun.
  destruct (storage_upsert st _) as [written st']. mrun.
  unfold _api_log_assistant_run. mrun.
  exists (self w1), (trace w1).
  match goal with |- context [negb ?b] => destruct b end; simpl.
  - eexists [_]. rewrite <- app_assoc. split; [reflexivity|]. by repeat constructor.
  - exists []. split; [reflexivity|]. constructor.
Qed.

(** X13.  [rename] and [rename_run] end with the new name set, whatever name
    the storage held; with a storage configured, the last storage call they
    make is the upsert of a row that carries the new name. *)
Theorem renaming_persists n w :
  name (self (snd (rename n w))) = Some n
  ∧ run_name (self (snd (rename_run n w))) = Some n
  ∧ (∀ st, storage (self w) = Some st →
       (∃ row pre post,
          trace (snd (rename n w)) = pre ++ [EvStorageUpsert row] ++ post
          ∧ AssistantRun.name row = Some n
          ∧ Forall (λ e, is_storage_event e = false) post)
       ∧ (∃ row pre post,
            trace (snd (rename_run n w)) = pre ++ [EvStorageUpsert row] ++ post
            ∧ AssistantRun.run_name row = Some n
            ∧ Forall (λ e, is_storage_event e = false) post)).
Proof.
  split; [|split].
  - unfold rename. destruct (read_from_storage_trace w) as (r & w1 & tr & Heq & _).
    unfold bind at 1. rewrite Heq. mrun. unfold write_to_storage. mrun.
    destruct (storage (self w1)) as [st|]; mrun;
      [destruct (storage_upsert st _); mrun|];
      unfold _api_log_assistant_run; mrun;
      by match goal with |- context [negb ?b] => destruct b end.
  - unfold rename_run. destruct (read_from_storage_trace w) as (r & w1 & tr & Heq & _).
    unfold bind at 1. rewrite Heq. mrun. unfold write_to_storage. mrun.
    destruct (storage (self w1)) as [st|]; mrun;
      [destruct (storage_upsert st _); mrun|];
      unfold _api_log_assistant_run; mrun;
      by match goal with |- context [negb ?b] => destruct b end.
  - intros st Hst. split.
    + destruct (assign_and_persist (with_name (Some n)) w st Hst)
        as (a1 & pre & post & Ht & Hpost); [done|].
      exists (to_database_row (with_name (Some n) a1)), pre, post. by repeat split.
    + destruct (assign_and_persist (with_run_name (Some n)) w st Hst)
        as (a1 & pre & post & Ht & Hpost); [done|].
      exists (to_database_row (with_run_name (Some n) a1)), pre, post. by repeat split.
Qed.

(** X14.  Without a language model [auto_rename_run] raises ["LLM not
    set"] right after reloading the run: nothing is renamed and nothing is
    written. *)
Theorem auto_rename_run_without_llm fuel w :
  llm (self w) = None →
  auto_rename_run fuel w = (Raise "LLM not set", snd (read_from_storage w)).
Proof.
  intros Hllm. unfold auto_rename_run.
  destruct (read_from_storage_trace w) as (r & w1 & tr & Heq & _ & _ & Hl).
  unfold bind at 1. rewrite Heq. simpl. unfold bind.
  assert (generate_name fuel w1 = (Raise "LLM not set", w1)) as ->; [|done].
  destruct fuel; cbn [generate_name]; mrun; by rewrite (Hl Hllm).
Qed.

(** X15.  When the model's answer for the reloaded conversation has at most
    15 words, [auto_rename_run] returns normally and leaves that answer,
    unquoted and stripped, in [run_name]. *)
Theorem auto_rename_run_assigns fuel w client :
  let w1 := snd (read_from_storage w) in
  llm (self w1) = Some client →
  let generated_name :=
    fst (llm_response client (generate_name_messages (memory (self w1)))) in
  length (Py.split generated_name) ≤ 15 →
  let w' := snd (auto_rename_run fuel w) in
  fst (auto_rename_run fuel w) = Ok tt
  ∧ run_name (self w')
    = Some (Py.strip (Py.replace generated_name Py.dquote "")).
Proof.
  intros w1 Hllm generated_name Hok w'. subst w' generated_name w1.
  unfold auto_rename_run, bind.
  destruct (read_from_storage_trace w) as (r & w1 & tr & Heq & _).
  rewrite Heq in *. simpl in *.
  destruct (generate_name_attempt fuel w1 client Hllm) as (w2 & _ & _ & Hgen).
  rewrite Hgen.
  destruct (Nat.ltb_spec 15
    (length (Py.split (fst (llm_response client
       (generate_name_messages (memory (self w1)))))))); [lia|].
  mrun. unfold write_to_storage. mrun.
  destruct (storage (self w2)) as [st|]; mrun;
    [destruct (storage_upsert st _); mrun|];
    unfold _api_log_assistant_run; mrun;
    match goal with |- context [negb ?b] => destruct b end; split; reflexivity.
Qed.

(** X16.  When the storage already holds a row for the run, [create_run]
    is exactly the reload: it returns the run identifier, writes nothing and
    adds no introduction (also when the row belongs to another user). *)
Theorem create_run_loads_existing w st rid row :
  db_row (self w) = None →
  storage (self w) = Some st →
  run_id (self w) = Some rid →
  storage_read st rid = Some row →
  create_run w = (Ok (Some rid), snd (read_from_storage w)).
Proof.
  intros Hdb Hst Hrid Hread. unfold create_run. mrun. rewrite Hdb, Hst.
  destruct (read_from_storage_spec w) as (r & w1 & Heq & _ & Hr & Hcase).
  rewrite Hst, Hrid, Hread in Hcase. destruct Hcase as (row' & Hd & _).
  rewrite Heq. simpl. rewrite Hd. simpl. by rewrite <- Hr, Hrid.
Qed.

(** [from_database_row] makes no storage call. *)
Lemma from_database_row_trace row w :
  ∃ row' w' tr, from_database_row row w = (Ok row', w')
                ∧ trace w' = trace w ++ tr
                ∧ Forall (λ e, is_storage_event e = false) tr.
Proof.
  unfold from_database_row. mrun.
  destruct (AssistantRun.llm row) as [d|]; mrun;
    [destruct (d !! "metrics") as [[]|]; mrun|];
    (destruct (AssistantRun.memory row) as [m|]; mrun;
     [destruct (memory_model_validate m); mrun|]);
    case_load_data; mrun;
    (do 2 eexists);
    first [ exists []; rewrite app_nil_r; split; [reflexivity|]; split; [reflexivity|constructor]
          | eexists [_]; split; [reflexivity|]; split; [reflexivity|by repeat constructor] ].
Qed.

(** X17.  Creating a new run with an introduction configured and an empty
    chat history: the storage is read once and then handed a row with the
    run's identifier whose memory is the serialised memory with the
    introduction as its only visible turn; no other storage call follows. *)
Theorem create_run_persists_introduction w st rid text :
  db_row (self w) = None →
  storage (self w) = Some st →
  run_id (self w) = Some rid →
  storage_read st rid = None →
  introduction (self w) = Some text →
  text ≠ "" →
  AssistantMemory.chat_history (memory (self w)) = [] →
  ∃ row post,
    trace (snd (create_run w))
    = trace w ++ [EvStorageRead rid; EvStorageUpsert row] ++ post
    ∧ AssistantRun.run_id row = Some rid
    ∧ AssistantRun.memory row
      = Some (memory_to_dict
                (AssistantMemory.mk [Message.mk "assistant" (Some text)]
                   (AssistantMemory.llm_messages (memory (self w)))))
    ∧ Forall (λ e, is_storage_event e = false) post.
Proof.
  intros Hdb Hst Hrid Hread Hintro Htext Hhist.
  unfold create_run. mrun. rewrite Hdb, Hst.
  rewrite (read_from_storage_missing w st rid Hst Hrid Hread). mrun. rewrite Hintro.
  assert (nonempty (Some text) = true) as ->.
  { simpl. destruct (String.eqb_spec text ""); done. }
  unfold add_introduction. mrun. rewrite Hhist. mrun.
  unfold write_to_storage. mrun. rewrite Hst. mrun.
  destruct (storage_upsert st _) as [[written|] st'] eqn:Hup; mrun.
  - match goal with |- context [from_database_row ?r ?x] =>
      destruct (from_database_row_trace r x) as (row' & w2 & tr & Heq & Ht & Hns)
    end.
    rewrite Heq. simpl in *. unfold _api_log_assistant_run. mrun.
    eexists _, (tr ++ if monitoring (self w2) then [_] else []).
    split; [|split; [|split]].
    + destruct (monitoring (self w2)); simpl; rewrite Ht, <- !app_assoc; simpl;
        try rewrite app_nil_r; reflexivity.
    + simpl. done.
    + simpl. unfold AssistantMemory.add_chat_message. by rewrite Hhist.
    + apply Forall_app. split; [done|].
      destruct (monitoring (self w2)); by repeat constructor.
  - eexists _, []. split; [|split; [|split]].
    + simpl. by rewrite <- app_assoc.
    + done.
    + simpl. unfold AssistantMemory.add_chat_message. by rewrite Hhist.
    + constructor.
Qed.
End Lifecycle.

(** Two answers that are too long, then a short one. *)
Lemma generate_name_retries_witness :
  let w := Reference.namer [Reference.too_long; Reference.too_long; " Sync notes"] in
  fst (generate_name 5 w) = Ok (Some "Sync notes")
  ∧ llm_requests (trace (snd (generate_name 5 w))) = 3.
Proof.
  intros w.
  destruct (generate_name_retries 2 5 w _ eq_refl) as [Hres Hreq].
  - intros [|[|i]] Hi; [vm_compute; lia|vm_compute; lia|lia].
  - vm_compute. lia.
  - lia.
  - split; [rewrite Hres; vm_compute; reflexivity|rewrite Hreq; reflexivity].
Defined.

Lemma auto_rename_run_without_llm_witness :
  auto_rename_run 3 Reference.bare_world
  = (Raise "LLM not set", Reference.bare_world).
Proof. apply (auto_rename_run_without_llm 3 Reference.bare_world). reflexivity. Defined.

Lemma auto_rename_run_assigns_witness :
  run_name (self (snd (auto_rename_run 0 Reference.writer_world)))
  = Some "Sync at ten".
Proof.
  destruct (auto_rename_run_assigns 0 Reference.writer_world
              (Reference.mkScripted ["Sync at ten"] {["tokens" := VInt 3]}))
    as [_ Hname].
  - vm_compute. reflexivity.
  - vm_compute. lia.
  - rewrite Hname. vm_compute. reflexivity.
Defined.

(** The owner and another user both get the stored run's identifier. *)
Lemma create_run_loads_existing_witness :
  create_run Reference.bob_world
  = (Ok (Some "r1"), snd (read_from_storage Reference.bob_world))
  ∧ create_run Reference.alice_world
    = (Ok (Some "r1"), snd (read_from_storage Reference.alice_world)).
Proof.
  split.
  - apply create_run_loads_existing
      with (st := Reference.bob_table) (row := Reference.bob_row);
      vm_compute; reflexivity.
  - apply create_run_loads_existing
      with (st := Reference.bob_table) (row := Reference.bob_row);
      vm_compute; reflexivity.
Defined.

Lemma create_run_persists_introduction_witness :
  ∃ row post,
    trace (snd (create_run Reference.greeter_world))
    = [EvStorageRead "uuid-1"; EvStorageUpsert row] ++ post
    ∧ AssistantRun.memory row
      = Some (Reference.memory_dict
                (AssistantMemory.mk
                   [Message.mk "assistant" (Some "Hello, how can I help?")] [])).
Proof.
  destruct (create_run_persists_introduction Reference.greeter_world
              (Reference.mkTable [] true) "uuid-1" "Hello, how can I help?")
    as (row & post & Ht & _ & Hm & _);
    [vm_compute; reflexivity | vm_compute; reflexivity | vm_compute; reflexivity
    | vm_compute; reflexivity | vm_compute; reflexivity | discriminate
    | vm_compute; reflexivity |].
  exists row, post. split; [exact Ht|exact Hm].
Defined.

(** ** What a run yields and what it stores *)

Lemma join_app (l1 l2 : list string) :
  Py.join (l1 ++ l2) = Py.join l1 +:+ Py.join l2.
Proof.
  induction l1 as [|s l1 IH]; [done|].
  change (s +:+ Py.join (l1 ++ l2) = (s +:+ Py.join l1) +:+ Py.join l2).
  by rewrite IH, string_app_assoc.
Qed.

Section Yielding.
Context {LLM Storage : Type}.
Context `{!LLMClient LLM, !StorageAdapter Storage, !TaskRunner LLM, !Codecs}.
Implicit Type w : World LLM Storage.
Implicit Type ls : LoopState (LLM:=LLM).

(** Preparing a task for its run leaves its display flags alone. *)
Lemma prepare_task_flags (a : Assistant LLM Storage) message task_data
    (task : Task.t LLM) :
  Task.show_output (prepare_task a message task_data task) = Task.show_output task
  ∧ Task.streamable (prepare_task a message task_data task) = Task.streamable task.
Proof.
  unfold prepare_task. simpl.
  by destruct (Task.is_llm_task task), (Task.llm task), (llm a).
Qed.

(** One streamed iteration adds the same text to the yielded chunks and to
    the aggregate. *)
Lemma run_task_streamed message idx ls task w ls' w' :
  Task.streamable task = true →
  run_task message true idx ls task w = (Ok ls', w') →
  ∃ new, ls_chunks ls' = ls_chunks ls ++ new
         ∧ ls_run_output ls' = ls_run_output ls +:+ Py.join new.
Proof.
  intros Hst. unfold run_task. mrun.
  destruct (prepare_task_flags (self w) message (ls_task_data ls) task)
    as [Hshow ->].
  rewrite Hst. simpl.
  destruct (match ls_current ls with Some p => Task.show_output p | None => false end);
    destruct (Task.show_output (prepare_task _ _ _ _));
    intros [= <- _]; simpl.
  - eexists (_ :: _). rewrite <- app_assoc. split; [reflexivity|].
    rewrite fold_left_append, string_app_assoc. reflexivity.
  - eexists [_]. split; [reflexivity|].
    change (Py.join [?s]) with (s +:+ ""). by rewrite string_app_nil_r.
  - eexists. split; [reflexivity|]. by rewrite fold_left_append.
  - exists []. by rewrite app_nil_r, string_app_nil_r.
Qed.

Lemma run_tasks_streamed message tasks : ∀ idx ls w ls' w',
  Forall (λ t, Task.streamable t = true) tasks →
  run_tasks message true idx ls tasks w = (Ok ls', w') →
  ∃ new, ls_chunks ls' = ls_chunks ls ++ new
         ∧ ls_run_output ls' = ls_run_output ls +:+ Py.join new.
Proof.
  induction tasks as [|task tasks IH]; intros idx ls w ls' w' Hall;
    cbn [run_tasks].
  - intros [= <- _]. exists []. by rewrite app_nil_r, string_app_nil_r.
  - apply Forall_cons in Hall as [Hst Hall]. unfold bind.
    destruct (run_task_spec message true idx ls task w)
      as (ls1 & w1 & p & Hrun & _).
    rewrite Hrun. intros Hrest.
    destruct (run_task_streamed _ _ _ _ _ _ _ Hst Hrun) as (n1 & Hc1 & Ho1).
    destruct (IH _ _ _ _ _ Hall Hrest) as (n2 & Hc2 & Ho2).
    exists (n1 ++ n2).
    by rewrite Hc2, Hc1, Ho2, Ho1, join_app, app_assoc, string_app_assoc.
Qed.

(** X18.  When a streamed run whose tasks are all streamable ends without
    raising, the text it has stored in [output] is the concatenation of the
    chunks it has yielded, separators included, for any number of tasks. *)
Theorem streamed_output_is_joined_chunks message w :
  Forall (λ t, Task.streamable t = true)
    (run_task_list (self (snd (read_from_storage w)))) →
  raised (fst (_run message true w)) = None →
  output (self (snd (_run message true w)))
  = Some (VStr (Py.join (yielded (fst (_run message true w))))).
Proof.
  intros Hall _.
  destruct (_run_spec message true w) as (ls & w1 & w' & Hloop & -> & Hout).
  simpl. rewrite Hout. do 2 f_equal.
  revert Hloop Hall. unfold run_loop, bind.
  destruct (read_from_storage w) as [[r|e] w0]; [|done]. simpl.
  intros Hloop Hall.
  destruct (run_tasks_streamed _ _ _ _ _ _ _ Hall Hloop) as (new & Hc & Ho).
  simpl in Hc, Ho. by rewrite Hc, Ho.
Qed.

(** A task's run leaves its display flag alone. *)
Lemma task_after_flags {R} (r : TaskReturn R) (p : Task.t LLM) :
  Task.show_output (task_after r p) = Task.show_output p.
Proof. reflexivity. Qed.

(** An iteration over a hidden task, after a hidden task or none, adds
    nothing to the chunks nor to the aggregate. *)
Lemma run_task_hidden message stream idx
    (ls : LoopState (LLM:=LLM)) task w ls' w' :
  Task.show_output task = false →
  from_option Task.show_output false (ls_current ls) = false →
  run_task message stream idx ls task w = (Ok ls', w') →
  ls_chunks ls' = ls_chunks ls
  ∧ ls_run_output ls' = ls_run_output ls
  ∧ from_option Task.show_output false (ls_current ls') = false.
Proof.
  intros Hhid Hprev Hrun.
  destruct (prepare_task_flags (self w) message (ls_task_data ls) task)
    as [Hshow _].
  rewrite Hhid in Hshow.
  assert (from_option Task.show_output false (ls_current ls') = false) as Hcur.
  { destruct (run_task_spec message stream idx ls task w)
      as (ls1 & w1 & p & Hrun1 & -> & Hc & _).
    rewrite Hrun in Hrun1. injection Hrun1 as <- _. rewrite Hc.
    destruct (stream && Task.streamable _); cbn [from_option];
      rewrite task_after_flags; exact Hshow. }
  split; [|split; [|exact Hcur]]; clear Hcur; revert Hrun Hshow;
    unfold run_task; mrun;
    (destruct (match ls_current ls with Some p => Task.show_output p | None => false end)
       eqn:Hsep;
     [revert Hprev Hsep; destruct (ls_current ls); simpl; congruence|]);
    (destruct (Task.show_output (prepare_task _ _ _ _)) eqn:Hs;
     [intros _ [=]|]);
    (destruct (stream && Task.streamable _); mrun;
     [|destruct (response_text _)]); by intros [= <- _] _.
Qed.

Lemma run_tasks_hidden message stream tasks : ∀ idx ls w ls' w',
  Forall (λ t, Task.show_output t = false) tasks →
  from_option Task.show_output false (ls_current ls) = false →
  run_tasks message stream idx ls tasks w = (Ok ls', w') →
  ls_chunks ls' = ls_chunks ls ∧ ls_run_output ls' = ls_run_output ls.
Proof.
  induction tasks as [|task tasks IH]; intros idx ls w ls' w' Hall Hprev;
    cbn [run_tasks].
  - by intros [= <- _].
  - apply Forall_cons in Hall as [Hhid Hall]. unfold bind.
    destruct (run_task_spec message stream idx ls task w)
      as (ls1 & w1 & p & Hrun & _).
    rewrite Hrun. intros Hrest.
    destruct (run_task_hidden _ _ _ _ _ _ _ _ Hhid Hprev Hrun)
      as (Hc1 & Ho1 & Hprev1).
    destruct (IH _ _ _ _ _ Hall Hprev1 Hrest) as [Hc2 Ho2].
    by rewrite Hc2, Ho2.
Qed.

(** X19.  When every task of a run has [show_output] off, the run still
    executes every task, but a streamed run yields nothing, a non-streamed
    run yields the empty string, and the stored output is the empty string:
    no task text and no separator reaches the caller. *)
Theorem hidden_tasks_yield_nothing message stream w :
  Forall (λ t, Task.show_output t = false)
    (run_task_list (self (snd (read_from_storage w)))) →
  fst (_run message stream w) = mkDrained (if stream then [] else [""]) None
  ∧ output (self (snd (_run message stream w))) = Some (VStr "")
  ∧ ∃ ls w1, run_loop message stream w = (Ok ls, w1)
             ∧ length (ls_executed ls)
               = length (run_task_list (self (snd (read_from_storage w)))).
Proof.
  intros Hall.
  destruct (_run_spec message stream w) as (ls & w1 & w' & Hloop & -> & Hout).
  destruct (run_loop_total message stream w)
    as (ls2 & w2 & Hloop2 & Hlen).
  rewrite Hloop in Hloop2. injection Hloop2 as <- <-.
  assert (ls_chunks ls = [] ∧ ls_run_output ls = "") as [Hc Ho].
  { revert Hloop Hall. unfold run_loop, bind.
    destruct (read_from_storage w) as [[r|e] w0]; [|done]. simpl.
    intros Hloop Hall.
    by apply (run_tasks_hidden _ _ _ _ _ _ _ _ Hall) in Hloop. }
  simpl. rewrite Hout, Hc, Ho. split; [by destruct stream|].
  split; [done|]. eauto.
Qed.

(** X20.  A single visible task that cannot stream, answering with the text
    [s]: a streamed run yields [s] but stores the empty string in [output],
    while a non-streamed run yields [s] and stores [s].  In streaming mode
    the response of a task run without streaming is handed to the caller
    only. *)
Theorem unstreamable_task_output message w task s :
  let w1 := snd (read_from_storage w) in
  let p := prepare_task (self w1) message [] task in
  run_task_list (self w1) = [task] →
  Task.streamable task = false →
  Task.show_output task = true →
  response_text (tr_value (task_run_batch p message)) = Some s →
  fst (_run message true w) = mkDrained [s] None
  ∧ output (self (snd (_run message true w))) = Some (VStr "")
  ∧ fst (_run message false w) = mkDrained [s] None
  ∧ output (self (snd (_run message false w))) = Some (VStr s).
Proof.
  intros w1 p Hsingle Hst Hshow Hresp.
  destruct (_run_spec message false w) as (lsb & wb1 & wb & Hloopb & -> & Hb).
  destruct (_run_spec message true w) as (lss & ws1 & ws & Hloops & -> & Hs).
  simpl. rewrite Hb, Hs. clear Hb Hs. revert Hloopb Hloops. unfold run_loop, bind.
  subst p w1. revert Hsingle Hresp.
  destruct (read_from_storage w) as [[r|e] w1]; [|done]. simpl.
  intros -> Hresp. cbn [run_tasks]. unfold bind, run_task. mrun.
  destruct (prepare_task_flags (self w1) message [] task) as [-> ->].
  rewrite Hst, Hshow, Hresp. simpl.
  by intros [= <- _] [= <- _].
Qed.
End Yielding.

(** Two streamable tasks: the stored output is the text handed out. *)
Lemma streamed_output_is_joined_chunks_witness :
  output (self (snd (_run (Some (VStr "Plan my day")) true
                       Reference.planner_world)))
  = Some (VStr (Py.join (yielded (fst (_run (Some (VStr "Plan my day")) true
                                         Reference.planner_world))))).
Proof.
  apply streamed_output_is_joined_chunks.
  - vm_compute. by repeat constructor.
  - vm_compute. reflexivity.
Defined.

(** Two hidden tasks, streamed: nothing is yielded. *)
Lemma hidden_tasks_yield_nothing_witness :
  fst (_run (Some (VStr "x")) true Reference.quiet_world) = mkDrained [] None.
Proof.
  apply (hidden_tasks_yield_nothing (Some (VStr "x")) true
           Reference.quiet_world).
  vm_compute. by repeat constructor.
Defined.

(** One visible task that cannot stream, answering ["ab"]. *)
Lemma unstreamable_task_output_witness :
  fst (_run (Some (VStr "x")) true Reference.batch_only_world)
  = mkDrained ["ab"] None
  ∧ output (self (snd (_run (Some (VStr "x")) true
                         Reference.batch_only_world)))
    = Some (VStr "").
Proof.
  destruct (unstreamable_task_output (Some (VStr "x"))
              Reference.batch_only_world
              (Reference.flagged_task true false ["a"; "b"]) "ab")
    as (Hy & Hout & _); [vm_compute; reflexivity ..|].
  split; [exact Hy|exact Hout].
Defined.

(** ** Responses, printing and the command-line loop *)

Section Responses.
Context {LLM Storage : Type}.
Context `{!LLMClient LLM, !StorageAdapter Storage, !TaskRunner LLM, !Codecs}.
Implicit Type w : World LLM Storage.

(** X21.  [run] without structured-output parsing (no output model, or
    [parse_output] off).  Asked to stream, and with no output model, it
    hands back the generator of the streamed pipeline and has run nothing
    yet.  Otherwise (also when streaming was asked for but an output model is
    set) it advances the non-streamed pipeline once: it returns the text the
    pipeline yields, a string, which the pipeline has also stored in
    [output], and leaves the assistant as the pipeline left it; an exception
    that ends the pipeline before it yields is raised by [run]. *)
Theorem run_without_parsing message stream w :
  output_model (self w) = None ∨ parse_output (self w) = false →
  if stream && streamable (self w)
  then run message stream w = (Ok (Iterator (_run message true)), w)
  else
    let d := fst (_run message false w) in
    let w' := snd (_run message false w) in
    match yielded d with
    | raw :: _ =>
        run message stream w = (Ok (Value (VStr raw)), w')
        ∧ output (self w') = Some (VStr raw)
    | [] => run message stream w
            = (Raise (default "StopIteration" (raised d)), w')
    end.
Proof.
  intros Hmode.
  assert (run message stream w
          = if stream && streamable (self w)
            then (Ok (Iterator (_run message true)), w)
            else (let! resp := next (_run message false) in
                  ret (Value (VStr resp))) w) as ->.
  { unfold run. mrun.
    destruct (output_model (self w)) as [om|];
      [destruct Hmode as [?| ->]; [done|]|];
      by destruct (stream && streamable (self w)). }
  destruct (stream && streamable (self w)); [done|].
  destruct (_run_batch_spec message w) as (raw0 & w0 & Hrun & Hout).
  unfold bind, next. cbv zeta.
  destruct (_run message false w) as [d w'] eqn:Hd. simpl.
  destruct (yielded d) as [|raw rest] eqn:Hy; [done|].
  split; [done|].
  injection Hrun as -> ->. simpl in Hy. by injection Hy as <- _.
Qed.

(** X5.  [print_response] and the display settings.  With an output model
    configured the [stream] argument is ignored: the call is the one with
    [stream=False].  When it returns, [markdown] is off if an output model is
    configured; otherwise it is on if it was on or if [markdown=True] was
    passed, and the setting stays on for later calls. *)
Theorem print_response_display message stream md w :
  print_response message stream md w
  = print_response message (stream && streamable (self w)) md w
  ∧ markdown (self (snd (print_response message stream md w)))
    = match output_model (self w) with
      | Some _ => false
      | None => md || markdown (self w)
      end.
Proof.
  assert (∀ s, print_response message s md w
     = consume (run message (s && streamable (self w)))
         (mkWorld
            (match output_model (self w) with
             | Some _ => with_markdown false
             | None => id
             end (if md then with_markdown true (self w) else self w))
            (trace w))) as Heq.
  { intros s. destruct w as [a tr]. unfold print_response, consume, streamable.
    destruct md; mrun; destruct (output_model a); mrun;
      rewrite ?andb_false_r, ?andb_true_r; reflexivity. }
  split.
  - rewrite !Heq. by destruct (streamable (self w)), stream.
  - rewrite Heq.
    match goal with |- context [consume _ ?w2] =>
      pose proof (frames_consume_run true message
                    (stream && streamable (self w)) w2)
        as (_ & _ & _ & _ & _ & _ & Hmd & _)
    end.
    rewrite (Hmd eq_refl). simpl.
    by destruct (output_model (self w)), md.
Qed.

(** X22.  The command-line loop ends at the first exit word: the inputs
    after it are never read, and nothing is run for the exit word itself. *)
Theorem cli_app_stops_at_exit pre e post stream md exit_on w :
  e ∈ exit_on →
  cli_app (pre ++ e :: post) stream md exit_on w
  = cli_app pre stream md exit_on w.
Proof.
  intros He. revert w. induction pre as [|m pre IH]; intros w; simpl.
  - by rewrite bool_decide_true.
  - destruct (bool_decide (m ∈ exit_on)); [done|].
    unfold bind. destruct (print_response _ _ _ w) as [[[]|err] w1]; [|done].
    apply IH.
Qed.
End Responses.

Lemma cli_app_stops_at_exit_witness :
  cli_app (["hi"] ++ "bye" :: ["anyone there?"]) true false ["exit"; "bye"]
    Reference.tasked_world
  = cli_app ["hi"] true false ["exit"; "bye"] Reference.tasked_world.
Proof. apply cli_app_stops_at_exit. by repeat constructor. Defined.

(** An assistant with an output model and parsing switched off, asked to
    stream, returns a string. *)
Lemma run_without_parsing_witness :
  run (Some (VStr "hello")) true (Reference.unparsed_world (OMClass "A"))
  = (Ok (Value (VStr "hello")),
     snd (_run (Some (VStr "hello")) false
            (Reference.unparsed_world (OMClass "A")))).
Proof.
  assert (true && streamable (self (Reference.unparsed_world (OMClass "A")))
          = false) as Hmode by (vm_compute; reflexivity).
  assert (yielded (fst (_run (Some (VStr "hello")) false
                          (Reference.unparsed_world (OMClass "A"))))
          = ["hello"]) as Hyield by (vm_compute; reflexivity).
  assert (parse_output (self (Reference.unparsed_world (OMClass "A")))
          = false) as Hoff by (vm_compute; reflexivity).
  pose proof (run_without_parsing (Some (VStr "hello")) true
                (Reference.unparsed_world (OMClass "A"))
                (or_intror Hoff)) as Hrun.
  rewrite Hmode in Hrun. lazy zeta in Hrun. rewrite Hyield in Hrun.
  exact (proj1 Hrun).
Defined.

(** ** A raw chat exchange *)

Section Exchange.
Context {LLM Storage : Type}.
Context `{!LLMClient LLM, !StorageAdapter Storage, !TaskRunner LLM, !Codecs}.
Implicit Type w : World LLM Storage.

(** The memory after an exchange: the user's message (when not empty) and
    the response [m] join the chat history, and the forwarded messages [ms]
    join the raw messages. *)
Lemma _chat_raw_exchange messages user_message (stream : bool) w
    (client client' : LLM) ys ms m :
  llm (self (snd (read_from_storage w))) = Some client →
  (if stream then llm_generate_stream client messages
   else let '(d, ms, c) := llm_generate client messages in ([d], ms, c))
  = (ys, ms, client') →
  last ms = Some m →
  let mem0 := memory (self (snd (read_from_storage w))) in
  let mem :=
    AssistantMemory.mk
      (AssistantMemory.chat_history mem0
       ++ (if nonempty user_message
           then [Message.mk "user" user_message] else [])
       ++ [m])
      (AssistantMemory.llm_messages mem0 ++ ms) in
  ∃ w', _chat_raw messages user_message stream w = (mkDrained ys None, w')
        ∧ llm (self w') = Some client'
        ∧ memory (self w') = mem
        ∧ (is_Some (storage (self w)) →
           ∃ pre row post,
             trace w' = pre ++ EvStorageUpsert row :: post
             ∧ AssistantRun.memory row = Some (memory_to_dict mem)
             ∧ Forall (λ e, is_storage_event e = false) post).
Proof.
  intros Hllm Hgen Hlast mem0 mem. subst mem mem0. revert Hllm.
  destruct (read_from_storage_trace w) as (r & w1 & tr & Heq & Ht & Hs & Hl).
  unfold _chat_raw, generator. mrun. rewrite Heq. simpl. intros Hllm.
  destruct (llm (self w)) as [c0|]; [|by rewrite Hl in Hllm]. rewrite Heq.
  destruct (nonempty user_message); mrun; rewrite Hllm;
    (destruct stream;
     [rewrite Hgen
     |destruct (llm_generate client messages) as [[d ms0] c1];
      injection Hgen as <- <- <-]);
    mrun; rewrite Hlast; mrun;
    unfold write_to_storage; mrun; rewrite Hs;
    (destruct (storage (self w)) as [st|]; mrun;
     [destruct (storage_upsert st _) as [written st']; mrun|]);
    unfold _api_log_assistant_event; mrun;
    (destruct (monitoring (self w1)); simpl);
    unfold AssistantMemory.add_chat_message, AssistantMemory.add_llm_messages;
    simpl; rewrite <- ?(app_assoc (AssistantMemory.chat_history _));
    (eexists; split; [reflexivity|]; split; [reflexivity|];
     split; [reflexivity|]);
    simpl; intros [st0 Hst0]; try discriminate Hst0;
    try rewrite <- (app_assoc _ [EvStorageUpsert _] [_]);
    eexists _, _, _;
    (split; [reflexivity|]); (split; [reflexivity|]);
    by repeat constructor.
Qed.

(** X23.  A raw chat exchange on an assistant without tasks, with the
    language model [client] in place once the run is loaded, whose call
    leaves [ms] as the message list with [m] last.  Without streaming
    [chat_raw] returns the response dictionary of the model; with streaming
    it returns, without running anything, the generator that yields the
    model's deltas.  Either way, once the call is through: the assistant
    holds the model as the call left it; the user's message (when not empty)
    and [m] have joined the chat history and [ms] the raw messages; and with
    a storage configured the last storage call is an upsert of a row
    carrying that memory. *)
Theorem chat_raw_records_exchange messages user_message (stream : bool) w
    (client client' : LLM) ys ms m :
  has_tasks (self w) = false →
  llm (self (snd (read_from_storage w))) = Some client →
  (if stream then llm_generate_stream client messages
   else let '(d, ms, c) := llm_generate client messages in ([d], ms, c))
  = (ys, ms, client') →
  last ms = Some m →
  let mem0 := memory (self (snd (read_from_storage w))) in
  let mem :=
    AssistantMemory.mk
      (AssistantMemory.chat_history mem0
       ++ (if nonempty user_message
           then [Message.mk "user" user_message] else [])
       ++ [m])
      (AssistantMemory.llm_messages mem0 ++ ms) in
  ∃ w',
    (if stream
     then chat_raw messages user_message true w
          = (Ok (Iterator (_chat_raw messages user_message true)), w)
          ∧ _chat_raw messages user_message true w = (mkDrained ys None, w')
     else ∃ d, ys = [d]
               ∧ chat_raw messages user_message false w = (Ok (Value d), w'))
    ∧ llm (self w') = Some client'
    ∧ memory (self w') = mem
    ∧ (is_Some (storage (self w)) →
       ∃ pre row post,
         trace w' = pre ++ EvStorageUpsert row :: post
         ∧ AssistantRun.memory row = Some (memory_to_dict mem)
         ∧ Forall (λ e, is_storage_event e = false) post).
Proof.
  intros Htasks Hllm Hgen Hlast mem0 mem.
  destruct (_chat_raw_exchange messages user_message stream w client client'
              ys ms m Hllm Hgen Hlast) as (w' & Hraw & Hrest).
  exists w'. split; [|exact Hrest].
  destruct stream.
  - split; [|exact Hraw].
    unfold chat_raw, bind, get_self, ret. by rewrite Htasks.
  - destruct (llm_generate client messages) as [[d ms0] c].
    injection Hgen as <- _ _. exists d. split; [done|].
    unfold chat_raw, bind, get_self, ret, next. by rewrite Htasks, Hraw.
Qed.
End Exchange.

(** One exchange with the scripted model over an empty table. *)
Lemma chat_raw_records_exchange_witness :
  ∃ w',
    chat_raw Reference.hello (Some "hello") false Reference.writer_world
    = (Ok (Value (VDict {["content" := VStr "Sync at ten"]})), w')
    ∧ AssistantMemory.chat_history (memory (self w'))
      = [Message.mk "user" (Some "Can we sync tomorrow?");
         Message.mk "assistant" (Some "Sure, at ten.");
         Message.mk "user" (Some "hello");
         Message.mk "assistant" (Some "Sync at ten")].
Proof.
  destruct (chat_raw_records_exchange Reference.hello (Some "hello") false
              Reference.writer_world
              (Reference.mkScripted ["Sync at ten"] {["tokens" := VInt 3]})
              (Reference.mkScripted [] {["tokens" := VInt 3]})
              [VDict {["content" := VStr "Sync at ten"]}]
              (Reference.hello ++ [Message.mk "assistant" (Some "Sync at ten")])
              (Message.mk "assistant" (Some "Sync at ten")))
    as (w' & (d & Hd & Hcall) & _ & Hmem & _);
    [vm_compute; reflexivity ..|].
  exists w'. injection Hd as <-. split; [exact Hcall|].
  rewrite Hmem. vm_compute. reflexivity.
Defined.

(** ** What a run reports to monitoring *)

Section Monitoring.
Context {LLM Storage : Type}.
Context `{!LLMClient LLM, !StorageAdapter Storage, !TaskRunner LLM, !Codecs}.
Implicit Type w : World LLM Storage.

(** X24.  With monitoring on, the last thing a run does to the outside
    world is to send one ["run"] event, and the response text in that event
    is the text the run stores in [output]; the event also carries the
    caller's message. *)
Theorem run_reports_stored_output message stream w :
  monitoring (self w) = true →
  ∃ pre row data raw,
    trace (snd (_run message stream w)) = pre ++ [EvApiEvent row "run" data]
    ∧ data !! "llm_response" = Some (VStr raw)
    ∧ data !! "user_message" = Some (default VNone message)
    ∧ output (self (snd (_run message stream w))) = Some (VStr raw).
Proof.
  intros Hmon.
  destruct (run_loop_total message stream w) as (ls & w1 & Hloop & _).
  pose proof (frames_run_loop false message stream w)
    as (_ & _ & _ & _ & _ & Hm1 & _).
  rewrite Hloop in Hm1. simpl in Hm1.
  destruct (_run message stream w) as [d w'] eqn:Hrun. simpl.
  revert Hrun. unfold _run, generator. unfold bind at 1. rewrite Hloop. mrun.
  match goal with |- context [write_to_storage ?x] =>
    pose proof (frames_write_to_storage false x)
      as (_ & _ & _ & _ & _ & Hm2 & _);
    destruct (write_to_storage_total x) as (r & w2 & Heq & _);
    rewrite Heq in Hm2 |- *
  end.
  simpl in Hm2.
  assert (monitoring (self w2) = true) as Hmon2.
  { rewrite Hm2. destruct (tasks (self w1)) as [[|]|]; simpl; congruence. }
  unfold _api_log_assistant_event. mrun. rewrite Hmon2. simpl.
  intros [= _ <-]. simpl.
  eexists _, _, _, _. split; [reflexivity|].
  unfold run_event_data. by simplify_map_eq.
Qed.
End Monitoring.

(** The monitored event of a run of the scripted tasks. *)
Lemma run_reports_stored_output_witness :
  ∃ pre row data,
    trace (snd (_run (Some (VStr "x")) false
                  Reference.monitored_world))
    = pre ++ [EvApiEvent row "run" data]
    ∧ data !! "llm_response" = Some (VStr "ab").
Proof.
  destruct (run_reports_stored_output (Some (VStr "x")) false
              Reference.monitored_world
              eq_refl)
    as (pre & row & data & raw & Htrace & Hresp & _ & Hout).
  exists pre, row, data. split; [exact Htrace|].
  rewrite Hresp. rewrite <- Hout. vm_compute. reflexivity.
Defined.
